(** * The camera subsystem of arcade: a shallow embedding of [arcade/camera.py]

    The three camera classes of [arcade/camera.py] ([BaseCamera], [Camera] and
    [AdvanceCamera]) are embedded method by method.  A method is a computation
    in a small state-and-exception monad over the camera object: Python mutates
    the object in place, so an assignment made before an exception is raised
    stays visible to the caller, and the monad keeps the state on [Raise].

    Python floats are read as exact real numbers ([R]): the arithmetic of the
    camera is idealised, rounding is not modelled.  The one place where
    rounding decides what the code does next is the test
    [position == goal_position] that ends a movement: the lines of [update]
    that move a camera are given over binary64 as well ([Movement]), and the
    statements on arrival are made there, or on whole numbers, where the
    floats of the code compute exactly.  A float division raises
    [ZeroDivisionError] on a zero divisor, as in Python.

    The vector and matrix primitives ([Vec2], [Vec3], [Mat4]) come from the
    external [pyglet.math] library, which is not part of the repository; they
    are modelled from the operations the specification requires (translation,
    scale, rotation about an axis, orthographic projection, product, inverse,
    linear interpolation). *)

From Stdlib Require Floats.
From Stdlib Require Import Reals Lra Lia ZArith Bool.

Open Scope R_scope.

(** ** Exceptions and the method monad *)

Inductive Exception : Type :=
| ZeroDivisionError
| NotImplementedError
| TypeError.

Inductive Outcome (A : Type) : Type :=
| Return (a : A)
| Raise (e : Exception).

Arguments Return {A} a.
Arguments Raise {A} e.

(** A method body over an object of type [S]: the outcome and the object as
    the method leaves it, also when it raises. *)
Definition M (S A : Type) : Type := S -> Outcome A * S.

Definition ret {S A : Type} (a : A) : M S A := fun s => (Return a, s).

Definition raise {S A : Type} (e : Exception) : M S A := fun s => (Raise e, s).

Definition bind {S A B : Type} (m : M S A) (f : A -> M S B) : M S B :=
  fun s =>
    match m s with
    | (Return a, s') => f a s'
    | (Raise e, s') => (Raise e, s')
    end.

Definition get {S : Type} : M S S := fun s => (Return s, s).

Definition modify {S : Type} (f : S -> S) : M S unit := fun s => (Return tt, f s).

(** A pure but fallible computation (a division, a library call) run inside a
    method. *)
Definition lift {S A : Type} (o : Outcome A) : M S A := fun s => (o, s).

Declare Scope method_scope.
Delimit Scope method_scope with method.
Notation "x <- m ;; k" := (bind m (fun x => k))
  (at level 61, m at next level, right associativity) : method_scope.
Notation "m ;; k" := (bind m (fun _ => k))
  (at level 61, right associativity) : method_scope.
Open Scope method_scope.

(** Binding of pure fallible computations. *)
Definition obind {A B : Type} (o : Outcome A) (f : A -> Outcome B) : Outcome B :=
  match o with
  | Return a => f a
  | Raise e => Raise e
  end.

(** The state a method leaves behind and its outcome. *)
Definition state_after {S A : Type} (m : M S A) (s : S) : S := snd (m s).
Definition outcome_of {S A : Type} (m : M S A) (s : S) : Outcome A := fst (m s).

(** ** Numbers *)

(** Python's [==] and [<] on floats. *)
Definition Reqb (a b : R) : bool := if Req_dec_T a b then true else false.
Definition Rltb (a b : R) : bool := if Rlt_dec a b then true else false.

(** Python's [/] on floats. *)
Definition div (a b : R) : Outcome R :=
  if Req_dec_T b 0 then Raise ZeroDivisionError else Return (a / b).

(** [math.radians]. *)
Definition radians (deg : R) : R := deg * PI / 180.

(** [math.atan2 y x]. *)
Definition atan2 (y x : R) : R :=
  if Rlt_dec 0 x then atan (y / x)
  else if Rlt_dec x 0 then
         (if Rlt_dec y 0 then atan (y / x) - PI else atan (y / x) + PI)
       else if Rlt_dec 0 y then PI / 2
            else if Rlt_dec y 0 then - (PI / 2)
                 else 0.

(** Modelled from the spec: [arcade.get_distance], the Euclidean distance
    between two points ([distance = |offset|]); the function lives in
    another module of the package. *)
Definition get_distance (x1 y1 x2 y2 : R) : R :=
  sqrt ((x1 - x2) * (x1 - x2) + (y1 - y2) * (y1 - y2)).

(** ** Vectors *)

Record Vec2 : Type := mkVec2 { vx : R; vy : R }.

Record Vec3 : Type := mkVec3 { v3x : R; v3y : R; v3z : R }.

Definition vec2_add (a b : Vec2) : Vec2 := mkVec2 (vx a + vx b) (vy a + vy b).
Definition vec2_sub (a b : Vec2) : Vec2 := mkVec2 (vx a - vx b) (vy a - vy b).
(** [Vec2 * Vec2] multiplies per axis. *)
Definition vec2_mul (a b : Vec2) : Vec2 := mkVec2 (vx a * vx b) (vy a * vy b).
Definition vec2_eqb (a b : Vec2) : bool := Reqb (vx a) (vx b) && Reqb (vy a) (vy b).

(** Modelled from the spec: [Vec2.lerp], linear interpolation from [a] to
    [b] by the fraction [alpha], over the reals ([Movement.lerp] gives it
    over any numbers, binary64 among them). *)
Definition lerp (a b : Vec2) (alpha : R) : Vec2 :=
  mkVec2 (vx a + alpha * (vx b - vx a)) (vy a + alpha * (vy b - vy a)).

Definition vec3_add (a b : Vec3) : Vec3 :=
  mkVec3 (v3x a + v3x b) (v3y a + v3y b) (v3z a + v3z b).
Definition vec3_neg (a : Vec3) : Vec3 := mkVec3 (- v3x a) (- v3y a) (- v3z a).

Definition vec2_zero : Vec2 := mkVec2 0 0.

(** Distance between two points, for the statements about movement. *)
Definition distance (a b : Vec2) : R := get_distance (vx a) (vy a) (vx b) (vy b).

(** ** 4x4 matrices

    A [Mat4] is a tuple of sixteen numbers, [e0] to [e15] in the order of the
    library's tuple.  The tuple is read row by row and a point is a row
    vector, so a translation sits in [e12], [e13], [e14] and the product
    [a @ b] applies [a] first and [b] second.  This is the reading under
    which the cameras make sense: the view matrix translates by the
    position divided by half the viewport, that is in the units the
    projection produces, so in [projection @ view] the projection acts
    first; and [translate(-anchor) @ rotate @ translate(anchor)] is the
    rotation about the anchor that the specification describes. *)

Record Mat4 : Type := mkMat4 {
  e0 : R; e1 : R; e2 : R; e3 : R;
  e4 : R; e5 : R; e6 : R; e7 : R;
  e8 : R; e9 : R; e10 : R; e11 : R;
  e12 : R; e13 : R; e14 : R; e15 : R
}.

Definition entry (m : Mat4) (i j : nat) : R :=
  match i, j with
  | 0%nat, 0%nat => e0 m | 0%nat, 1%nat => e1 m | 0%nat, 2%nat => e2 m | 0%nat, 3%nat => e3 m
  | 1%nat, 0%nat => e4 m | 1%nat, 1%nat => e5 m | 1%nat, 2%nat => e6 m | 1%nat, 3%nat => e7 m
  | 2%nat, 0%nat => e8 m | 2%nat, 1%nat => e9 m | 2%nat, 2%nat => e10 m | 2%nat, 3%nat => e11 m
  | 3%nat, 0%nat => e12 m | 3%nat, 1%nat => e13 m | 3%nat, 2%nat => e14 m | 3%nat, 3%nat => e15 m
  | _, _ => 0
  end.

Definition build (f : nat -> nat -> R) : Mat4 :=
  (mkMat4 (f 0 0) (f 0 1) (f 0 2) (f 0 3)
          (f 1 0) (f 1 1) (f 1 2) (f 1 3)
          (f 2 0) (f 2 1) (f 2 2) (f 2 3)
          (f 3 0) (f 3 1) (f 3 2) (f 3 3))%nat.

(** [Mat4()], the identity. *)
Definition Mat4_identity : Mat4 :=
  mkMat4 1 0 0 0  0 1 0 0  0 0 1 0  0 0 0 1.

(** Modelled from the spec: matrix multiply, [a @ b]. *)
Definition matmul (a b : Mat4) : Mat4 :=
  mkMat4
    (e0 a * e0 b + e1 a * e4 b + e2 a * e8 b + e3 a * e12 b)
    (e0 a * e1 b + e1 a * e5 b + e2 a * e9 b + e3 a * e13 b)
    (e0 a * e2 b + e1 a * e6 b + e2 a * e10 b + e3 a * e14 b)
    (e0 a * e3 b + e1 a * e7 b + e2 a * e11 b + e3 a * e15 b)
    (e4 a * e0 b + e5 a * e4 b + e6 a * e8 b + e7 a * e12 b)
    (e4 a * e1 b + e5 a * e5 b + e6 a * e9 b + e7 a * e13 b)
    (e4 a * e2 b + e5 a * e6 b + e6 a * e10 b + e7 a * e14 b)
    (e4 a * e3 b + e5 a * e7 b + e6 a * e11 b + e7 a * e15 b)
    (e8 a * e0 b + e9 a * e4 b + e10 a * e8 b + e11 a * e12 b)
    (e8 a * e1 b + e9 a * e5 b + e10 a * e9 b + e11 a * e13 b)
    (e8 a * e2 b + e9 a * e6 b + e10 a * e10 b + e11 a * e14 b)
    (e8 a * e3 b + e9 a * e7 b + e10 a * e11 b + e11 a * e15 b)
    (e12 a * e0 b + e13 a * e4 b + e14 a * e8 b + e15 a * e12 b)
    (e12 a * e1 b + e13 a * e5 b + e14 a * e9 b + e15 a * e13 b)
    (e12 a * e2 b + e13 a * e6 b + e14 a * e10 b + e15 a * e14 b)
    (e12 a * e3 b + e13 a * e7 b + e14 a * e11 b + e15 a * e15 b).

(** Modelled from the spec: [Mat4.from_translation]. *)
Definition from_translation (v : Vec3) : Mat4 :=
  mkMat4 1 0 0 0  0 1 0 0  0 0 1 0  (v3x v) (v3y v) (v3z v) 1.

(** Modelled from the spec: [Mat4.scale], the scale of [m] by [v] per axis. *)
Definition Mat4_scale (m : Mat4) (v : Vec3) : Mat4 :=
  mkMat4 (e0 m * v3x v) (e1 m) (e2 m) (e3 m)
         (e4 m) (e5 m * v3y v) (e6 m) (e7 m)
         (e8 m) (e9 m) (e10 m * v3z v) (e11 m)
         (e12 m) (e13 m) (e14 m) (e15 m).

(** Modelled from the spec: [Mat4.from_rotation], the rotation by [angle]
    radians about the axis [v] (the cameras only rotate about Z). *)
Definition from_rotation (angle : R) (v : Vec3) : Mat4 :=
  let c := cos angle in
  let s := sin angle in
  let t := 1 - c in
  let x := v3x v in
  let y := v3y v in
  let z := v3z v in
  mkMat4 (c + t * x * x) (t * x * y + s * z) (t * x * z - s * y) 0
         (t * y * x - s * z) (c + t * y * y) (t * y * z + s * x) 0
         (t * z * x + s * y) (t * z * y - s * x) (c + t * z * z) 0
         0 0 0 1.

(** Modelled from the spec: [Mat4.orthogonal_projection]; its divisions by
    the width, the height and the depth of the box raise on zero. *)
Definition orthogonal_projection (left right bottom top z_near z_far : R)
  : Outcome Mat4 :=
  let width := right - left in
  let height := top - bottom in
  let depth := z_far - z_near in
  obind (div 2 width) (fun sx =>
  obind (div 2 height) (fun sy =>
  obind (div 2 (- depth)) (fun sz =>
  obind (div (- (right + left)) width) (fun tx =>
  obind (div (- (top + bottom)) height) (fun ty =>
  obind (div (- (z_far + z_near)) depth) (fun tz =>
  Return (mkMat4 sx 0 0 0  0 sy 0 0  0 0 sz 0  tx ty tz 1))))))).

(** Determinant and cofactors, for the inverse. *)
Definition skip (k i : nat) : nat := if (i <? k)%nat then i else S i.

Definition coeff (f : nat -> nat -> R) (i j : nat) : R := f i j.

Definition det3 (f : nat -> nat -> R) : R :=
  coeff f 0 0 * (coeff f 1 1 * coeff f 2 2 - coeff f 1 2 * coeff f 2 1)
  - coeff f 0 1 * (coeff f 1 0 * coeff f 2 2 - coeff f 1 2 * coeff f 2 0)
  + coeff f 0 2 * (coeff f 1 0 * coeff f 2 1 - coeff f 1 1 * coeff f 2 0).

Definition sign (i j : nat) : R := if Nat.even (i + j) then 1 else -1.

Definition cofactor (m : Mat4) (i j : nat) : R :=
  sign i j * det3 (fun r c => entry m (skip i r) (skip j c)).

Definition det (m : Mat4) : R :=
  entry m 0 0 * cofactor m 0 0 + entry m 0 1 * cofactor m 0 1
  + entry m 0 2 * cofactor m 0 2 + entry m 0 3 * cofactor m 0 3.

(** Modelled from the spec: matrix inverse, [~m]; a singular matrix is
    returned as it is. *)
Definition Mat4_invert (m : Mat4) : Mat4 :=
  if Req_dec_T (det m) 0 then m
  else build (fun i j => cofactor m j i / det m).

(** Modelled from the spec: how a matrix handed to the render target maps
    a point of the plane ([rotationMatrix * P]): the row vector
    [(x, y, 0, 1)] times the matrix. *)
Definition transform_point (m : Mat4) (p : Vec2) : Vec2 :=
  mkVec2 (vx p * e0 m + vy p * e4 m + 0 * e8 m + 1 * e12 m)
         (vx p * e1 m + vy p * e5 m + 0 * e9 m + 1 * e13 m).

(** ** Tuples and the window *)

Definition FourIntTuple : Type := (Z * Z * Z * Z)%type.
Definition FourFloatTuple : Type := (R * R * R * R)%type.

Definition tuple_2 (v : FourIntTuple) : Z := let '(_, _, w, _) := v in w.
Definition tuple_3 (v : FourIntTuple) : Z := let '(_, _, _, h) := v in h.

(** The rendering context of the window: what [use()] publishes. *)
Record Context : Type := mkContext {
  ctx_viewport : FourIntTuple;
  projection_2d_matrix : option Mat4;
  view_matrix_2d : Mat4
}.

(** The window a camera refers to.  Python shares one window object between
    the cameras; one camera at a time is modelled here, with its window, and
    [current_camera] tells whether that camera is the active one. *)
Record Window : Type := mkWindow {
  width : Z;
  height : Z;
  current_camera : bool;
  ctx : Context
}.

Definition set_current_camera (w : Window) : Window :=
  mkWindow (width w) (height w) true (ctx w).

Definition set_ctx (c : Context) (w : Window) : Window :=
  mkWindow (width w) (height w) (current_camera w) c.

Definition set_ctx_viewport (v : FourIntTuple) (w : Window) : Window :=
  set_ctx (mkContext v (projection_2d_matrix (ctx w)) (view_matrix_2d (ctx w))) w.

Definition set_projection_2d_matrix (m : option Mat4) (w : Window) : Window :=
  set_ctx (mkContext (ctx_viewport (ctx w)) m (view_matrix_2d (ctx w))) w.

Definition set_view_matrix_2d (m : Mat4) (w : Window) : Window :=
  set_ctx (mkContext (ctx_viewport (ctx w)) (projection_2d_matrix (ctx w)) m) w.

(** Python's [value or default] on an optional argument. *)
Definition or_default {A : Type} (o : option A) (d : A) : A :=
  match o with
  | Some v => v
  | None => d
  end.

(** What a constructor yields from the run of its body on the new object:
    the object, or the exception (no object is returned then). *)
Definition constructed {S : Type} (r : Outcome unit * S) : Outcome S :=
  match r with
  | (Return _, s) => Return s
  | (Raise e, _) => Raise e
  end.

(** ** [class BaseCamera] *)

Module BaseCamera.

Record t : Type := mk {
  _window : Window;
  _viewport : FourIntTuple;
  _projection : FourFloatTuple;
  _projection_matrix : Mat4;
  _view_matrix : Mat4;
  _combined_matrix : Mat4;
  position : Vec2;
  goal_position : Vec2;
  move_speed : R;
  moving : bool
}.

Definition with_window (v : Window) (s : t) : t :=
  mk v (_viewport s) (_projection s) (_projection_matrix s) (_view_matrix s)
    (_combined_matrix s) (position s) (goal_position s) (move_speed s)
    (moving s).

Arguments with_window v s /.

Definition with_viewport (v : FourIntTuple) (s : t) : t :=
  mk (_window s) v (_projection s) (_projection_matrix s) (_view_matrix s)
    (_combined_matrix s) (position s) (goal_position s) (move_speed s)
    (moving s).

Arguments with_viewport v s /.

Definition with_projection (v : FourFloatTuple) (s : t) : t :=
  mk (_window s) (_viewport s) v (_projection_matrix s) (_view_matrix s)
    (_combined_matrix s) (position s) (goal_position s) (move_speed s)
    (moving s).

Arguments with_projection v s /.

Definition with_projection_matrix (v : Mat4) (s : t) : t :=
  mk (_window s) (_viewport s) (_projection s) v (_view_matrix s)
    (_combined_matrix s) (position s) (goal_position s) (move_speed s)
    (moving s).

Arguments with_projection_matrix v s /.

Definition with_view_matrix (v : Mat4) (s : t) : t :=
  mk (_window s) (_viewport s) (_projection s) (_projection_matrix s) v
    (_combined_matrix s) (position s) (goal_position s) (move_speed s)
    (moving s).

Arguments with_view_matrix v s /.

Definition with_combined_matrix (v : Mat4) (s : t) : t :=
  mk (_window s) (_viewport s) (_projection s) (_projection_matrix s)
    (_view_matrix s) v (position s) (goal_position s) (move_speed s)
    (moving s).

Arguments with_combined_matrix v s /.

Definition with_position (v : Vec2) (s : t) : t :=
  mk (_window s) (_viewport s) (_projection s) (_projection_matrix s)
    (_view_matrix s) (_combined_matrix s) v (goal_position s) (move_speed s)
    (moving s).

Arguments with_position v s /.

Definition with_goal_position (v : Vec2) (s : t) : t :=
  mk (_window s) (_viewport s) (_projection s) (_projection_matrix s)
    (_view_matrix s) (_combined_matrix s) (position s) v (move_speed s)
    (moving s).

Arguments with_goal_position v s /.

Definition with_move_speed (v : R) (s : t) : t :=
  mk (_window s) (_viewport s) (_projection s) (_projection_matrix s)
    (_view_matrix s) (_combined_matrix s) (position s) (goal_position s) v
    (moving s).

Arguments with_move_speed v s /.

Definition with_moving (v : bool) (s : t) : t :=
  mk (_window s) (_viewport s) (_projection s) (_projection_matrix s)
    (_view_matrix s) (_combined_matrix s) (position s) (goal_position s)
    (move_speed s) v.

Arguments with_moving v s /.


Definition viewport_width (s : t) : Z := tuple_2 (_viewport s).
Definition viewport_height (s : t) : Z := tuple_3 (_viewport s).

Definition _set_combined_matrix : M t unit :=
  modify (fun s => with_combined_matrix
                     (matmul (_projection_matrix s) (_view_matrix s)) s).

Definition _set_projection_matrix (update_combined_matrix : bool) : M t unit :=
  s <- get ;;
  let '(p_left, p_right, p_bottom, p_top) := _projection s in
  pm <- lift (orthogonal_projection p_left p_right p_bottom p_top (-1) 1) ;;
  modify (with_projection_matrix pm) ;;
  if update_combined_matrix then _set_combined_matrix else ret tt.

Definition _set_view_matrix : M t unit :=
  s <- get ;;
  x <- lift (div (vx (position s)) (IZR (viewport_width s) / 2)) ;;
  y <- lift (div (vy (position s)) (IZR (viewport_height s) / 2)) ;;
  let result_position := mkVec3 x y 0 in
  modify (with_view_matrix (Mat4_invert (from_translation result_position))) ;;
  _set_combined_matrix.

Definition __init__ (window : Window) (viewport : option FourIntTuple)
    (projection : option FourFloatTuple) : Outcome t :=
  let self :=
    mk window
       (or_default viewport (0, 0, width window, height window)%Z)
       (or_default projection (0, IZR (width window), 0, IZR (height window)))
       Mat4_identity Mat4_identity Mat4_identity
       (mkVec2 0 0) (mkVec2 0 0) 1 false in
  constructed ((_set_projection_matrix false ;; _set_view_matrix) self).

Definition viewport_setter (viewport : FourIntTuple) : M t unit :=
  modify (with_viewport viewport).

Definition projection_setter (new_projection : FourFloatTuple) : M t unit :=
  modify (with_projection new_projection) ;;
  _set_projection_matrix true.

Definition move_to (vector : Vec2) (speed : R) : M t unit :=
  let pos := mkVec2 (vx vector) (vy vector) in
  modify (with_goal_position pos) ;;
  modify (with_move_speed speed) ;;
  modify (with_moving true).

Definition move (vector : Vec2) : M t unit := move_to vector 1.

Definition update : M t unit :=
  s <- get ;;
  if moving s then
    modify (with_position (lerp (position s) (goal_position s) (move_speed s))) ;;
    s1 <- get ;;
    (if vec2_eqb (position s1) (goal_position s1)
     then modify (with_moving false) else ret tt) ;;
    _set_view_matrix
  else ret tt.

Definition use : M t unit :=
  modify (fun s => with_window (set_current_camera (_window s)) s) ;;
  update ;;
  modify (fun s => with_window (set_ctx_viewport (_viewport s) (_window s)) s) ;;
  modify (fun s => with_window
                     (set_projection_2d_matrix (Some (_combined_matrix s))
                                               (_window s)) s).

End BaseCamera.

(** ** [class Camera] *)

Module Camera.

Record t : Type := mk {
  _window : Window;
  position : Vec2;
  goal_position : Vec2;
  _rotation : R;
  _anchor : option (R * R);
  move_speed : R;
  projection_matrix : option Mat4;
  view_matrix : option Mat4;
  combined_matrix : option Mat4;
  near : R;
  far : R;
  shake_velocity : Vec2;
  shake_offset : Vec2;
  shake_speed : R;
  shake_damping : R;
  scale : R;
  viewport_width : Z;
  viewport_height : Z
}.

Definition with_window (v : Window) (s : t) : t :=
  mk v (position s) (goal_position s) (_rotation s) (_anchor s) (move_speed s)
    (projection_matrix s) (view_matrix s) (combined_matrix s) (near s) (far s)
    (shake_velocity s) (shake_offset s) (shake_speed s) (shake_damping s)
    (scale s) (viewport_width s) (viewport_height s).

Arguments with_window v s /.

Definition with_position (v : Vec2) (s : t) : t :=
  mk (_window s) v (goal_position s) (_rotation s) (_anchor s) (move_speed s)
    (projection_matrix s) (view_matrix s) (combined_matrix s) (near s) (far s)
    (shake_velocity s) (shake_offset s) (shake_speed s) (shake_damping s)
    (scale s) (viewport_width s) (viewport_height s).

Arguments with_position v s /.

Definition with_goal_position (v : Vec2) (s : t) : t :=
  mk (_window s) (position s) v (_rotation s) (_anchor s) (move_speed s)
    (projection_matrix s) (view_matrix s) (combined_matrix s) (near s) (far s)
    (shake_velocity s) (shake_offset s) (shake_speed s) (shake_damping s)
    (scale s) (viewport_width s) (viewport_height s).

Arguments with_goal_position v s /.

Definition with_rotation (v : R) (s : t) : t :=
  mk (_window s) (position s) (goal_position s) v (_anchor s) (move_speed s)
    (projection_matrix s) (view_matrix s) (combined_matrix s) (near s) (far s)
    (shake_velocity s) (shake_offset s) (shake_speed s) (shake_damping s)
    (scale s) (viewport_width s) (viewport_height s).

Arguments with_rotation v s /.

Definition with_anchor (v : option (R * R)) (s : t) : t :=
  mk (_window s) (position s) (goal_position s) (_rotation s) v (move_speed s)
    (projection_matrix s) (view_matrix s) (combined_matrix s) (near s) (far s)
    (shake_velocity s) (shake_offset s) (shake_speed s) (shake_damping s)
    (scale s) (viewport_width s) (viewport_height s).

Arguments with_anchor v s /.

Definition with_move_speed (v : R) (s : t) : t :=
  mk (_window s) (position s) (goal_position s) (_rotation s) (_anchor s) v
    (projection_matrix s) (view_matrix s) (combined_matrix s) (near s) (far s)
    (shake_velocity s) (shake_offset s) (shake_speed s) (shake_damping s)
    (scale s) (viewport_width s) (viewport_height s).

Arguments with_move_speed v s /.

Definition with_projection_matrix (v : option Mat4) (s : t) : t :=
  mk (_window s) (position s) (goal_position s) (_rotation s) (_anchor s)
    (move_speed s) v (view_matrix s) (combined_matrix s) (near s) (far s)
    (shake_velocity s) (shake_offset s) (shake_speed s) (shake_damping s)
    (scale s) (viewport_width s) (viewport_height s).

Arguments with_projection_matrix v s /.

Definition with_view_matrix (v : option Mat4) (s : t) : t :=
  mk (_window s) (position s) (goal_position s) (_rotation s) (_anchor s)
    (move_speed s) (projection_matrix s) v (combined_matrix s) (near s)
    (far s) (shake_velocity s) (shake_offset s) (shake_speed s)
    (shake_damping s) (scale s) (viewport_width s) (viewport_height s).

Arguments with_view_matrix v s /.

Definition with_combined_matrix (v : option Mat4) (s : t) : t :=
  mk (_window s) (position s) (goal_position s) (_rotation s) (_anchor s)
    (move_speed s) (projection_matrix s) (view_matrix s) v (near s) (far s)
    (shake_velocity s) (shake_offset s) (shake_speed s) (shake_damping s)
    (scale s) (viewport_width s) (viewport_height s).

Arguments with_combined_matrix v s /.

Definition with_shake_velocity (v : Vec2) (s : t) : t :=
  mk (_window s) (position s) (goal_position s) (_rotation s) (_anchor s)
    (move_speed s) (projection_matrix s) (view_matrix s) (combined_matrix s)
    (near s) (far s) v (shake_offset s) (shake_speed s) (shake_damping s)
    (scale s) (viewport_width s) (viewport_height s).

Arguments with_shake_velocity v s /.

Definition with_shake_offset (v : Vec2) (s : t) : t :=
  mk (_window s) (position s) (goal_position s) (_rotation s) (_anchor s)
    (move_speed s) (projection_matrix s) (view_matrix s) (combined_matrix s)
    (near s) (far s) (shake_velocity s) v (shake_speed s) (shake_damping s)
    (scale s) (viewport_width s) (viewport_height s).

Arguments with_shake_offset v s /.

Definition with_shake_speed (v : R) (s : t) : t :=
  mk (_window s) (position s) (goal_position s) (_rotation s) (_anchor s)
    (move_speed s) (projection_matrix s) (view_matrix s) (combined_matrix s)
    (near s) (far s) (shake_velocity s) (shake_offset s) v (shake_damping s)
    (scale s) (viewport_width s) (viewport_height s).

Arguments with_shake_speed v s /.

Definition with_shake_damping (v : R) (s : t) : t :=
  mk (_window s) (position s) (goal_position s) (_rotation s) (_anchor s)
    (move_speed s) (projection_matrix s) (view_matrix s) (combined_matrix s)
    (near s) (far s) (shake_velocity s) (shake_offset s) (shake_speed s) v
    (scale s) (viewport_width s) (viewport_height s).

Arguments with_shake_damping v s /.

Definition with_viewport_width (v : Z) (s : t) : t :=
  mk (_window s) (position s) (goal_position s) (_rotation s) (_anchor s)
    (move_speed s) (projection_matrix s) (view_matrix s) (combined_matrix s)
    (near s) (far s) (shake_velocity s) (shake_offset s) (shake_speed s)
    (shake_damping s) (scale s) v (viewport_height s).

Arguments with_viewport_width v s /.

Definition with_viewport_height (v : Z) (s : t) : t :=
  mk (_window s) (position s) (goal_position s) (_rotation s) (_anchor s)
    (move_speed s) (projection_matrix s) (view_matrix s) (combined_matrix s)
    (near s) (far s) (shake_velocity s) (shake_offset s) (shake_speed s)
    (shake_damping s) (scale s) (viewport_width s) v.

Arguments with_viewport_height v s /.


Definition set_projection : M t unit :=
  s <- get ;;
  pm <- lift (orthogonal_projection
                0 (scale s * IZR (viewport_width s))
                0 (scale s * IZR (viewport_height s))
                (near s) (far s)) ;;
  modify (with_projection_matrix (Some pm)).

Definition __init__ (viewport_width viewport_height : Z) (window : Window)
  : Outcome t :=
  let self :=
    mk window (mkVec2 0 0) (mkVec2 0 0) 0 None 1
       None None None (-1) 1
       (mkVec2 0 0) (mkVec2 0 0) 0 0
       1
       (if (viewport_width =? 0)%Z then width window else viewport_width)
       (if (viewport_height =? 0)%Z then height window else viewport_height) in
  constructed (set_projection self).

Definition rotation_setter (value : R) : M t unit :=
  modify (with_rotation value).

Definition anchor_setter (anchor : option (R * R)) : M t unit :=
  modify (with_anchor (match anchor with
                       | None => None
                       | Some a => Some (fst a, snd a)
                       end)).

Definition update : M t unit :=
  modify (fun s => with_position
                     (lerp (position s) (goal_position s) (move_speed s)) s) ;;
  modify (fun s => with_shake_offset
                     (vec2_add (shake_offset s) (shake_velocity s)) s) ;;
  s <- get ;;
  let vx' := vx (shake_velocity s) in
  let vy' := vy (shake_velocity s) in
  let ox := vx (shake_offset s) in
  let oy := vy (shake_offset s) in
  let angle := atan2 ox oy in
  let distance := get_distance 0 0 ox oy in
  let velocity_mag := get_distance 0 0 vx' vy' in
  let reverse_speed := Rmin (shake_speed s) distance in
  let opposite_angle := angle + PI in
  let opposite_vector :=
    mkVec2 (sin opposite_angle * reverse_speed)
           (cos opposite_angle * reverse_speed) in
  (if Rltb velocity_mag (shake_speed s) && Rltb distance (shake_speed s)
   then modify (with_shake_velocity (mkVec2 0 0)) ;;
        modify (with_shake_offset (mkVec2 0 0))
   else ret tt) ;;
  modify (fun s => with_shake_velocity
                     (vec2_add (shake_velocity s) opposite_vector) s) ;;
  modify (fun s => with_shake_velocity
                     (vec2_mul (shake_velocity s)
                               (mkVec2 (shake_damping s) (shake_damping s))) s) ;;
  s <- get ;;
  let result_position := vec2_add (position s) (shake_offset s) in
  x <- lift (div (vx result_position)
                 ((IZR (viewport_width s) * scale s) / 2)) ;;
  y <- lift (div (vy result_position)
                 ((IZR (viewport_height s) * scale s) / 2)) ;;
  let result_position := mkVec3 x y 0 in
  modify (with_view_matrix
            (Some (Mat4_invert
                     (matmul (from_translation result_position)
                             (Mat4_scale Mat4_identity
                                         (mkVec3 (scale s) (scale s) 1)))))) ;;
  s <- get ;;
  match projection_matrix s, view_matrix s with
  | Some p, Some v => modify (with_combined_matrix (Some (matmul p v)))
  | _, _ => raise TypeError
  end.

Definition resize (viewport_width viewport_height : Z) : M t unit :=
  modify (with_viewport_width viewport_width) ;;
  modify (with_viewport_height viewport_height) ;;
  set_projection.

Definition shake (velocity : Vec2) (speed damping : R) : M t unit :=
  modify (fun s => with_shake_velocity (vec2_add (shake_velocity s) velocity) s) ;;
  modify (with_shake_speed speed) ;;
  modify (with_shake_damping damping).

Definition move_to (vector : Vec2) (speed : R) : M t unit :=
  modify (with_goal_position (mkVec2 (vx vector) (vy vector))) ;;
  modify (with_move_speed speed).

Definition move (vector : Vec2) : M t unit := move_to vector 1.

Definition zoom (change : R) : M t unit := raise NotImplementedError.

(** The offset of the rotation: the anchor, or the centre of the screen. *)
Definition rotation_offset (s : t) : Vec3 :=
  match _anchor s with
  | None =>
      vec3_add (mkVec3 (vx (position s)) (vy (position s)) 0)
               (mkVec3 (IZR (viewport_width s) / 2)
                       (IZR (viewport_height s) / 2) 0)
  | Some a => mkVec3 (fst a) (snd a) 0
  end.

Definition use : M t unit :=
  modify (fun s => with_window (set_current_camera (_window s)) s) ;;
  update ;;
  modify (fun s => with_window
                     (set_ctx_viewport
                        (0, 0, viewport_width s, viewport_height s)%Z
                        (_window s)) s) ;;
  modify (fun s => with_window
                     (set_projection_2d_matrix (combined_matrix s) (_window s))
                     s) ;;
  s <- get ;;
  let rotate := from_rotation (radians (_rotation s)) (mkVec3 0 0 1) in
  let offset := rotation_offset s in
  let translate_pre := from_translation offset in
  let translate_post := from_translation (vec3_neg offset) in
  modify (fun s => with_window
                     (set_view_matrix_2d
                        (matmul (matmul translate_post rotate) translate_pre)
                        (_window s)) s).

End Camera.

(** ** [class AdvanceCamera] *)

Module AdvanceCamera.

Record t : Type := mk {
  _window : Window;
  position : Vec2;
  goal_position : Vec2;
  move_speed : R;
  moving : bool;
  _zoom : R;
  _rotation : R;
  _anchor : option (R * R);
  _near : R;
  _far : R;
  shake_velocity : Vec2;
  shake_offset : Vec2;
  shake_speed : R;
  shake_damping : R;
  shaking : bool;
  _viewport : FourIntTuple;
  _projection : FourFloatTuple;
  _projection_matrix : Mat4;
  _view_matrix : Mat4;
  _combined_matrix : Mat4;
  _rotation_matrix : Mat4
}.

Definition with_window (v : Window) (s : t) : t :=
  mk v (position s) (goal_position s) (move_speed s) (moving s) (_zoom s)
    (_rotation s) (_anchor s) (_near s) (_far s) (shake_velocity s)
    (shake_offset s) (shake_speed s) (shake_damping s) (shaking s)
    (_viewport s) (_projection s) (_projection_matrix s) (_view_matrix s)
    (_combined_matrix s) (_rotation_matrix s).

Arguments with_window v s /.

Definition with_position (v : Vec2) (s : t) : t :=
  mk (_window s) v (goal_position s) (move_speed s) (moving s) (_zoom s)
    (_rotation s) (_anchor s) (_near s) (_far s) (shake_velocity s)
    (shake_offset s) (shake_speed s) (shake_damping s) (shaking s)
    (_viewport s) (_projection s) (_projection_matrix s) (_view_matrix s)
    (_combined_matrix s) (_rotation_matrix s).

Arguments with_position v s /.

Definition with_goal_position (v : Vec2) (s : t) : t :=
  mk (_window s) (position s) v (move_speed s) (moving s) (_zoom s)
    (_rotation s) (_anchor s) (_near s) (_far s) (shake_velocity s)
    (shake_offset s) (shake_speed s) (shake_damping s) (shaking s)
    (_viewport s) (_projection s) (_projection_matrix s) (_view_matrix s)
    (_combined_matrix s) (_rotation_matrix s).

Arguments with_goal_position v s /.

Definition with_move_speed (v : R) (s : t) : t :=
  mk (_window s) (position s) (goal_position s) v (moving s) (_zoom s)
    (_rotation s) (_anchor s) (_near s) (_far s) (shake_velocity s)
    (shake_offset s) (shake_speed s) (shake_damping s) (shaking s)
    (_viewport s) (_projection s) (_projection_matrix s) (_view_matrix s)
    (_combined_matrix s) (_rotation_matrix s).

Arguments with_move_speed v s /.

Definition with_moving (v : bool) (s : t) : t :=
  mk (_window s) (position s) (goal_position s) (move_speed s) v (_zoom s)
    (_rotation s) (_anchor s) (_near s) (_far s) (shake_velocity s)
    (shake_offset s) (shake_speed s) (shake_damping s) (shaking s)
    (_viewport s) (_projection s) (_projection_matrix s) (_view_matrix s)
    (_combined_matrix s) (_rotation_matrix s).

Arguments with_moving v s /.

Definition with_zoom (v : R) (s : t) : t :=
  mk (_window s) (position s) (goal_position s) (move_speed s) (moving s) v
    (_rotation s) (_anchor s) (_near s) (_far s) (shake_velocity s)
    (shake_offset s) (shake_speed s) (shake_damping s) (shaking s)
    (_viewport s) (_projection s) (_projection_matrix s) (_view_matrix s)
    (_combined_matrix s) (_rotation_matrix s).

Arguments with_zoom v s /.

Definition with_rotation (v : R) (s : t) : t :=
  mk (_window s) (position s) (goal_position s) (move_speed s) (moving s)
    (_zoom s) v (_anchor s) (_near s) (_far s) (shake_velocity s)
    (shake_offset s) (shake_speed s) (shake_damping s) (shaking s)
    (_viewport s) (_projection s) (_projection_matrix s) (_view_matrix s)
    (_combined_matrix s) (_rotation_matrix s).

Arguments with_rotation v s /.

Definition with_anchor (v : option (R * R)) (s : t) : t :=
  mk (_window s) (position s) (goal_position s) (move_speed s) (moving s)
    (_zoom s) (_rotation s) v (_near s) (_far s) (shake_velocity s)
    (shake_offset s) (shake_speed s) (shake_damping s) (shaking s)
    (_viewport s) (_projection s) (_projection_matrix s) (_view_matrix s)
    (_combined_matrix s) (_rotation_matrix s).

Arguments with_anchor v s /.

Definition with_near (v : R) (s : t) : t :=
  mk (_window s) (position s) (goal_position s) (move_speed s) (moving s)
    (_zoom s) (_rotation s) (_anchor s) v (_far s) (shake_velocity s)
    (shake_offset s) (shake_speed s) (shake_damping s) (shaking s)
    (_viewport s) (_projection s) (_projection_matrix s) (_view_matrix s)
    (_combined_matrix s) (_rotation_matrix s).

Arguments with_near v s /.

Definition with_far (v : R) (s : t) : t :=
  mk (_window s) (position s) (goal_position s) (move_speed s) (moving s)
    (_zoom s) (_rotation s) (_anchor s) (_near s) v (shake_velocity s)
    (shake_offset s) (shake_speed s) (shake_damping s) (shaking s)
    (_viewport s) (_projection s) (_projection_matrix s) (_view_matrix s)
    (_combined_matrix s) (_rotation_matrix s).

Arguments with_far v s /.

Definition with_shake_velocity (v : Vec2) (s : t) : t :=
  mk (_window s) (position s) (goal_position s) (move_speed s) (moving s)
    (_zoom s) (_rotation s) (_anchor s) (_near s) (_far s) v (shake_offset s)
    (shake_speed s) (shake_damping s) (shaking s) (_viewport s)
    (_projection s) (_projection_matrix s) (_view_matrix s)
    (_combined_matrix s) (_rotation_matrix s).

Arguments with_shake_velocity v s /.

Definition with_shake_offset (v : Vec2) (s : t) : t :=
  mk (_window s) (position s) (goal_position s) (move_speed s) (moving s)
    (_zoom s) (_rotation s) (_anchor s) (_near s) (_far s) (shake_velocity s)
    v (shake_speed s) (shake_damping s) (shaking s) (_viewport s)
    (_projection s) (_projection_matrix s) (_view_matrix s)
    (_combined_matrix s) (_rotation_matrix s).

Arguments with_shake_offset v s /.

Definition with_shake_speed (v : R) (s : t) : t :=
  mk (_window s) (position s) (goal_position s) (move_speed s) (moving s)
    (_zoom s) (_rotation s) (_anchor s) (_near s) (_far s) (shake_velocity s)
    (shake_offset s) v (shake_damping s) (shaking s) (_viewport s)
    (_projection s) (_projection_matrix s) (_view_matrix s)
    (_combined_matrix s) (_rotation_matrix s).

Arguments with_shake_speed v s /.

Definition with_shake_damping (v : R) (s : t) : t :=
  mk (_window s) (position s) (goal_position s) (move_speed s) (moving s)
    (_zoom s) (_rotation s) (_anchor s) (_near s) (_far s) (shake_velocity s)
    (shake_offset s) (shake_speed s) v (shaking s) (_viewport s)
    (_projection s) (_projection_matrix s) (_view_matrix s)
    (_combined_matrix s) (_rotation_matrix s).

Arguments with_shake_damping v s /.

Definition with_shaking (v : bool) (s : t) : t :=
  mk (_window s) (position s) (goal_position s) (move_speed s) (moving s)
    (_zoom s) (_rotation s) (_anchor s) (_near s) (_far s) (shake_velocity s)
    (shake_offset s) (shake_speed s) (shake_damping s) v (_viewport s)
    (_projection s) (_projection_matrix s) (_view_matrix s)
    (_combined_matrix s) (_rotation_matrix s).

Arguments with_shaking v s /.

Definition with_viewport (v : FourIntTuple) (s : t) : t :=
  mk (_window s) (position s) (goal_position s) (move_speed s) (moving s)
    (_zoom s) (_rotation s) (_anchor s) (_near s) (_far s) (shake_velocity s)
    (shake_offset s) (shake_speed s) (shake_damping s) (shaking s) v
    (_projection s) (_projection_matrix s) (_view_matrix s)
    (_combined_matrix s) (_rotation_matrix s).

Arguments with_viewport v s /.

Definition with_projection (v : FourFloatTuple) (s : t) : t :=
  mk (_window s) (position s) (goal_position s) (move_speed s) (moving s)
    (_zoom s) (_rotation s) (_anchor s) (_near s) (_far s) (shake_velocity s)
    (shake_offset s) (shake_speed s) (shake_damping s) (shaking s)
    (_viewport s) v (_projection_matrix s) (_view_matrix s)
    (_combined_matrix s) (_rotation_matrix s).

Arguments with_projection v s /.

Definition with_projection_matrix (v : Mat4) (s : t) : t :=
  mk (_window s) (position s) (goal_position s) (move_speed s) (moving s)
    (_zoom s) (_rotation s) (_anchor s) (_near s) (_far s) (shake_velocity s)
    (shake_offset s) (shake_speed s) (shake_damping s) (shaking s)
    (_viewport s) (_projection s) v (_view_matrix s) (_combined_matrix s)
    (_rotation_matrix s).

Arguments with_projection_matrix v s /.

Definition with_view_matrix (v : Mat4) (s : t) : t :=
  mk (_window s) (position s) (goal_position s) (move_speed s) (moving s)
    (_zoom s) (_rotation s) (_anchor s) (_near s) (_far s) (shake_velocity s)
    (shake_offset s) (shake_speed s) (shake_damping s) (shaking s)
    (_viewport s) (_projection s) (_projection_matrix s) v
    (_combined_matrix s) (_rotation_matrix s).

Arguments with_view_matrix v s /.

Definition with_combined_matrix (v : Mat4) (s : t) : t :=
  mk (_window s) (position s) (goal_position s) (move_speed s) (moving s)
    (_zoom s) (_rotation s) (_anchor s) (_near s) (_far s) (shake_velocity s)
    (shake_offset s) (shake_speed s) (shake_damping s) (shaking s)
    (_viewport s) (_projection s) (_projection_matrix s) (_view_matrix s) v
    (_rotation_matrix s).

Arguments with_combined_matrix v s /.

Definition with_rotation_matrix (v : Mat4) (s : t) : t :=
  mk (_window s) (position s) (goal_position s) (move_speed s) (moving s)
    (_zoom s) (_rotation s) (_anchor s) (_near s) (_far s) (shake_velocity s)
    (shake_offset s) (shake_speed s) (shake_damping s) (shaking s)
    (_viewport s) (_projection s) (_projection_matrix s) (_view_matrix s)
    (_combined_matrix s) v.

Arguments with_rotation_matrix v s /.


Definition viewport_width (s : t) : Z := tuple_2 (_viewport s).
Definition viewport_height (s : t) : Z := tuple_3 (_viewport s).

Definition _set_combined_matrix : M t unit :=
  modify (fun s => with_combined_matrix
                     (matmul (_projection_matrix s) (_view_matrix s)) s).

Definition _set_projection_matrix (update_combined_matrix : bool) : M t unit :=
  s <- get ;;
  let '(p_left, p_right, p_bottom, p_top) := _projection s in
  let p_right := if Reqb (_zoom s) 1 then p_right else p_right * _zoom s in
  let p_top := if Reqb (_zoom s) 1 then p_top else p_top * _zoom s in
  pm <- lift (orthogonal_projection p_left p_right p_bottom p_top
                                    (_near s) (_far s)) ;;
  modify (with_projection_matrix pm) ;;
  if update_combined_matrix then _set_combined_matrix else ret tt.

Definition _set_view_matrix : M t unit :=
  s <- get ;;
  let result_position := vec2_add (position s) (shake_offset s) in
  x <- lift (div (vx result_position)
                 ((IZR (tuple_2 (_viewport s)) * _zoom s) / 2)) ;;
  y <- lift (div (vy result_position)
                 ((IZR (tuple_3 (_viewport s)) * _zoom s) / 2)) ;;
  let result_position := mkVec3 x y 0 in
  modify (with_view_matrix
            (Mat4_invert
               (matmul (from_translation result_position)
                       (Mat4_scale Mat4_identity
                                   (mkVec3 (_zoom s) (_zoom s) 1))))) ;;
  _set_combined_matrix.

(** The offset of the rotation: the anchor, or the centre of the screen. *)
Definition rotation_offset (s : t) : Vec3 :=
  match _anchor s with
  | None =>
      vec3_add (mkVec3 (vx (position s)) (vy (position s)) 0)
               (mkVec3 (IZR (viewport_width s) / 2)
                       (IZR (viewport_height s) / 2) 0)
  | Some a => mkVec3 (fst a) (snd a) 0
  end.

Definition _set_rotation_matrix : M t unit :=
  s <- get ;;
  let rotate := from_rotation (radians (_rotation s)) (mkVec3 0 0 1) in
  let offset := rotation_offset s in
  let translate_pre := from_translation offset in
  let translate_post := from_translation (vec3_neg offset) in
  modify (with_rotation_matrix
            (matmul (matmul translate_post rotate) translate_pre)).

Definition __init__ (viewport : option FourIntTuple)
    (projection : option FourFloatTuple) (zoom rotation : R)
    (anchor : option (R * R)) (window : Window) : Outcome t :=
  let self :=
    mk window (mkVec2 0 0) (mkVec2 0 0) 1 false
       zoom rotation anchor (-1) 1
       (mkVec2 0 0) (mkVec2 0 0) 0 0 false
       (or_default viewport (0, 0, width window, height window)%Z)
       (or_default projection (0, IZR (width window), 0, IZR (height window)))
       Mat4_identity Mat4_identity Mat4_identity Mat4_identity in
  constructed ((_set_projection_matrix false ;;
                _set_view_matrix ;;
                _set_rotation_matrix) self).

Definition viewport_setter (viewport : option FourIntTuple) : M t unit :=
  modify (fun s => with_viewport
                     (or_default viewport
                        (0, 0, width (_window s), height (_window s))%Z) s) ;;
  _set_view_matrix ;;
  _set_rotation_matrix.

Definition projection_setter (new_projection : option FourFloatTuple)
  : M t unit :=
  modify (fun s => with_projection
                     (or_default new_projection
                        (0, IZR (width (_window s)),
                         0, IZR (height (_window s)))) s) ;;
  _set_projection_matrix true.

Definition zoom_setter (zoom : R) : M t unit :=
  modify (with_zoom zoom) ;;
  _set_projection_matrix false ;;
  _set_view_matrix.

Definition near_setter (near : R) : M t unit :=
  modify (with_near near) ;;
  _set_projection_matrix true.

Definition far_setter (far : R) : M t unit :=
  modify (with_far far) ;;
  _set_projection_matrix true.

Definition rotation_setter (value : R) : M t unit :=
  modify (with_rotation value) ;;
  _set_rotation_matrix.

Definition anchor_setter (anchor : option (R * R)) : M t unit :=
  match anchor with
  | None => modify (with_anchor None)
  | Some a => modify (with_anchor (Some (fst a, snd a)))
  end ;;
  _set_rotation_matrix.

(** The body of [if self.shaking:] in [update]. *)
Definition apply_camera_shake : M t unit :=
  modify (fun s => with_shake_offset
                     (vec2_add (shake_offset s) (shake_velocity s)) s) ;;
  s <- get ;;
  let vx' := vx (shake_velocity s) in
  let vy' := vy (shake_velocity s) in
  let ox := vx (shake_offset s) in
  let oy := vy (shake_offset s) in
  let angle := atan2 ox oy in
  let distance := get_distance 0 0 ox oy in
  let velocity_mag := get_distance 0 0 vx' vy' in
  let reverse_speed := Rmin (shake_speed s) distance in
  let opposite_angle := angle + PI in
  let opposite_vector :=
    mkVec2 (sin opposite_angle * reverse_speed)
           (cos opposite_angle * reverse_speed) in
  (if Rltb velocity_mag (shake_speed s) && Rltb distance (shake_speed s)
   then modify (with_shake_velocity (mkVec2 0 0)) ;;
        modify (with_shake_offset (mkVec2 0 0)) ;;
        modify (with_shaking false)
   else ret tt) ;;
  modify (fun s => with_shake_velocity
                     (vec2_add (shake_velocity s) opposite_vector) s) ;;
  modify (fun s => with_shake_velocity
                     (vec2_mul (shake_velocity s)
                               (mkVec2 (shake_damping s) (shake_damping s))) s).

(** The body of [if self.moving:] in [update]. *)
Definition apply_goal_position : M t unit :=
  modify (fun s => with_position
                     (lerp (position s) (goal_position s) (move_speed s)) s) ;;
  s <- get ;;
  if vec2_eqb (position s) (goal_position s)
  then modify (with_moving false) else ret tt.

Definition update : M t unit :=
  s <- get ;;
  (if moving s then apply_goal_position else ret tt) ;;
  s <- get ;;
  (if shaking s then apply_camera_shake else ret tt) ;;
  s <- get ;;
  if moving s || shaking s then _set_view_matrix else ret tt.

Definition resize (viewport_width viewport_height : Z) : M t unit :=
  s <- get ;;
  let '(v_left, v_bottom, _, _) := _viewport s in
  viewport_setter (Some (v_left, v_bottom, viewport_width, viewport_height)).

Definition shake (velocity : Vec2) (speed damping : R) : M t unit :=
  modify (fun s => with_shake_velocity (vec2_add (shake_velocity s) velocity) s) ;;
  modify (with_shake_speed speed) ;;
  modify (with_shake_damping damping) ;;
  modify (with_shaking true).

Definition move_to (vector : Vec2) (speed : R) : M t unit :=
  modify (with_goal_position (mkVec2 (vx vector) (vy vector))) ;;
  modify (with_move_speed speed) ;;
  modify (with_moving true).

Definition move (vector : Vec2) : M t unit := move_to vector 1.

Definition center (vector : Vec2) (speed : R) : M t unit :=
  s <- get ;;
  let position := position s in
  let center := mkVec2 (IZR (viewport_width s) / 2)
                       (IZR (viewport_height s) / 2) in
  let target := vec2_sub (vec2_add vector position) center in
  move_to target speed.

Definition get_map_coordinates (camera_vector : Vec2) (s : t) : Vec2 :=
  vec2_add (mkVec2 (vx (position s)) (vy (position s)))
           (mkVec2 (vx camera_vector) (vy camera_vector)).

Definition use : M t unit :=
  modify (fun s => with_window (set_current_camera (_window s)) s) ;;
  update ;;
  modify (fun s => with_window (set_ctx_viewport (_viewport s) (_window s)) s) ;;
  modify (fun s => with_window
                     (set_projection_2d_matrix (Some (_combined_matrix s))
                                               (_window s)) s) ;;
  modify (fun s => with_window
                     (set_view_matrix_2d (_rotation_matrix s) (_window s)) s).

End AdvanceCamera.

(** ** The matrices of a camera state, as the specification derives them

    The specification (section 4.1) gives each matrix as a function of the
    camera fields.  These definitions follow its words; the cached matrices
    of the classes above are compared with them. *)

Module MatrixPipeline.

(** Orthographic projection over (left, right * zoom, bottom, top * zoom,
    near, far). *)
Definition projection_matrix (p_left p_right p_bottom p_top zoom near far : R)
  : Outcome Mat4 :=
  orthogonal_projection p_left (p_right * zoom) p_bottom (p_top * zoom) near far.

(** Translation by the position plus the shake offset, in units of half the
    zoomed viewport, composed with the scale by the zoom, inverted. *)
Definition view_matrix (position shake_offset : Vec2) (zoom : R)
    (viewport_width viewport_height : Z) : Outcome Mat4 :=
  obind (div (vx position + vx shake_offset)
             ((IZR viewport_width * zoom) / 2)) (fun x =>
  obind (div (vy position + vy shake_offset)
             ((IZR viewport_height * zoom) / 2)) (fun y =>
  Return (Mat4_invert (matmul (from_translation (mkVec3 x y 0))
                              (Mat4_scale Mat4_identity (mkVec3 zoom zoom 1)))))).

(** The point the rotation holds fixed: the anchor, or the centre of the
    view (position plus half the viewport extent). *)
Definition anchor_point (anchor : option (R * R)) (position : Vec2)
    (viewport_width viewport_height : Z) : Vec2 :=
  match anchor with
  | Some a => mkVec2 (fst a) (snd a)
  | None => mkVec2 (vx position + IZR viewport_width / 2)
                   (vy position + IZR viewport_height / 2)
  end.

(** translate(-anchor) . rotateZ(radians(rotation)) . translate(anchor). *)
Definition rotation_matrix (rotation : R) (anchor : Vec2) : Mat4 :=
  matmul (matmul (from_translation (mkVec3 (- vx anchor) (- vy anchor) (- 0)))
                 (from_rotation (radians rotation) (mkVec3 0 0 1)))
         (from_translation (mkVec3 (vx anchor) (vy anchor) 0)).

End MatrixPipeline.

(** The derived matrices of an [AdvanceCamera]. *)
Definition adv_projection_of (s : AdvanceCamera.t) : Outcome Mat4 :=
  let '(p_left, p_right, p_bottom, p_top) := AdvanceCamera._projection s in
  MatrixPipeline.projection_matrix p_left p_right p_bottom p_top
    (AdvanceCamera._zoom s) (AdvanceCamera._near s) (AdvanceCamera._far s).

Definition adv_view_of (s : AdvanceCamera.t) : Outcome Mat4 :=
  MatrixPipeline.view_matrix (AdvanceCamera.position s)
    (AdvanceCamera.shake_offset s) (AdvanceCamera._zoom s)
    (AdvanceCamera.viewport_width s) (AdvanceCamera.viewport_height s).

Definition adv_anchor_point (s : AdvanceCamera.t) : Vec2 :=
  MatrixPipeline.anchor_point (AdvanceCamera._anchor s)
    (AdvanceCamera.position s)
    (AdvanceCamera.viewport_width s) (AdvanceCamera.viewport_height s).

Definition adv_rotation_of (s : AdvanceCamera.t) : Mat4 :=
  MatrixPipeline.rotation_matrix (AdvanceCamera._rotation s) (adv_anchor_point s).

(** The cached combined matrix is the product of the cached projection and
    view matrices. *)
Definition adv_combined_ok (s : AdvanceCamera.t) : Prop :=
  AdvanceCamera._combined_matrix s
  = matmul (AdvanceCamera._projection_matrix s) (AdvanceCamera._view_matrix s).


Definition std_view_of (s : Camera.t) : Outcome Mat4 :=
  MatrixPipeline.view_matrix (Camera.position s) (Camera.shake_offset s)
    (Camera.scale s) (Camera.viewport_width s) (Camera.viewport_height s).

Definition std_anchor_point (s : Camera.t) : Vec2 :=
  MatrixPipeline.anchor_point (Camera._anchor s) (Camera.position s)
    (Camera.viewport_width s) (Camera.viewport_height s).

Definition std_rotation_of (s : Camera.t) : Mat4 :=
  MatrixPipeline.rotation_matrix (Camera._rotation s) (std_anchor_point s).

Definition std_combined_ok (s : Camera.t) : Prop :=
  match Camera.projection_matrix s, Camera.view_matrix s,
        Camera.combined_matrix s with
  | Some p, Some v, Some c => c = matmul p v
  | _, _, _ => False
  end.



(** ** The calls a client can make on a camera *)

Inductive BaseCall : Type :=
| BaseSetViewport (viewport : FourIntTuple)
| BaseSetProjection (new_projection : FourFloatTuple)
| BaseMoveTo (vector : Vec2) (speed : R)
| BaseMove (vector : Vec2)
| BaseUpdate
| BaseUse.

Definition base_call (c : BaseCall) : M BaseCamera.t unit :=
  match c with
  | BaseSetViewport v => BaseCamera.viewport_setter v
  | BaseSetProjection p => BaseCamera.projection_setter p
  | BaseMoveTo v speed => BaseCamera.move_to v speed
  | BaseMove v => BaseCamera.move v
  | BaseUpdate => BaseCamera.update
  | BaseUse => BaseCamera.use
  end.

Inductive AdvanceCall : Type :=
| AdvSetViewport (viewport : option FourIntTuple)
| AdvSetProjection (new_projection : option FourFloatTuple)
| AdvSetZoom (zoom : R)
| AdvSetNear (near : R)
| AdvSetFar (far : R)
| AdvSetRotation (value : R)
| AdvSetAnchor (anchor : option (R * R))
| AdvUpdate
| AdvResize (viewport_width viewport_height : Z)
| AdvShake (velocity : Vec2) (speed damping : R)
| AdvMoveTo (vector : Vec2) (speed : R)
| AdvMove (vector : Vec2)
| AdvCenter (vector : Vec2) (speed : R)
| AdvUse.

Definition advance_call (c : AdvanceCall) : M AdvanceCamera.t unit :=
  match c with
  | AdvSetViewport v => AdvanceCamera.viewport_setter v
  | AdvSetProjection p => AdvanceCamera.projection_setter p
  | AdvSetZoom z => AdvanceCamera.zoom_setter z
  | AdvSetNear n => AdvanceCamera.near_setter n
  | AdvSetFar f => AdvanceCamera.far_setter f
  | AdvSetRotation r => AdvanceCamera.rotation_setter r
  | AdvSetAnchor a => AdvanceCamera.anchor_setter a
  | AdvUpdate => AdvanceCamera.update
  | AdvResize w h => AdvanceCamera.resize w h
  | AdvShake v speed damping => AdvanceCamera.shake v speed damping
  | AdvMoveTo v speed => AdvanceCamera.move_to v speed
  | AdvMove v => AdvanceCamera.move v
  | AdvCenter v speed => AdvanceCamera.center v speed
  | AdvUse => AdvanceCamera.use
  end.

(** The states a client reaches through the constructor and the methods,
    an exception caught by the client included. *)
Inductive base_reachable : BaseCamera.t -> Prop :=
| base_reach_init window viewport projection s :
    BaseCamera.__init__ window viewport projection = Return s ->
    base_reachable s
| base_reach_call c s :
    base_reachable s -> base_reachable (state_after (base_call c) s).

Inductive advance_reachable : AdvanceCamera.t -> Prop :=
| adv_reach_init viewport projection zoom rotation anchor window s :
    AdvanceCamera.__init__ viewport projection zoom rotation anchor window
    = Return s ->
    advance_reachable s
| adv_reach_call c s :
    advance_reachable s -> advance_reachable (state_after (advance_call c) s).

(** [n] calls of a method in a row, exceptions caught. *)
Fixpoint repeat_call {S : Type} (m : M S unit) (n : nat) (s : S) : S :=
  match n with
  | O => s
  | Datatypes.S k => repeat_call m k (state_after m s)
  end.

(** ** Scenarios: an 800 by 600 window and fresh cameras on it *)

Definition window_800_600 : Window :=
  mkWindow 800 600 false (mkContext (0, 0, 0, 0)%Z None Mat4_identity).

(** The orthographic projection of (0, w, 0, h, -1, 1), for [w] and [h]
    other than zero. *)
Definition ortho_of_size (w h : R) : Mat4 :=
  mkMat4 (2 / w) 0 0 0
         0 (2 / h) 0 0
         0 0 (-1) 0
         (-1) (-1) 0 1.

(** [BaseCamera()] *)
Definition fresh_base : BaseCamera.t :=
  BaseCamera.mk window_800_600 (0, 0, 800, 600)%Z (0, 800, 0, 600)
    (ortho_of_size 800 600) Mat4_identity (ortho_of_size 800 600)
    (mkVec2 0 0) (mkVec2 0 0) 1 false.

(** [Camera()] *)
Definition fresh_camera : Camera.t :=
  Camera.mk window_800_600 (mkVec2 0 0) (mkVec2 0 0) 0 None 1
    (Some (ortho_of_size 800 600)) None None (-1) 1
    (mkVec2 0 0) (mkVec2 0 0) 0 0 1 800%Z 600%Z.

(** [AdvanceCamera(rotation=rotation)] *)
Definition fresh_advance (rotation : R) : AdvanceCamera.t :=
  AdvanceCamera.mk window_800_600 (mkVec2 0 0) (mkVec2 0 0) 1 false
    1 rotation None (-1) 1
    (mkVec2 0 0) (mkVec2 0 0) 0 0 false
    (0, 0, 800, 600)%Z (0, 800, 0, 600)
    (ortho_of_size 800 600) Mat4_identity (ortho_of_size 800 600)
    (MatrixPipeline.rotation_matrix rotation (mkVec2 400 300)).

(** ** Vocabulary of the statements *)

(** [m] keeps [P], whether it returns or raises. *)
Definition preserves {S A : Type} (P : S -> Prop) (m : M S A) : Prop :=
  forall s, P s -> P (state_after m s).

(** With an explicit anchor the cached rotation matrix of an
    [AdvanceCamera] is the one derived from the rotation and the anchor. *)
Definition anchored_rotation_ok (s : AdvanceCamera.t) : Prop :=
  forall a, AdvanceCamera._anchor s = Some a ->
            AdvanceCamera._rotation_matrix s
            = MatrixPipeline.rotation_matrix (AdvanceCamera._rotation s)
                                             (mkVec2 (fst a) (snd a)).

(** [s'] has the position, goal, speed and [moving] flag of [s]. *)
Definition adv_motion_kept (s s' : AdvanceCamera.t) : Prop :=
  AdvanceCamera.position s' = AdvanceCamera.position s
  /\ AdvanceCamera.goal_position s' = AdvanceCamera.goal_position s
  /\ AdvanceCamera.move_speed s' = AdvanceCamera.move_speed s
  /\ AdvanceCamera.moving s' = AdvanceCamera.moving s.

(** [BaseCamera()] after [move_to((100, 0), 0.25)]. *)
Definition base_moving_quarter : BaseCamera.t :=
  state_after (BaseCamera.move_to (mkVec2 100 0) (1 / 4)) fresh_base.

(** A camera that is not moving sits on its goal. *)
Definition base_settled (s : BaseCamera.t) : Prop :=
  BaseCamera.moving s = false -> BaseCamera.position s = BaseCamera.goal_position s.

Definition adv_settled (s : AdvanceCamera.t) : Prop :=
  AdvanceCamera.moving s = false ->
  AdvanceCamera.position s = AdvanceCamera.goal_position s.

(** [AdvanceCamera()] after [move_to((100, 0), 0)]. *)
Definition advance_moving_still : AdvanceCamera.t :=
  state_after (advance_call (AdvMoveTo (mkVec2 100 0) 0)) (fresh_advance 0).


Definition adv_view_fresh (s : AdvanceCamera.t) : Prop :=
  adv_view_of s = Return (AdvanceCamera._view_matrix s).


(** ** Vocabulary of the further properties *)

(** The test [velocity_mag < shake_speed and distance < shake_speed] of
    [update], on the velocity and on the offset already moved by it. *)
Definition shake_ends (velocity offset : Vec2) (shake_speed : R) : bool :=
  Rltb (get_distance 0 0 (vx velocity) (vy velocity)) shake_speed
  && Rltb (get_distance 0 0 (vx offset) (vy offset)) shake_speed.

(** [AdvanceCamera()] after [shake((0, 1), 1.5, 0.9)] and after
    [shake((0, 10), 1.5, 0.9)]. *)
Definition advance_shaken_gently : AdvanceCamera.t :=
  state_after (AdvanceCamera.shake (mkVec2 0 1) (3 / 2) (9 / 10))
              (fresh_advance 0).

Definition advance_shaken_hard : AdvanceCamera.t :=
  state_after (AdvanceCamera.shake (mkVec2 0 10) (3 / 2) (9 / 10))
              (fresh_advance 0).

(** A camera that is not shaking has no shake offset. *)
Definition adv_shake_rest (s : AdvanceCamera.t) : Prop :=
  AdvanceCamera.shaking s = false -> AdvanceCamera.shake_offset s = mkVec2 0 0.

(** [s'] has the shake fields of [s]. *)
Definition adv_shake_kept (s s' : AdvanceCamera.t) : Prop :=
  AdvanceCamera.shaking s' = AdvanceCamera.shaking s
  /\ AdvanceCamera.shake_offset s' = AdvanceCamera.shake_offset s
  /\ AdvanceCamera.shake_velocity s' = AdvanceCamera.shake_velocity s
  /\ AdvanceCamera.shake_speed s' = AdvanceCamera.shake_speed s
  /\ AdvanceCamera.shake_damping s' = AdvanceCamera.shake_damping s.

(** The derived view matrix of a [BaseCamera] (no zoom, no shake). *)
Definition base_view_of (s : BaseCamera.t) : Outcome Mat4 :=
  MatrixPipeline.view_matrix (BaseCamera.position s) (mkVec2 0 0) 1
    (BaseCamera.viewport_width s) (BaseCamera.viewport_height s).

(** The sizes an [AdvanceCamera] is built with are usable: the zoomed
    projection has a width and a height, and so has the zoomed viewport. *)
Definition usable_sizes (viewport : FourIntTuple) (projection : FourFloatTuple)
    (zoom : R) : Prop :=
  let '(p_left, p_right, p_bottom, p_top) := projection in
  p_right * zoom - p_left <> 0
  /\ p_top * zoom - p_bottom <> 0
  /\ (tuple_2 viewport <> 0)%Z
  /\ (tuple_3 viewport <> 0)%Z
  /\ zoom <> 0.

(** The calls a client makes on a [Camera]. *)
Inductive CameraCall : Type :=
| CamSetRotation (value : R)
| CamSetAnchor (anchor : option (R * R))
| CamUpdate
| CamResize (viewport_width viewport_height : Z)
| CamShake (velocity : Vec2) (speed damping : R)
| CamMoveTo (vector : Vec2) (speed : R)
| CamMove (vector : Vec2)
| CamZoom (change : R)
| CamUse.

Definition camera_call (c : CameraCall) : M Camera.t unit :=
  match c with
  | CamSetRotation value => Camera.rotation_setter value
  | CamSetAnchor anchor => Camera.anchor_setter anchor
  | CamUpdate => Camera.update
  | CamResize w h => Camera.resize w h
  | CamShake v speed damping => Camera.shake v speed damping
  | CamMoveTo v speed => Camera.move_to v speed
  | CamMove v => Camera.move v
  | CamZoom change => Camera.zoom change
  | CamUse => Camera.use
  end.

(** The states a client reaches through the constructor of [Camera] and
    its methods, an exception caught by the client included. *)
Inductive camera_reachable : Camera.t -> Prop :=
| cam_reach_init viewport_width viewport_height window s :
    Camera.__init__ viewport_width viewport_height window = Return s ->
    camera_reachable s
| cam_reach_call c s :
    camera_reachable s -> camera_reachable (state_after (camera_call c) s).

(** The projection matrix of a [Camera] is set. *)
Definition std_has_projection (s : Camera.t) : Prop :=
  Camera.projection_matrix s <> None.

(** ** The movement of [update] in the numbers of the code

    The cameras above compute over the real numbers.  Python's floats are
    IEEE binary64 numbers, and the test [position == goal_position] that
    ends a movement depends on how the interpolation rounds.  The lines of
    [update] that move a camera are therefore given once more, over any
    numbers with [+], [-], [*] and [==]: over the reals they are the
    movement of the cameras above, and over binary64 they run as the code
    does. *)

Class Numbers (F : Type) : Type := mkNumbers {
  num_add : F -> F -> F;
  num_sub : F -> F -> F;
  num_mul : F -> F -> F;
  num_eqb : F -> F -> bool
}.

#[export] Instance real_numbers : Numbers R :=
  mkNumbers R Rplus Rminus Rmult Reqb.

#[export] Instance binary64_numbers : Numbers PrimFloat.float :=
  mkNumbers PrimFloat.float PrimFloat.add PrimFloat.sub PrimFloat.mul
            PrimFloat.eqb.

Module Movement.

Record Vec2 (F : Type) : Type := mkVec2 { x : F; y : F }.

Arguments mkVec2 {F} _ _.
Arguments x {F} _.
Arguments y {F} _.

(** [Vec2.lerp] *)
Definition lerp {F : Type} `{Numbers F} (a b : Vec2 F) (alpha : F) : Vec2 F :=
  mkVec2 (num_add (x a) (num_mul alpha (num_sub (x b) (x a))))
         (num_add (y a) (num_mul alpha (num_sub (y b) (y a)))).

(** [==] on vectors *)
Definition eqb {F : Type} `{Numbers F} (a b : Vec2 F) : bool :=
  num_eqb (x a) (x b) && num_eqb (y a) (y b).

(** The fields of a camera that [update] reads and writes when it moves. *)
Record t (F : Type) : Type := mk {
  position : Vec2 F;
  goal_position : Vec2 F;
  move_speed : F;
  moving : bool
}.

Arguments mk {F} _ _ _ _.
Arguments position {F} _.
Arguments goal_position {F} _.
Arguments move_speed {F} _.
Arguments moving {F} _.

(** The body of [if self.moving:] in [update], the view matrix apart. *)
Definition update {F : Type} `{Numbers F} (s : t F) : t F :=
  if moving s then
    let p := lerp (position s) (goal_position s) (move_speed s) in
    mk p (goal_position s) (move_speed s)
       (if eqb p (goal_position s) then false else true)
  else s.

(** [n] calls of [update] in a row. *)
Fixpoint updates {F : Type} `{Numbers F} (n : nat) (s : t F) : t F :=
  match n with
  | O => s
  | S k => updates k (update s)
  end.

End Movement.

(** The movement fields of the cameras above. *)
Definition base_movement (s : BaseCamera.t) : Movement.t R :=
  Movement.mk
    (Movement.mkVec2 (vx (BaseCamera.position s)) (vy (BaseCamera.position s)))
    (Movement.mkVec2 (vx (BaseCamera.goal_position s))
                     (vy (BaseCamera.goal_position s)))
    (BaseCamera.move_speed s) (BaseCamera.moving s).

Definition adv_movement (s : AdvanceCamera.t) : Movement.t R :=
  Movement.mk
    (Movement.mkVec2 (vx (AdvanceCamera.position s))
                     (vy (AdvanceCamera.position s)))
    (Movement.mkVec2 (vx (AdvanceCamera.goal_position s))
                     (vy (AdvanceCamera.goal_position s)))
    (AdvanceCamera.move_speed s) (AdvanceCamera.moving s).

(** Movements in binary64: a camera at [(px, py)] after
    [move_to((gx, gy), speed)]. *)
Module Binary64.

Import PrimFloat.

Definition moving_to (px py gx gy speed : float) : Movement.t float :=
  Movement.mk (Movement.mkVec2 px py) (Movement.mkVec2 gx gy) speed true.

(** From (0, 0): [move_to((100, 0), 0.5)], [move_to((100, 0), 0.25)] and
    [move_to((100, 0), 1.0)]. *)
Definition half_speed : Movement.t float := moving_to 0 0 100 0 0.5.
Definition quarter_speed : Movement.t float := moving_to 0 0 100 0 0.25.
Definition full_speed : Movement.t float := moving_to 0 0 100 0 1.

(** The floats that Python reads [0.7] and [0.1] as. *)
Definition seven_tenths : float := 0x1.6666666666666p-1.
Definition one_tenth : float := 0x1.999999999999ap-4.

(** From (0.7, 0): [move_to((0.1, 0), 1.0)]. *)
Definition full_speed_tenths : Movement.t float :=
  moving_to seven_tenths 0 one_tenth 0 1.

(** 99.99999999999997, two units in the last place below 100. *)
Definition just_below_100 : float := 0x1.8fffffffffffep+6.

(** 0.09999999999999998, two units in the last place below 0.1. *)
Definition just_below_tenth : float := 0x1.9999999999998p-4.

End Binary64.

(** One step of [half_speed] and of [quarter_speed] on the way: the camera
    is moving, and the step brings [x] strictly closer to the goal's
    without passing it, with [y] on the goal's. *)
Definition comes_closer (s : Movement.t PrimFloat.float) : bool :=
  let s' := Movement.update s in
  Movement.moving s
  && PrimFloat.ltb (Movement.x (Movement.position s))
                   (Movement.x (Movement.position s'))
  && PrimFloat.leb (Movement.x (Movement.position s'))
                   (Movement.x (Movement.goal_position s'))
  && PrimFloat.eqb (Movement.y (Movement.position s'))
                   (Movement.y (Movement.goal_position s')).

(** The camera has arrived: it is on its goal and [moving] is cleared. *)
Definition arrived {F : Type} (s : Movement.t F) : Prop :=
  Movement.position s = Movement.goal_position s
  /\ Movement.moving s = false.

(** [P] holds of every number below [bound]. *)
Fixpoint all_below (P : nat -> bool) (bound : nat) : bool :=
  match bound with
  | O => true
  | S k => P k && all_below P k
  end.

(** A point whose coordinates are whole numbers of at most 2^50 in absolute
    value.  Sums and differences of such numbers, and of their halves, are
    binary64 numbers again, so on them the floats of the code compute what
    the real numbers of the cameras above compute. *)
Definition whole (v : Vec2) : Prop :=
  exists a b : Z,
    (Z.abs a <= 2 ^ 50)%Z /\ (Z.abs b <= 2 ^ 50)%Z
    /\ v = mkVec2 (IZR a) (IZR b).

(** * Properties *)

(** ** Numbers and outcomes *)

Arguments div : simpl never.
Arguments orthogonal_projection : simpl never.
Arguments Mat4_invert : simpl never.
Arguments matmul : simpl never.
Arguments from_rotation : simpl never.

Lemma div_nonzero (a b : R) : b <> 0 -> div a b = Return (a / b).
Proof. intros H. unfold div. destruct (Req_dec_T b 0); [contradiction | reflexivity]. Qed.

Lemma div_zero (a b : R) : b = 0 -> div a b = Raise ZeroDivisionError.
Proof. intros H. unfold div. destruct (Req_dec_T b 0); [reflexivity | contradiction]. Qed.

Lemma div_cases (a b : R) :
  (b = 0 /\ div a b = Raise ZeroDivisionError)
  \/ (b <> 0 /\ div a b = Return (a / b)).
Proof.
  destruct (Req_dec_T b 0) as [H | H].
  - left. split; [assumption | apply div_zero; assumption].
  - right. split; [assumption | apply div_nonzero; assumption].
Qed.

Lemma div_raises_only_zero_division (a b : R) (e : Exception) :
  div a b = Raise e -> e = ZeroDivisionError.
Proof. unfold div. destruct (Req_dec_T b 0); intros H; inversion H; reflexivity. Qed.

Lemma Reqb_true_iff (a b : R) : Reqb a b = true <-> a = b.
Proof. unfold Reqb. destruct (Req_dec_T a b); split; intros; try discriminate; auto; contradiction. Qed.

Lemma Reqb_false_iff (a b : R) : Reqb a b = false <-> a <> b.
Proof. unfold Reqb. destruct (Req_dec_T a b); split; intros; try discriminate; auto; contradiction. Qed.

Lemma Rltb_true_iff (a b : R) : Rltb a b = true <-> a < b.
Proof. unfold Rltb. destruct (Rlt_dec a b); split; intros; try discriminate; auto; contradiction. Qed.

Lemma Rltb_false_iff (a b : R) : Rltb a b = false <-> ~ a < b.
Proof. unfold Rltb. destruct (Rlt_dec a b); split; intros; try discriminate; auto; contradiction. Qed.

Lemma vec2_eqb_true_iff (a b : Vec2) : vec2_eqb a b = true <-> a = b.
Proof.
  unfold vec2_eqb. rewrite andb_true_iff, !Reqb_true_iff.
  destruct a, b; cbn. split.
  - intros [-> ->]. reflexivity.
  - intros H. inversion H. auto.
Qed.

Lemma vec2_eqb_false_iff (a b : Vec2) : vec2_eqb a b = false <-> a <> b.
Proof.
  rewrite <- vec2_eqb_true_iff. destruct (vec2_eqb a b); split; intros; try discriminate; auto.
  exfalso. auto.
Qed.

Lemma orthogonal_projection_raises_only_zero_division l r b t n f e :
  orthogonal_projection l r b t n f = Raise e -> e = ZeroDivisionError.
Proof.
  unfold orthogonal_projection, obind.
  repeat match goal with
         | |- context [div ?x ?y] =>
             let E := fresh "E" in
             destruct (div x y) eqn:E;
             [ | apply div_raises_only_zero_division in E; intros H; inversion H; subst; reflexivity ]
         end.
  discriminate.
Qed.

Lemma orthogonal_projection_zero_width l r b t n f :
  r - l = 0 -> orthogonal_projection l r b t n f = Raise ZeroDivisionError.
Proof.
  intros H. unfold orthogonal_projection. rewrite (div_zero 2 _ H). reflexivity.
Qed.

Lemma orthogonal_projection_returns l r b t n f :
  r - l <> 0 -> t - b <> 0 -> f - n <> 0 ->
  orthogonal_projection l r b t n f
  = Return (mkMat4 (2 / (r - l)) 0 0 0
                   0 (2 / (t - b)) 0 0
                   0 0 (2 / - (f - n)) 0
                   (- (r + l) / (r - l)) (- (t + b) / (t - b))
                   (- (f + n) / (f - n)) 1).
Proof.
  intros Hw Hh Hd. unfold orthogonal_projection.
  rewrite !div_nonzero by (assumption || lra). reflexivity.
Qed.

(** ** Matrices *)

Lemma mat4_ext (a b : Mat4) :
  e0 a = e0 b -> e1 a = e1 b -> e2 a = e2 b -> e3 a = e3 b ->
  e4 a = e4 b -> e5 a = e5 b -> e6 a = e6 b -> e7 a = e7 b ->
  e8 a = e8 b -> e9 a = e9 b -> e10 a = e10 b -> e11 a = e11 b ->
  e12 a = e12 b -> e13 a = e13 b -> e14 a = e14 b -> e15 a = e15 b -> a = b.
Proof. destruct a, b; simpl; intros; subst; reflexivity. Qed.

Ltac mat_cbv :=
  cbv [transform_point MatrixPipeline.rotation_matrix matmul from_translation
       from_rotation Mat4_scale Mat4_identity vec3_neg vec3_add
       Mat4_invert det cofactor det3 coeff sign entry skip build
       Nat.ltb Nat.leb Nat.even Nat.add
       e0 e1 e2 e3 e4 e5 e6 e7 e8 e9 e10 e11 e12 e13 e14 e15
       vx vy v3x v3y v3z].

Lemma matmul_identity_r (m : Mat4) : matmul m Mat4_identity = m.
Proof. destruct m. apply mat4_ext; mat_cbv; ring. Qed.

Lemma matmul_identity_l (m : Mat4) : matmul Mat4_identity m = m.
Proof. destruct m. apply mat4_ext; mat_cbv; ring. Qed.

Lemma det_translation_scale (v : Vec3) (z : R) :
  det (matmul (from_translation v) (Mat4_scale Mat4_identity (mkVec3 z z 1)))
  = z * z.
Proof. destruct v. mat_cbv. ring. Qed.

(** The view transform of a camera at [v] with zoom [z], inverted. *)
Lemma invert_translation_scale (v : Vec3) (z : R) :
  z <> 0 ->
  Mat4_invert (matmul (from_translation v)
                      (Mat4_scale Mat4_identity (mkVec3 z z 1)))
  = mkMat4 (/ z) 0 0 0  0 (/ z) 0 0  0 0 1 0  (- v3x v) (- v3y v) (- v3z v) 1.
Proof.
  intros Hz. unfold Mat4_invert.
  destruct (Req_dec_T _ 0) as [H | H].
  - exfalso. rewrite det_translation_scale in H.
    apply Rmult_integral in H. tauto.
  - rewrite det_translation_scale in H. clear H.
    destruct v as [x y w]. apply mat4_ext; mat_cbv; field; assumption.
Qed.

Lemma invert_translation (v : Vec3) :
  Mat4_invert (from_translation v) = from_translation (vec3_neg v).
Proof.
  unfold Mat4_invert.
  destruct (Req_dec_T _ 0) as [H | H].
  - exfalso. revert H. destruct v. mat_cbv. lra.
  - destruct v as [x y w]. clear H. apply mat4_ext; mat_cbv; field; lra.
Qed.

(** A rotation about a point leaves that point where it is. *)
Lemma rotation_matrix_fixes_anchor (rotation : R) (a : Vec2) :
  transform_point (MatrixPipeline.rotation_matrix rotation a) a = a.
Proof. destruct a as [x y]. mat_cbv. f_equal; ring. Qed.

(** ** Reasoning on method bodies *)

Arguments AdvanceCamera._set_combined_matrix : simpl never.
Arguments AdvanceCamera._set_projection_matrix : simpl never.
Arguments AdvanceCamera._set_view_matrix : simpl never.
Arguments AdvanceCamera._set_rotation_matrix : simpl never.
Arguments AdvanceCamera.update : simpl never.
Arguments AdvanceCamera.viewport_setter : simpl never.
Arguments BaseCamera._set_projection_matrix : simpl never.
Arguments BaseCamera._set_view_matrix : simpl never.
Arguments BaseCamera.update : simpl never.
Arguments Camera.update : simpl never.
Arguments Camera.set_projection : simpl never.

Lemma state_after_bind {S A B : Type} (m : M S A) (k : A -> M S B) (s : S) :
  state_after (bind m k) s
  = match m s with
    | (Return a, s') => state_after (k a) s'
    | (Raise _, s') => s'
    end.
Proof. unfold state_after, bind. destruct (m s) as [[a | e] s']; reflexivity. Qed.

Lemma preserves_bind {S A B : Type} (P : S -> Prop) (m : M S A) (k : A -> M S B) :
  preserves P m -> (forall a, preserves P (k a)) -> preserves P (bind m k).
Proof.
  intros Hm Hk s Hs. rewrite state_after_bind.
  specialize (Hm s Hs). unfold state_after in Hm.
  destruct (m s) as [[a | e] s']; cbn in Hm; [apply Hk|]; assumption.
Qed.

Lemma preserves_ret {S A : Type} (P : S -> Prop) (a : A) : preserves P (ret a).
Proof. intros s Hs. exact Hs. Qed.

Lemma preserves_raise {S A : Type} (P : S -> Prop) (e : Exception) :
  preserves P (@raise S A e).
Proof. intros s Hs. exact Hs. Qed.

Lemma preserves_get {S : Type} (P : S -> Prop) : preserves P get.
Proof. intros s Hs. exact Hs. Qed.

Lemma preserves_lift {S A : Type} (P : S -> Prop) (o : Outcome A) :
  preserves P (lift o).
Proof. intros s Hs. exact Hs. Qed.

Lemma preserves_modify {S : Type} (P : S -> Prop) (f : S -> S) :
  (forall s, P s -> P (f s)) -> preserves P (modify f).
Proof. intros H s Hs. apply H. exact Hs. Qed.

Ltac preserves_step :=
  first
    [ apply preserves_ret
    | apply preserves_raise
    | apply preserves_get
    | apply preserves_lift
    | apply preserves_bind; [ | intros ? ]
    | match goal with
      | |- preserves _ (if ?c then _ else _) => destruct c
      | |- preserves _ (match ?o with Some _ => _ | None => _ end) => destruct o
      | |- preserves _ (let '(_, _) := ?p in _) => destruct p
      end ].

(** ** The helpers of [AdvanceCamera] against the derived matrices *)

Lemma adv_set_combined_matrix_eq s :
  AdvanceCamera._set_combined_matrix s
  = (Return tt,
     AdvanceCamera.with_combined_matrix
       (matmul (AdvanceCamera._projection_matrix s) (AdvanceCamera._view_matrix s)) s).
Proof. reflexivity. Qed.

Lemma adv_set_view_matrix_eq s :
  AdvanceCamera._set_view_matrix s
  = match adv_view_of s with
    | Return v =>
        (Return tt,
         AdvanceCamera.with_combined_matrix
           (matmul (AdvanceCamera._projection_matrix s) v)
           (AdvanceCamera.with_view_matrix v s))
    | Raise e => (Raise e, s)
    end.
Proof.
  unfold AdvanceCamera._set_view_matrix, adv_view_of, MatrixPipeline.view_matrix,
    AdvanceCamera.viewport_width, AdvanceCamera.viewport_height.
  cbn.
  destruct (div _ _); cbn; [ | reflexivity ].
  destruct (div _ _); cbn; reflexivity.
Qed.

Lemma adv_code_projection_eq s p_left p_right p_bottom p_top :
  orthogonal_projection p_left
    (if Reqb (AdvanceCamera._zoom s) 1 then p_right
     else p_right * AdvanceCamera._zoom s)
    p_bottom
    (if Reqb (AdvanceCamera._zoom s) 1 then p_top
     else p_top * AdvanceCamera._zoom s)
    (AdvanceCamera._near s) (AdvanceCamera._far s)
  = MatrixPipeline.projection_matrix p_left p_right p_bottom p_top
      (AdvanceCamera._zoom s) (AdvanceCamera._near s) (AdvanceCamera._far s).
Proof.
  unfold MatrixPipeline.projection_matrix.
  destruct (Reqb (AdvanceCamera._zoom s) 1) eqn:E; [ | reflexivity ].
  apply Reqb_true_iff in E. rewrite E, !Rmult_1_r. reflexivity.
Qed.

Lemma adv_set_projection_matrix_eq b s :
  AdvanceCamera._set_projection_matrix b s
  = match adv_projection_of s with
    | Return p =>
        (Return tt,
         if b
         then AdvanceCamera.with_combined_matrix
                (matmul p (AdvanceCamera._view_matrix s))
                (AdvanceCamera.with_projection_matrix p s)
         else AdvanceCamera.with_projection_matrix p s)
    | Raise e => (Raise e, s)
    end.
Proof.
  unfold AdvanceCamera._set_projection_matrix, adv_projection_of.
  destruct s as [? ? ? ? ? ? ? ? ? ? ? ? ? ? ? ? [[[l r] bt] t] ? ? ? ?].
  cbn -[orthogonal_projection MatrixPipeline.projection_matrix].
  match goal with
  | |- context [AdvanceCamera.mk ?a1 ?a2 ?a3 ?a4 ?a5 ?a6 ?a7 ?a8 ?a9 ?a10 ?a11
                  ?a12 ?a13 ?a14 ?a15 ?a16 ?a17 ?a18 ?a19 ?a20 ?a21] =>
      pose proof (adv_code_projection_eq
                    (AdvanceCamera.mk a1 a2 a3 a4 a5 a6 a7 a8 a9 a10 a11
                       a12 a13 a14 a15 a16 a17 a18 a19 a20 a21) l r bt t) as E
  end.
  cbn -[orthogonal_projection MatrixPipeline.projection_matrix] in E.
  rewrite E.
  destruct (MatrixPipeline.projection_matrix _ _ _ _ _ _ _); cbn; [ | reflexivity ].
  destruct b; reflexivity.
Qed.

Lemma adv_code_rotation_eq s :
  matmul (matmul (from_translation (vec3_neg (AdvanceCamera.rotation_offset s)))
                 (from_rotation (radians (AdvanceCamera._rotation s))
                                (mkVec3 0 0 1)))
         (from_translation (AdvanceCamera.rotation_offset s))
  = adv_rotation_of s.
Proof.
  unfold adv_rotation_of, MatrixPipeline.rotation_matrix, adv_anchor_point,
    MatrixPipeline.anchor_point, AdvanceCamera.rotation_offset.
  destruct (AdvanceCamera._anchor s) as [a | ]; cbn [vx vy].
  - reflexivity.
  - unfold vec3_neg, vec3_add. cbn [v3x v3y v3z]. rewrite !Rplus_0_l. reflexivity.
Qed.

Lemma adv_set_rotation_matrix_eq s :
  AdvanceCamera._set_rotation_matrix s
  = (Return tt, AdvanceCamera.with_rotation_matrix (adv_rotation_of s) s).
Proof.
  rewrite <- adv_code_rotation_eq. reflexivity.
Qed.

(** ** Evaluating method bodies on given states *)

Ltac run := cbv [bind get modify lift ret raise state_after outcome_of]; cbn.

Ltac eval_div :=
  repeat match goal with
         | |- context [div ?a ?b] =>
             first [ rewrite (div_nonzero a b) by (cbn; lra)
                   | rewrite (div_zero a b) by (cbn; lra) ]
         end.

Lemma vec2_eqb_eq (a b : Vec2) : a = b -> vec2_eqb a b = true.
Proof. apply vec2_eqb_true_iff. Qed.

Lemma vec2_eqb_neq_x (a b : Vec2) : vx a <> vx b -> vec2_eqb a b = false.
Proof. intros H. apply vec2_eqb_false_iff. intros E. apply H. rewrite E. reflexivity. Qed.

Lemma vec2_eqb_neq_y (a b : Vec2) : vy a <> vy b -> vec2_eqb a b = false.
Proof. intros H. apply vec2_eqb_false_iff. intros E. apply H. rewrite E. reflexivity. Qed.

Lemma vec2_ext (a b : Vec2) : vx a = vx b -> vy a = vy b -> a = b.
Proof. destruct a, b; cbn; intros -> ->; reflexivity. Qed.

Ltac eval_eqb :=
  repeat match goal with
         | |- context [vec2_eqb ?a ?b] =>
             first [ rewrite (vec2_eqb_eq a b) by (apply vec2_ext; cbn; lra)
                   | rewrite (vec2_eqb_neq_x a b) by (cbn; lra)
                   | rewrite (vec2_eqb_neq_y a b) by (cbn; lra) ]
         | |- context [Reqb ?a ?b] =>
             first [ rewrite (proj2 (Reqb_true_iff a b)) by (cbn; lra)
                   | rewrite (proj2 (Reqb_false_iff a b)) by (cbn; lra) ]
         end.

(** ** The combined matrix of [AdvanceCamera] *)










(** ** The combined matrix of [BaseCamera] *)







(** ** The combined matrix of [Camera] *)

Lemma std_update_returns s s' :
  Camera.update s = (Return tt, s') -> std_combined_ok s'.
Proof.
  unfold Camera.update. cbn.
  destruct (Rltb _ _ && Rltb _ _); cbn.
  all: destruct (div _ _); cbn; [ | discriminate ].
  all: destruct (div _ _); cbn; [ | discriminate ].
  all: destruct (Camera.projection_matrix s); cbn; [ | discriminate ].
  all: intros H; inversion H; reflexivity.
Qed.

Lemma std_use_returns s s' :
  Camera.use s = (Return tt, s') ->
  std_combined_ok s'
  /\ projection_2d_matrix (ctx (Camera._window s')) = Camera.combined_matrix s'
  /\ view_matrix_2d (ctx (Camera._window s')) = std_rotation_of s'.
Proof.
  unfold Camera.use, bind at 1. cbn [modify].
  unfold bind at 1.
  destruct (Camera.update _) as [[[] | e] s1] eqn:E; [ | discriminate ].
  apply std_update_returns in E.
  intros H. cbn in H. inversion H. clear H. subst s'.
  unfold std_combined_ok in *. cbn.
  split; [ exact E | split; [ reflexivity | ] ].
  unfold std_rotation_of, MatrixPipeline.rotation_matrix, std_anchor_point,
    MatrixPipeline.anchor_point, Camera.rotation_offset. cbn.
  destruct (Camera._anchor s1); cbn; [ reflexivity | ].
  unfold vec3_neg, vec3_add. cbn. rewrite !Rplus_0_l. reflexivity.
Qed.

Lemma camera_init_fresh : Camera.__init__ 0 0 window_800_600 = Return fresh_camera.
Proof.
  unfold Camera.__init__, Camera.set_projection, constructed. run.
  rewrite orthogonal_projection_returns by lra. cbn.
  unfold fresh_camera, ortho_of_size.
  replace (2 / (1 * 800 - 0)) with (2 / 800) by (field; lra).
  replace (2 / (1 * 600 - 0)) with (2 / 600) by (field; lra).
  replace (2 / - (1 - -1)) with (-1) by (field; lra).
  replace (- (1 * 800 + 0) / (1 * 800 - 0)) with (-1) by (field; lra).
  replace (- (1 * 600 + 0) / (1 * 600 - 0)) with (-1) by (field; lra).
  replace (- (1 + -1) / (1 - -1)) with 0 by (field; lra).
  reflexivity.
Qed.


Lemma ortho_800_600 :
  orthogonal_projection 0 800 0 600 (-1) 1 = Return (ortho_of_size 800 600).
Proof.
  rewrite orthogonal_projection_returns by lra. unfold ortho_of_size.
  replace (2 / (800 - 0)) with (2 / 800) by (field; lra).
  replace (2 / (600 - 0)) with (2 / 600) by (field; lra).
  replace (2 / - (1 - -1)) with (-1) by (field; lra).
  replace (- (800 + 0) / (800 - 0)) with (-1) by (field; lra).
  replace (- (600 + 0) / (600 - 0)) with (-1) by (field; lra).
  replace (- (1 + -1) / (1 - -1)) with 0 by (field; lra).
  reflexivity.
Qed.

Lemma view_at_origin (w : R) :
  w <> 0 ->
  Mat4_invert (matmul (from_translation (mkVec3 ((0 + 0) / w) ((0 + 0) / w) 0))
                      (Mat4_scale Mat4_identity (mkVec3 1 1 1)))
  = Mat4_identity.
Proof.
  intros Hw. rewrite invert_translation_scale by lra.
  apply mat4_ext; mat_cbv; try reflexivity; field; assumption.
Qed.

Lemma advance_init_fresh rotation :
  AdvanceCamera.__init__ None None 1 rotation None window_800_600
  = Return (fresh_advance rotation).
Proof.
  unfold AdvanceCamera.__init__, constructed. unfold bind at 1.
  rewrite adv_set_projection_matrix_eq.
  unfold adv_projection_of, MatrixPipeline.projection_matrix. cbn.
  rewrite !Rmult_1_r, ortho_800_600.
  unfold bind at 1. rewrite adv_set_view_matrix_eq.
  unfold adv_view_of, MatrixPipeline.view_matrix. cbn.
  eval_div. cbn.
  replace ((0 + 0) / (800 * 1 / 2)) with ((0 + 0) / 400) by (field; lra).
  replace ((0 + 0) / (600 * 1 / 2)) with ((0 + 0) / 400) by (field; lra).
  rewrite view_at_origin by lra.
  rewrite adv_set_rotation_matrix_eq. cbn.
  rewrite matmul_identity_r.
  unfold adv_rotation_of, adv_anchor_point, MatrixPipeline.anchor_point. cbn.
  replace (0 + 800 / 2) with 400 by lra.
  replace (0 + 600 / 2) with 300 by lra.
  reflexivity.
Qed.





(** ** [Camera.zoom] *)

(** C9: zooming the standard camera raises [NotImplementedError] whatever
    the argument, and leaves the camera as it was. *)
Theorem C9_camera_zoom_not_implemented :
  forall (change : R) (s : Camera.t),
    Camera.zoom change s = (Raise NotImplementedError, s).
Proof. reflexivity. Qed.

(** ** [AdvanceCamera.center] *)

(** C8, amended: [center(point, speed)] sets the goal to the point plus the
    current position minus half the viewport extent, with the given speed;
    the goal is the point minus half the extent when the camera sits at the
    origin. *)
Theorem C8_center_goal :
  forall (point : Vec2) (speed : R) (s : AdvanceCamera.t),
    let s' := state_after (AdvanceCamera.center point speed) s in
    let half := mkVec2 (IZR (AdvanceCamera.viewport_width s) / 2)
                       (IZR (AdvanceCamera.viewport_height s) / 2) in
    outcome_of (AdvanceCamera.center point speed) s = Return tt
    /\ AdvanceCamera.goal_position s'
       = vec2_sub (vec2_add point (AdvanceCamera.position s)) half
    /\ AdvanceCamera.move_speed s' = speed
    /\ AdvanceCamera.moving s' = true
    /\ AdvanceCamera.position s' = AdvanceCamera.position s
    /\ (AdvanceCamera.position s = mkVec2 0 0 ->
        AdvanceCamera.goal_position s' = vec2_sub point half).
Proof.
  intros point speed s. unfold AdvanceCamera.center, AdvanceCamera.move_to.
  run. repeat split.
  intros H. rewrite H. unfold vec2_sub, vec2_add. cbn.
  rewrite !Rplus_0_r. reflexivity.
Qed.

(** C8, counterexample: a camera that has moved to (10, 0) and is asked to
    centre on (400, 300) in its 800 by 600 viewport gets the goal (10, 0),
    not (0, 0). *)
Lemma C8_center_adds_position :
  exists s1,
    (AdvanceCamera.move (mkVec2 10 0) ;;
     AdvanceCamera.update ;;
     AdvanceCamera.center (mkVec2 400 300) 1) (fresh_advance 0)
    = (Return tt, s1)
    /\ AdvanceCamera.position s1 = mkVec2 10 0
    /\ AdvanceCamera.goal_position s1 = mkVec2 10 0
    /\ AdvanceCamera.goal_position s1
       <> vec2_sub (mkVec2 400 300)
                   (mkVec2 (IZR (AdvanceCamera.viewport_width s1) / 2)
                           (IZR (AdvanceCamera.viewport_height s1) / 2)).
Proof.
  unfold AdvanceCamera.move, AdvanceCamera.move_to, AdvanceCamera.update,
    AdvanceCamera.apply_goal_position, AdvanceCamera.center, fresh_advance.
  run. unfold lerp. cbn. eval_eqb. cbn.
  eexists. split; [ reflexivity | ]. cbn.
  split; [ apply vec2_ext; cbn; lra | ].
  split; [ apply vec2_ext; cbn; lra | ].
  intros H. apply (f_equal vx) in H. cbn in H. lra.
Qed.

(** ** Invalid viewports and zooms *)

Lemma view_matrix_raises position shake_offset zoom w h :
  (w = 0)%Z \/ (h = 0)%Z \/ zoom = 0 ->
  MatrixPipeline.view_matrix position shake_offset zoom w h
  = Raise ZeroDivisionError.
Proof.
  intros H. unfold MatrixPipeline.view_matrix.
  destruct (div_cases (vx position + vx shake_offset) (IZR w * zoom / 2))
    as [[_ E] | [Hw E]]; rewrite E; cbn; [ reflexivity | ].
  rewrite div_zero; [ reflexivity | ].
  destruct H as [H | [H | H]].
  - exfalso. apply Hw. rewrite H. lra.
  - rewrite H. lra.
  - rewrite H. lra.
Qed.






(** A zoom setter that raises can leave the combined matrix behind: with a
    projection whose left and bottom are not zero, a zoom of zero passes
    the projection matrix and fails in the view matrix, after the
    projection matrix has been replaced. *)
Example adv_zoom_setter_raise_breaks_product :
  exists s0 s1,
    AdvanceCamera.__init__ None (Some (100, 800, 100, 600)) 1 0 None
                           window_800_600
    = Return s0
    /\ adv_combined_ok s0
    /\ AdvanceCamera.zoom_setter 0 s0 = (Raise ZeroDivisionError, s1)
    /\ ~ adv_combined_ok s1.
Proof.
  unfold AdvanceCamera.__init__, constructed. unfold bind at 1.
  rewrite adv_set_projection_matrix_eq.
  unfold adv_projection_of, MatrixPipeline.projection_matrix. cbn.
  rewrite orthogonal_projection_returns by lra.
  unfold bind at 1. rewrite adv_set_view_matrix_eq.
  unfold adv_view_of, MatrixPipeline.view_matrix. cbn.
  eval_div. cbn. rewrite invert_translation_scale by lra.
  rewrite adv_set_rotation_matrix_eq. cbn.
  eexists. eexists. split; [ reflexivity | ].
  split; [ reflexivity | ].
  unfold AdvanceCamera.zoom_setter. cbv [bind modify].
  rewrite adv_set_projection_matrix_eq.
  unfold adv_projection_of, MatrixPipeline.projection_matrix. cbn.
  rewrite orthogonal_projection_returns by lra.
  rewrite adv_set_view_matrix_eq. unfold adv_view_of.
  rewrite view_matrix_raises by (cbn; tauto).
  split; [ reflexivity | ].
  unfold adv_combined_ok. cbn. intros H. apply (f_equal e0) in H.
  revert H. mat_cbv. intros H. lra.
Qed.

(** ** The rotation matrix and its anchor *)

Lemma anchored_rotation_recomputed s :
  anchored_rotation_ok
    (AdvanceCamera.with_rotation_matrix (adv_rotation_of s) s).
Proof.
  intros a Ha. cbn in *. unfold adv_rotation_of, adv_anchor_point.
  rewrite Ha. reflexivity.
Qed.

Lemma adv_set_rotation_matrix_anchored :
  forall s, anchored_rotation_ok (state_after AdvanceCamera._set_rotation_matrix s).
Proof.
  intros s. unfold state_after. rewrite adv_set_rotation_matrix_eq.
  apply anchored_rotation_recomputed.
Qed.

Lemma adv_set_view_matrix_anchored :
  preserves anchored_rotation_ok AdvanceCamera._set_view_matrix.
Proof.
  intros s Hs. unfold state_after. rewrite adv_set_view_matrix_eq.
  destruct (adv_view_of s); exact Hs.
Qed.

Lemma adv_set_projection_matrix_anchored b :
  preserves anchored_rotation_ok (AdvanceCamera._set_projection_matrix b).
Proof.
  intros s Hs. unfold state_after. rewrite adv_set_projection_matrix_eq.
  destruct (adv_projection_of s); [ destruct b | ]; exact Hs.
Qed.

Lemma modify_then_set_rotation_matrix_anchored (f : AdvanceCamera.t -> AdvanceCamera.t) :
  preserves anchored_rotation_ok
            (modify f ;; AdvanceCamera._set_rotation_matrix).
Proof.
  intros s _. rewrite state_after_bind. cbn [modify].
  apply adv_set_rotation_matrix_anchored.
Qed.

Ltac anchored_preserves :=
  cbv zeta;
  repeat first
    [ apply adv_set_view_matrix_anchored
    | apply adv_set_projection_matrix_anchored
    | apply modify_then_set_rotation_matrix_anchored
    | intros ? ?; apply adv_set_rotation_matrix_anchored
    | apply preserves_modify; intros ? ?; assumption
    | preserves_step ].

Lemma adv_call_anchored c : preserves anchored_rotation_ok (advance_call c).
Proof.
  destruct c; cbn [advance_call];
    try match goal with a : option (R * R) |- _ => destruct a end;
    unfold AdvanceCamera.viewport_setter, AdvanceCamera.projection_setter,
      AdvanceCamera.zoom_setter,
      AdvanceCamera.near_setter, AdvanceCamera.far_setter,
      AdvanceCamera.rotation_setter, AdvanceCamera.anchor_setter,
      AdvanceCamera.resize, AdvanceCamera.shake,
      AdvanceCamera.move, AdvanceCamera.move_to, AdvanceCamera.center,
      AdvanceCamera.use, AdvanceCamera.update,
      AdvanceCamera.apply_goal_position, AdvanceCamera.apply_camera_shake,
      AdvanceCamera.viewport_setter.
  all: anchored_preserves.
Qed.

Lemma adv_init_anchored viewport projection zoom rotation anchor window s :
  AdvanceCamera.__init__ viewport projection zoom rotation anchor window = Return s ->
  anchored_rotation_ok s.
Proof.
  unfold AdvanceCamera.__init__, constructed.
  match goal with |- context [?m ?s0] =>
    match type of s0 with AdvanceCamera.t => destruct (m s0) as [o s1] eqn:E end end.
  destruct o; [ | discriminate ]. intros H. inversion H. subst s1. clear H.
  revert E. unfold bind at 1.
  rewrite adv_set_projection_matrix_eq.
  destruct (adv_projection_of _); [ | discriminate ].
  unfold bind at 1. rewrite adv_set_view_matrix_eq.
  destruct (adv_view_of _); [ | discriminate ].
  rewrite adv_set_rotation_matrix_eq. intros H. inversion H.
  intros b Hb. cbn in Hb |- *. unfold adv_rotation_of, adv_anchor_point.
  cbn. rewrite Hb. reflexivity.
Qed.

Lemma advance_reachable_anchored s : advance_reachable s -> anchored_rotation_ok s.
Proof.
  induction 1 as [? ? ? ? ? ? s H | c s _ IH].
  - eapply adv_init_anchored. exact H.
  - apply adv_call_anchored. exact IH.
Qed.

(** X16: the rotation matrix that [_set_rotation_matrix] has just computed
    maps the anchor point of the state to itself, whatever the rotation:
    the explicit anchor when one is set, the position plus half the
    viewport extent otherwise; so after the anchor and rotation setters.
    An explicit anchor is moreover held fixed by the cached rotation
    matrix in every state a client of [AdvanceCamera] reaches, and
    [Camera.use], which derives the matrix anew, always publishes one that
    fixes the anchor point. *)
Theorem X16_rotation_matrix_fixes_anchor_once_computed :
  (forall s : AdvanceCamera.t,
      let s' := state_after AdvanceCamera._set_rotation_matrix s in
      outcome_of AdvanceCamera._set_rotation_matrix s = Return tt
      /\ adv_anchor_point s' = adv_anchor_point s
      /\ transform_point (AdvanceCamera._rotation_matrix s') (adv_anchor_point s')
         = adv_anchor_point s')
  /\ (forall (P : R * R) (angle : R) (s : AdvanceCamera.t),
         let s' := state_after (AdvanceCamera.anchor_setter (Some P) ;;
                                AdvanceCamera.rotation_setter angle) s in
         transform_point (AdvanceCamera._rotation_matrix s')
                         (mkVec2 (fst P) (snd P))
         = mkVec2 (fst P) (snd P))
  /\ (forall (angle : R) (s : AdvanceCamera.t),
         let s' := state_after (AdvanceCamera.anchor_setter None ;;
                                AdvanceCamera.rotation_setter angle) s in
         let centre :=
           mkVec2 (vx (AdvanceCamera.position s')
                   + IZR (AdvanceCamera.viewport_width s') / 2)
                  (vy (AdvanceCamera.position s')
                   + IZR (AdvanceCamera.viewport_height s') / 2) in
         transform_point (AdvanceCamera._rotation_matrix s') centre = centre)
  /\ (forall (s : AdvanceCamera.t) (P : R * R),
         advance_reachable s ->
         AdvanceCamera._anchor s = Some P ->
         transform_point (AdvanceCamera._rotation_matrix s)
                         (mkVec2 (fst P) (snd P))
         = mkVec2 (fst P) (snd P))
  /\ (forall s s' : Camera.t,
         Camera.use s = (Return tt, s') ->
         transform_point (view_matrix_2d (ctx (Camera._window s')))
                         (std_anchor_point s')
         = std_anchor_point s').
Proof.
  split; [ | split; [ | split; [ | split ] ] ].
  - intros s. cbv zeta. unfold state_after, outcome_of.
    rewrite adv_set_rotation_matrix_eq. cbn [fst snd].
    split; [ reflexivity | ]. split; [ reflexivity | ].
    cbn. apply rotation_matrix_fixes_anchor.
  - intros P angle s. cbv zeta.
    unfold AdvanceCamera.anchor_setter, AdvanceCamera.rotation_setter.
    cbv [bind modify state_after].
    repeat (rewrite adv_set_rotation_matrix_eq; cbv beta iota).
    cbn. unfold adv_rotation_of, adv_anchor_point. cbn.
    apply rotation_matrix_fixes_anchor.
  - intros angle s. cbv zeta.
    unfold AdvanceCamera.anchor_setter, AdvanceCamera.rotation_setter.
    cbv [bind modify state_after].
    repeat (rewrite adv_set_rotation_matrix_eq; cbv beta iota).
    cbn. unfold adv_rotation_of, adv_anchor_point. cbn.
    apply rotation_matrix_fixes_anchor.
  - intros s P Hr Ha. rewrite (advance_reachable_anchored s Hr P Ha).
    apply rotation_matrix_fixes_anchor.
  - intros s s' H. apply std_use_returns in H.
    destruct H as (_ & _ & H). rewrite H.
    apply rotation_matrix_fixes_anchor.
Qed.

(** X16, witness: a fresh [AdvanceCamera] rotated by 30 degrees whose
    anchor is set to (1, 2). *)
Lemma X16_rotation_matrix_witness :
  transform_point
    (AdvanceCamera._rotation_matrix
       (state_after (advance_call (AdvSetAnchor (Some (1, 2))))
                    (fresh_advance 30)))
    (mkVec2 (fst (1, 2)) (snd (1, 2)))
  = mkVec2 (fst (1, 2)) (snd (1, 2)).
Proof.
  apply (proj1 (proj2 (proj2 (proj2
           X16_rotation_matrix_fixes_anchor_once_computed)))).
  - apply adv_reach_call. eapply adv_reach_init. apply advance_init_fresh.
  - cbn [advance_call]. unfold AdvanceCamera.anchor_setter.
    cbv [bind modify state_after]. rewrite adv_set_rotation_matrix_eq.
    reflexivity.
Defined.

Lemma radians_180 : radians 180 = PI.
Proof. unfold radians. field. Qed.

(** The translation part of a half-turn about [a] is twice [a]. *)
Lemma half_turn_e12 (a : Vec2) :
  e12 (MatrixPipeline.rotation_matrix 180 a) = 2 * vx a.
Proof.
  unfold MatrixPipeline.rotation_matrix. rewrite radians_180.
  mat_cbv. rewrite cos_PI, sin_PI. ring.
Qed.

(** C3, the code at the failing input: an [AdvanceCamera] with no anchor,
    rotated by 180 degrees, that moves to (100, 0) publishes through
    [use()] the rotation about the old centre (400, 300), not the one
    about the centre (500, 300) of its new position. *)
Theorem C3_rotation_matrix_stale_after_move :
  exists s1,
    (AdvanceCamera.move_to (mkVec2 100 0) 1 ;; AdvanceCamera.use)
      (fresh_advance 180)
    = (Return tt, s1)
    /\ AdvanceCamera.position s1 = mkVec2 100 0
    /\ AdvanceCamera._anchor s1 = None
    /\ adv_anchor_point s1 = mkVec2 500 300
    /\ view_matrix_2d (ctx (AdvanceCamera._window s1))
       = MatrixPipeline.rotation_matrix 180 (mkVec2 400 300)
    /\ view_matrix_2d (ctx (AdvanceCamera._window s1)) <> adv_rotation_of s1.
Proof.
  unfold AdvanceCamera.move_to, AdvanceCamera.use, AdvanceCamera.update,
    AdvanceCamera.apply_goal_position, fresh_advance.
  run. unfold lerp. cbn. eval_eqb. cbn.
  eexists. split; [ reflexivity | ]. cbn.
  split; [ apply vec2_ext; cbn; lra | ].
  split; [ reflexivity | ].
  split; [ unfold adv_anchor_point; cbn; apply vec2_ext; cbn; lra | ].
  split; [ reflexivity | ].
  intros H. apply (f_equal e12) in H.
  unfold adv_rotation_of in H. rewrite !half_turn_e12 in H.
  unfold adv_anchor_point in H. cbn in H. lra.
Qed.

(** A half-turn about [a] sends [p] to its mirror image through [a]. *)
Lemma half_turn_point (a p : Vec2) :
  transform_point (MatrixPipeline.rotation_matrix 180 a) p
  = mkVec2 (2 * vx a - vx p) (2 * vy a - vy p).
Proof.
  destruct a as [ax ay], p as [px py].
  unfold MatrixPipeline.rotation_matrix. rewrite radians_180.
  mat_cbv. rewrite cos_PI, sin_PI. f_equal; ring.
Qed.

(** C5, the code at the failing input: an [AdvanceCamera] with no anchor,
    rotated by 180 degrees, that moves to (100, 0) and is used has the
    anchor point (500, 300), its position plus half the viewport extent;
    its rotation matrix, cached and published, is still the half-turn
    about (400, 300) and maps the anchor point to (300, 300), not to
    itself. *)
Theorem C5_default_anchor_not_fixed_after_move :
  exists s1,
    (AdvanceCamera.move_to (mkVec2 100 0) 1 ;; AdvanceCamera.use)
      (fresh_advance 180)
    = (Return tt, s1)
    /\ AdvanceCamera._anchor s1 = None
    /\ adv_anchor_point s1 = mkVec2 500 300
    /\ transform_point (AdvanceCamera._rotation_matrix s1)
                       (adv_anchor_point s1)
       = mkVec2 300 300
    /\ transform_point (view_matrix_2d (ctx (AdvanceCamera._window s1)))
                       (adv_anchor_point s1)
       = mkVec2 300 300
    /\ transform_point (view_matrix_2d (ctx (AdvanceCamera._window s1)))
                       (adv_anchor_point s1)
       <> adv_anchor_point s1.
Proof.
  unfold AdvanceCamera.move_to, AdvanceCamera.use, AdvanceCamera.update,
    AdvanceCamera.apply_goal_position, fresh_advance.
  run. unfold lerp. cbn. eval_eqb. cbn.
  eexists. split; [ reflexivity | ].
  match goal with
  | |- AdvanceCamera._anchor ?s = None /\ _ => set (s1 := s)
  end.
  assert (Ha : adv_anchor_point s1 = mkVec2 500 300).
  { unfold adv_anchor_point. cbn. apply vec2_ext; cbn; lra. }
  assert (Hm : AdvanceCamera._rotation_matrix s1
               = MatrixPipeline.rotation_matrix 180 (mkVec2 400 300))
    by reflexivity.
  assert (Hw : view_matrix_2d (ctx (AdvanceCamera._window s1))
               = MatrixPipeline.rotation_matrix 180 (mkVec2 400 300))
    by reflexivity.
  assert (Ht : transform_point
                 (MatrixPipeline.rotation_matrix 180 (mkVec2 400 300))
                 (mkVec2 500 300)
               = mkVec2 300 300).
  { rewrite half_turn_point. apply vec2_ext; cbn; lra. }
  rewrite Ha, Hm, Hw, Ht.
  split; [ reflexivity | ]. split; [ reflexivity | ].
  split; [ reflexivity | ]. split; [ reflexivity | ].
  intros H. apply (f_equal vx) in H. cbn in H. lra.
Qed.

Arguments atan2 : simpl never.
Arguments get_distance : simpl never.

Lemma get_distance_unit_y (x y : R) :
  x = 0 -> y = 1 -> get_distance 0 0 x y = 1.
Proof.
  intros -> ->. unfold get_distance.
  replace ((0 - 0) * (0 - 0) + (0 - 1) * (0 - 1)) with 1 by ring.
  apply sqrt_1.
Qed.

Lemma atan2_unit_y (y x : R) : y = 0 -> x = 1 -> atan2 y x = 0.
Proof.
  intros -> ->. unfold atan2.
  destruct (Rlt_dec 0 1) as [_ | H]; [ | exfalso; lra ].
  replace (0 / 1) with 0 by field. apply atan_0.
Qed.

Lemma Rltb_lt (a b : R) : a < b -> Rltb a b = true.
Proof. apply Rltb_true_iff. Qed.

Lemma Rltb_nlt (a b : R) : ~ a < b -> Rltb a b = false.
Proof. apply Rltb_false_iff. Qed.

(** C2, the code at the failing input: an [AdvanceCamera] shaken with
    velocity (0, 1), speed 1.5 and damping 0.9 ends its shake at the first
    [update()]: [shaking] is cleared and the offset is zero, but the
    velocity is (0, -0.9), since the restoring pull is added and damped
    after the velocity has been zeroed. *)
Theorem C2_shake_end_leaves_velocity :
  exists s1,
    (AdvanceCamera.shake (mkVec2 0 1) (3 / 2) (9 / 10) ;; AdvanceCamera.update)
      (fresh_advance 0)
    = (Return tt, s1)
    /\ AdvanceCamera.shaking s1 = false
    /\ AdvanceCamera.shake_offset s1 = mkVec2 0 0
    /\ AdvanceCamera.shake_velocity s1 = mkVec2 0 (- (9 / 10))
    /\ AdvanceCamera.shake_velocity s1 <> mkVec2 0 0.
Proof.
  unfold AdvanceCamera.shake, AdvanceCamera.update,
    AdvanceCamera.apply_camera_shake, fresh_advance.
  run. unfold vec2_add. cbn.
  repeat match goal with
         | |- context [get_distance 0 0 ?x ?y] =>
             rewrite (get_distance_unit_y x y) by lra
         | |- context [atan2 ?y ?x] => rewrite (atan2_unit_y y x) by lra
         end.
  rewrite (Rltb_lt 1 (3 / 2)) by lra. cbn.
  rewrite Rmin_right by lra.
  replace (0 + PI) with PI by ring. rewrite sin_PI, cos_PI.
  eexists. split; [ reflexivity | ]. cbn.
  split; [ reflexivity | ]. split; [ reflexivity | ].
  split; [ apply vec2_ext; cbn; lra | ].
  intros H. apply (f_equal vy) in H. cbn in H. lra.
Qed.

(** ** Interpolation towards the goal *)

Lemma lerp_zero (p g : Vec2) : lerp p g 0 = p.
Proof. destruct p. unfold lerp. cbn. f_equal; ring. Qed.

Lemma lerp_one (p g : Vec2) : lerp p g 1 = g.
Proof. destruct g. unfold lerp. cbn. f_equal; ring. Qed.

Lemma distance_pos (p g : Vec2) : p <> g -> 0 < distance p g.
Proof.
  intros H. unfold distance, get_distance. apply sqrt_lt_R0.
  destruct p as [px py], g as [gx gy]. cbn.
  pose proof (Rle_0_sqr (px - gx)) as Hx.
  pose proof (Rle_0_sqr (py - gy)) as Hy.
  destruct (Req_dec_T px gx) as [Ex | Ex].
  - destruct (Req_dec_T py gy) as [Ey | Ey].
    + exfalso. apply H. subst. reflexivity.
    + assert (Hp : 0 < Rsqr (py - gy)) by (apply Rsqr_pos_lt; lra).
      unfold Rsqr in *. lra.
  - assert (Hp : 0 < Rsqr (px - gx)) by (apply Rsqr_pos_lt; lra).
    unfold Rsqr in *. lra.
Qed.

(** ** Movement of [BaseCamera] *)

Arguments lerp : simpl never.
Arguments vec2_eqb : simpl never.

Lemma base_set_view_matrix_motion s :
  let s' := state_after BaseCamera._set_view_matrix s in
  BaseCamera.position s' = BaseCamera.position s
  /\ BaseCamera.goal_position s' = BaseCamera.goal_position s
  /\ BaseCamera.move_speed s' = BaseCamera.move_speed s
  /\ BaseCamera.moving s' = BaseCamera.moving s.
Proof.
  unfold BaseCamera._set_view_matrix. run.
  destruct (div _ _); cbn; [ | tauto ].
  destruct (div _ _); cbn; tauto.
Qed.

Lemma base_update_motion s :
  let s' := state_after BaseCamera.update s in
  let p := lerp (BaseCamera.position s) (BaseCamera.goal_position s)
                (BaseCamera.move_speed s) in
  BaseCamera.position s'
  = (if BaseCamera.moving s then p else BaseCamera.position s)
  /\ BaseCamera.goal_position s' = BaseCamera.goal_position s
  /\ BaseCamera.move_speed s' = BaseCamera.move_speed s
  /\ BaseCamera.moving s'
     = (BaseCamera.moving s && negb (vec2_eqb p (BaseCamera.goal_position s))).
Proof.
  cbv zeta. unfold BaseCamera.update.
  cbv [bind get modify ret state_after]. cbv beta iota.
  destruct (BaseCamera.moving s) eqn:Em; cbn [andb]; [ | cbn; tauto ].
  cbn [BaseCamera.position BaseCamera.goal_position BaseCamera.with_position].
  match goal with
  | |- context [vec2_eqb ?a ?b] => destruct (vec2_eqb a b) eqn:E
  end; cbv beta iota.
  all: match goal with
       | |- context [BaseCamera._set_view_matrix ?t] =>
           pose proof (base_set_view_matrix_motion t) as H;
           cbv zeta in H; unfold state_after in H;
           destruct (BaseCamera._set_view_matrix t) as [[[] | e] s2]
       end.
  all: cbn in H |- *; rewrite ?Em in H; exact H.
Qed.

(** ** Movement of [AdvanceCamera] and of [Camera] *)

Lemma adv_set_view_matrix_motion s :
  adv_motion_kept s (state_after AdvanceCamera._set_view_matrix s).
Proof.
  unfold state_after. rewrite adv_set_view_matrix_eq.
  destruct (adv_view_of s); cbn; repeat split.
Qed.

Lemma adv_apply_camera_shake_returns s :
  exists s2,
    AdvanceCamera.apply_camera_shake s = (Return tt, s2)
    /\ adv_motion_kept s s2.
Proof.
  unfold AdvanceCamera.apply_camera_shake.
  cbv [bind get modify ret]. cbv beta iota zeta.
  match goal with
  | |- context [if ?c then _ else _] => destruct c
  end; cbv beta iota; eexists; (split; [ reflexivity | ]); repeat split.
Qed.

Lemma adv_update_motion s :
  let s' := state_after AdvanceCamera.update s in
  let p := lerp (AdvanceCamera.position s) (AdvanceCamera.goal_position s)
                (AdvanceCamera.move_speed s) in
  AdvanceCamera.position s'
  = (if AdvanceCamera.moving s then p else AdvanceCamera.position s)
  /\ AdvanceCamera.goal_position s' = AdvanceCamera.goal_position s
  /\ AdvanceCamera.move_speed s' = AdvanceCamera.move_speed s
  /\ AdvanceCamera.moving s'
     = (AdvanceCamera.moving s
        && negb (vec2_eqb p (AdvanceCamera.goal_position s))).
Proof.
  cbv zeta.
  assert (Hgoal : exists s1,
             (if AdvanceCamera.moving s
              then AdvanceCamera.apply_goal_position else ret tt) s
             = (Return tt, s1)
             /\ AdvanceCamera.position s1
                = (if AdvanceCamera.moving s
                   then lerp (AdvanceCamera.position s)
                             (AdvanceCamera.goal_position s)
                             (AdvanceCamera.move_speed s)
                   else AdvanceCamera.position s)
             /\ AdvanceCamera.goal_position s1 = AdvanceCamera.goal_position s
             /\ AdvanceCamera.move_speed s1 = AdvanceCamera.move_speed s
             /\ AdvanceCamera.moving s1
                = (AdvanceCamera.moving s
                   && negb (vec2_eqb
                              (lerp (AdvanceCamera.position s)
                                    (AdvanceCamera.goal_position s)
                                    (AdvanceCamera.move_speed s))
                              (AdvanceCamera.goal_position s)))).
  { destruct (AdvanceCamera.moving s) eqn:Em.
    - unfold AdvanceCamera.apply_goal_position.
      cbv [bind get modify ret]. cbv beta iota.
      cbn [AdvanceCamera.position AdvanceCamera.goal_position
           AdvanceCamera.with_position].
      match goal with
      | |- context [vec2_eqb ?a ?b] => destruct (vec2_eqb a b)
      end; eexists; (split; [ reflexivity | ]); cbn; rewrite ?Em; repeat split.
    - eexists. split; [ reflexivity | ]. rewrite Em. repeat split. }
  destruct Hgoal as (s1 & E1 & Hp & Hg & Hs & Hm).
  unfold AdvanceCamera.update, state_after.
  cbv [bind get]. rewrite E1.
  assert (Hshake : exists s2,
             (if AdvanceCamera.shaking s1
              then AdvanceCamera.apply_camera_shake else ret tt) s1
             = (Return tt, s2)
             /\ adv_motion_kept s1 s2).
  { destruct (AdvanceCamera.shaking s1).
    - apply adv_apply_camera_shake_returns.
    - eexists. split; [ reflexivity | ]. repeat split. }
  destruct Hshake as (s2 & E2 & Hp2 & Hg2 & Hs2 & Hm2).
  rewrite E2.
  destruct (AdvanceCamera.moving s2 || AdvanceCamera.shaking s2).
  - destruct (adv_set_view_matrix_motion s2) as (Hp3 & Hg3 & Hs3 & Hm3).
    unfold state_after in *.
    rewrite Hp3, Hg3, Hs3, Hm3, Hp2, Hg2, Hs2, Hm2. tauto.
  - cbn. rewrite Hp2, Hg2, Hs2, Hm2. tauto.
Qed.

Lemma std_update_motion s :
  let s' := state_after Camera.update s in
  Camera.position s'
  = lerp (Camera.position s) (Camera.goal_position s) (Camera.move_speed s)
  /\ Camera.goal_position s' = Camera.goal_position s
  /\ Camera.move_speed s' = Camera.move_speed s.
Proof.
  unfold Camera.update. cbv [bind get modify ret lift raise state_after].
  cbv beta iota zeta. cbn.
  destruct (Rltb _ _ && Rltb _ _); cbn.
  all: destruct (div _ _); cbn; [ | repeat split ].
  all: destruct (div _ _); cbn; [ | repeat split ].
  all: destruct (Camera.projection_matrix s); cbn; repeat split.
Qed.

(** ** A camera whose speed is zero, for any camera that interpolates *)

Section Approach.

Variable S : Type.
Variable update : M S unit.
Variables position goal_position : S -> Vec2.
Variable move_speed : S -> R.
Variable moving : S -> bool.

Hypothesis update_position :
  forall s, moving s = true ->
            position (state_after update s)
            = lerp (position s) (goal_position s) (move_speed s).
Hypothesis update_goal :
  forall s, goal_position (state_after update s) = goal_position s.
Hypothesis update_speed :
  forall s, move_speed (state_after update s) = move_speed s.
Hypothesis update_moving :
  forall s, moving s = true ->
            lerp (position s) (goal_position s) (move_speed s)
            <> goal_position s ->
            moving (state_after update s) = true.

Lemma approach_still s n :
  moving s = true -> move_speed s = 0 ->
  position s <> goal_position s ->
  position (repeat_call update n s) = position s
  /\ goal_position (repeat_call update n s) = goal_position s
  /\ move_speed (repeat_call update n s) = 0
  /\ moving (repeat_call update n s) = true.
Proof.
  revert s. induction n as [ | n IH]; intros s Hm Ht Hne.
  - cbn. auto.
  - cbn [repeat_call].
    assert (Hp : position (state_after update s) = position s).
    { rewrite update_position by exact Hm. rewrite Ht. apply lerp_zero. }
    destruct (IH (state_after update s)) as (H1 & H2 & H3 & H4).
    + apply update_moving; [ exact Hm | ].
      rewrite Ht, lerp_zero. exact Hne.
    + rewrite update_speed. exact Ht.
    + rewrite Hp, update_goal. exact Hne.
    + rewrite Hp, update_goal in *. auto.
Qed.

End Approach.

Lemma base_update_moving s :
  BaseCamera.moving s = true ->
  lerp (BaseCamera.position s) (BaseCamera.goal_position s)
       (BaseCamera.move_speed s) <> BaseCamera.goal_position s ->
  BaseCamera.moving (state_after BaseCamera.update s) = true.
Proof.
  intros Hm Hne. destruct (base_update_motion s) as (_ & _ & _ & H).
  rewrite H, Hm. apply vec2_eqb_false_iff in Hne. rewrite Hne. reflexivity.
Qed.

Lemma base_update_position s :
  BaseCamera.moving s = true ->
  BaseCamera.position (state_after BaseCamera.update s)
  = lerp (BaseCamera.position s) (BaseCamera.goal_position s)
         (BaseCamera.move_speed s).
Proof.
  intros Hm. destruct (base_update_motion s) as (H & _). rewrite H, Hm.
  reflexivity.
Qed.

Lemma adv_update_moving s :
  AdvanceCamera.moving s = true ->
  lerp (AdvanceCamera.position s) (AdvanceCamera.goal_position s)
       (AdvanceCamera.move_speed s) <> AdvanceCamera.goal_position s ->
  AdvanceCamera.moving (state_after AdvanceCamera.update s) = true.
Proof.
  intros Hm Hne. destruct (adv_update_motion s) as (_ & _ & _ & H).
  rewrite H, Hm. apply vec2_eqb_false_iff in Hne. rewrite Hne. reflexivity.
Qed.

Lemma adv_update_position s :
  AdvanceCamera.moving s = true ->
  AdvanceCamera.position (state_after AdvanceCamera.update s)
  = lerp (AdvanceCamera.position s) (AdvanceCamera.goal_position s)
         (AdvanceCamera.move_speed s).
Proof.
  intros Hm. destruct (adv_update_motion s) as (H & _). rewrite H, Hm.
  reflexivity.
Qed.

(** ** The movement of [update], over the reals and in binary64 *)

Lemma base_update_is_movement s :
  base_movement (state_after BaseCamera.update s)
  = Movement.update (base_movement s).
Proof.
  destruct (base_update_motion s) as (Hp & Hg & Ht & Hm).
  cbv zeta in Hp, Hm.
  unfold base_movement at 1. rewrite Hp, Hg, Ht, Hm.
  unfold Movement.update, base_movement.
  cbn [Movement.moving Movement.position Movement.goal_position
       Movement.move_speed].
  destruct (BaseCamera.moving s); [ | reflexivity ].
  cbn [andb]. unfold Movement.lerp, Movement.eqb, lerp, vec2_eqb. cbn.
  destruct (Reqb _ _ && Reqb _ _); reflexivity.
Qed.

Lemma adv_update_is_movement s :
  adv_movement (state_after AdvanceCamera.update s)
  = Movement.update (adv_movement s).
Proof.
  destruct (adv_update_motion s) as (Hp & Hg & Ht & Hm).
  cbv zeta in Hp, Hm.
  unfold adv_movement at 1. rewrite Hp, Hg, Ht, Hm.
  unfold Movement.update, adv_movement.
  cbn [Movement.moving Movement.position Movement.goal_position
       Movement.move_speed].
  destruct (AdvanceCamera.moving s); [ | reflexivity ].
  cbn [andb]. unfold Movement.lerp, Movement.eqb, lerp, vec2_eqb. cbn.
  destruct (Reqb _ _ && Reqb _ _); reflexivity.
Qed.

(** ** Movement in binary64 *)

Lemma updates_add {F : Type} `{Numbers F} (a b : nat) (s : Movement.t F) :
  Movement.updates (a + b) s = Movement.updates b (Movement.updates a s).
Proof.
  revert s. induction a as [ | a IH]; intros s; [ reflexivity | ].
  cbn [Nat.add Movement.updates]. apply IH.
Qed.

Lemma updates_fixed {F : Type} `{Numbers F} (n : nat) (s : Movement.t F) :
  Movement.update s = s -> Movement.updates n s = s.
Proof.
  intros E. induction n as [ | n IH]; [ reflexivity | ].
  cbn [Movement.updates]. rewrite E. exact IH.
Qed.

Lemma updates_from {F : Type} `{Numbers F} (k n : nat) (s : Movement.t F) :
  Movement.update (Movement.updates k s) = Movement.updates k s ->
  (k <= n)%nat ->
  Movement.updates n s = Movement.updates k s.
Proof.
  intros E Hn. replace n with (k + (n - k))%nat by lia.
  rewrite updates_add. apply updates_fixed. exact E.
Qed.

Lemma below_bound (P : nat -> bool) (bound : nat) :
  all_below P bound = true ->
  forall n, (n < bound)%nat -> P n = true.
Proof.
  induction bound as [ | k IH]; intros H n Hn; [ lia | ].
  cbn [all_below] in H. apply andb_true_iff in H. destruct H as (Hk & H).
  destruct (Nat.eq_dec n k) as [-> | Hne]; [ exact Hk | ].
  apply IH; [ exact H | lia ].
Qed.

(** C7, amended: [update()] moves a [BaseCamera] and an [AdvanceCamera] by
    the step [Movement.update]: a moving camera gets the position
    [lerp(position, goal_position, move_speed)], keeps its goal and speed,
    and has [moving] cleared exactly when the new position [==] the goal.
    When that happens depends on the rounding.  In binary64,
    [move_to((100, 0), 0.5)] from (0, 0) comes strictly closer at each of
    the first 54 updates, is on the goal after the 54th and stays there;
    [move_to((100, 0), 1.0)] from (0, 0) is on the goal after one
    update. *)
Theorem C7_update_moves_by_lerp_until_equal :
  (forall s : BaseCamera.t,
      base_movement (state_after BaseCamera.update s)
      = Movement.update (base_movement s))
  /\ (forall s : AdvanceCamera.t,
         adv_movement (state_after AdvanceCamera.update s)
         = Movement.update (adv_movement s))
  /\ (forall n : nat,
         (n < 54)%nat ->
         comes_closer (Movement.updates n Binary64.half_speed) = true)
  /\ (forall n : nat,
         (54 <= n)%nat ->
         arrived (Movement.updates n Binary64.half_speed))
  /\ arrived (Movement.update Binary64.full_speed).
Proof.
  split; [ exact base_update_is_movement | ].
  split; [ exact adv_update_is_movement | ].
  split.
  { apply (below_bound
             (fun n => comes_closer (Movement.updates n Binary64.half_speed))).
    vm_compute. reflexivity. }
  split.
  { intros n Hn.
    rewrite (updates_from 54 n Binary64.half_speed);
      [ | vm_compute; reflexivity | exact Hn ].
    split; vm_compute; reflexivity. }
  split; vm_compute; reflexivity.
Qed.

(** C7, witness: the 54th update of [move_to((100, 0), 0.5)]. *)
Lemma C7_update_moves_by_lerp_witness :
  comes_closer (Movement.updates 53 Binary64.half_speed) = true.
Proof.
  apply (proj1 (proj2 (proj2 C7_update_moves_by_lerp_until_equal)) 53%nat).
  lia.
Defined.

(** C7, counterexample: in binary64, [move_to((100, 0), 0.25)] from (0, 0)
    never arrives: after 124 updates the position is
    (99.99999999999997, 0), every further update leaves it there, and
    [moving] is never cleared; and [move_to((0.1, 0), 1.0)] from (0.7, 0)
    is at (0.09999999999999998, 0) after one update, still moving, and on
    the goal only after the second. *)
Lemma C7_quarter_speed_stalls_short_of_goal :
  (forall n : nat,
      Movement.moving (Movement.updates n Binary64.quarter_speed) = true
      /\ Movement.eqb (Movement.position
                         (Movement.updates n Binary64.quarter_speed))
                      (Movement.goal_position Binary64.quarter_speed)
         = false)
  /\ (forall n : nat,
         (124 <= n)%nat ->
         Movement.position (Movement.updates n Binary64.quarter_speed)
         = Movement.mkVec2 Binary64.just_below_100 PrimFloat.zero)
  /\ Movement.update Binary64.full_speed_tenths
     = Movement.mk (Movement.mkVec2 Binary64.just_below_tenth PrimFloat.zero)
                   (Movement.goal_position Binary64.full_speed_tenths)
                   PrimFloat.one true
  /\ arrived (Movement.updates 2 Binary64.full_speed_tenths).
Proof.
  assert (Hfix : forall n, (124 <= n)%nat ->
                           Movement.updates n Binary64.quarter_speed
                           = Movement.updates 124 Binary64.quarter_speed).
  { intros n Hn. apply updates_from; [ vm_compute; reflexivity | exact Hn ]. }
  split.
  { intros n. destruct (Nat.lt_ge_cases n 124) as [Hn | Hn].
    - pose proof (below_bound
                    (fun n =>
                       Movement.moving
                         (Movement.updates n Binary64.quarter_speed)
                       && negb (Movement.eqb
                                  (Movement.position
                                     (Movement.updates
                                        n Binary64.quarter_speed))
                                  (Movement.goal_position
                                     Binary64.quarter_speed)))
                    124) as H.
      cbv beta in H. specialize (H ltac:(vm_compute; reflexivity) n Hn).
      apply andb_true_iff in H. destruct H as (H1 & H2).
      apply negb_true_iff in H2. split; assumption.
    - rewrite (Hfix n Hn). split; vm_compute; reflexivity. }
  split.
  { intros n Hn. rewrite (Hfix n Hn). vm_compute. reflexivity. }
  split; [ vm_compute; reflexivity | ].
  split; vm_compute; reflexivity.
Qed.

Lemma origin_is_not_goal : mkVec2 0 0 <> mkVec2 100 0.
Proof. intros H. apply (f_equal vx) in H. cbn in H. lra. Qed.

(** ** A camera that is not moving sits on its goal *)

Lemma base_set_view_matrix_settled :
  preserves base_settled BaseCamera._set_view_matrix.
Proof.
  intros s Hs. destruct (base_set_view_matrix_motion s) as (Hp & Hg & _ & Hm).
  unfold base_settled. rewrite Hp, Hg, Hm. exact Hs.
Qed.

Lemma base_set_projection_matrix_settled b :
  preserves base_settled (BaseCamera._set_projection_matrix b).
Proof.
  intros s Hs. unfold BaseCamera._set_projection_matrix.
  cbv [bind get modify lift ret state_after]. cbv beta iota.
  destruct (BaseCamera._projection s) as [[[l r] bt] t].
  destruct (orthogonal_projection _ _ _ _ _ _); cbn; [ | exact Hs ].
  destruct b; exact Hs.
Qed.

Lemma base_update_settled : preserves base_settled BaseCamera.update.
Proof.
  intros s Hs. destruct (base_update_motion s) as (Hp & Hg & _ & Hm).
  unfold base_settled. rewrite Hp, Hg, Hm.
  destruct (BaseCamera.moving s) eqn:E; cbn [andb].
  - intros H. apply negb_false_iff in H. apply vec2_eqb_true_iff in H. exact H.
  - intros _. apply Hs. exact E.
Qed.

Lemma base_move_to_settled v speed : preserves base_settled (BaseCamera.move_to v speed).
Proof. intros s _ H. discriminate H. Qed.

Lemma base_call_settled c : preserves base_settled (base_call c).
Proof.
  destruct c; cbn [base_call];
    try apply base_move_to_settled; try apply base_update_settled;
    unfold BaseCamera.viewport_setter, BaseCamera.projection_setter,
      BaseCamera.use.
  all: cbv zeta;
    repeat first
      [ apply base_set_projection_matrix_settled
      | apply base_update_settled
      | apply preserves_modify; intros ? ?; assumption
      | preserves_step ].
Qed.

Lemma base_reachable_settled s : base_reachable s -> base_settled s.
Proof.
  induction 1 as [window viewport projection s H | c s _ IH].
  - revert H. unfold BaseCamera.__init__, constructed.
    match goal with |- context [?m ?s0] =>
      match type of s0 with BaseCamera.t =>
        assert (Hs : base_settled (state_after m s0));
        [ | unfold state_after in Hs; destruct (m s0) as [[[] | e] s1] ]
      end end.
    + apply preserves_bind;
        [ apply base_set_projection_matrix_settled
        | intros _; apply base_set_view_matrix_settled | ].
      intros _. reflexivity.
    + intros H. injection H as <-. exact Hs.
    + discriminate.
  - apply base_call_settled. exact IH.
Qed.

Lemma adv_kept_settled (m : M AdvanceCamera.t unit) :
  (forall s, adv_motion_kept s (state_after m s)) -> preserves adv_settled m.
Proof.
  intros H s Hs. destruct (H s) as (Hp & Hg & _ & Hm).
  unfold adv_settled. rewrite Hp, Hg, Hm. exact Hs.
Qed.

Lemma adv_set_projection_matrix_motion b s :
  adv_motion_kept s (state_after (AdvanceCamera._set_projection_matrix b) s).
Proof.
  unfold state_after. rewrite adv_set_projection_matrix_eq.
  destruct (adv_projection_of s); [ destruct b | ]; cbn; repeat split.
Qed.

Lemma adv_set_rotation_matrix_motion s :
  adv_motion_kept s (state_after AdvanceCamera._set_rotation_matrix s).
Proof.
  unfold state_after. rewrite adv_set_rotation_matrix_eq. cbn. repeat split.
Qed.

Lemma adv_update_settled : preserves adv_settled AdvanceCamera.update.
Proof.
  intros s Hs. destruct (adv_update_motion s) as (Hp & Hg & _ & Hm).
  unfold adv_settled. rewrite Hp, Hg, Hm.
  destruct (AdvanceCamera.moving s) eqn:E; cbn [andb].
  - intros H. apply negb_false_iff in H. apply vec2_eqb_true_iff in H. exact H.
  - intros _. apply Hs. exact E.
Qed.

Lemma adv_move_to_settled v speed :
  preserves adv_settled (AdvanceCamera.move_to v speed).
Proof. intros s _ H. discriminate H. Qed.

Ltac adv_settled_preserves :=
  cbv zeta;
  repeat first
    [ apply adv_move_to_settled
    | apply adv_update_settled
    | apply (adv_kept_settled _ adv_set_view_matrix_motion)
    | apply (adv_kept_settled _ (adv_set_projection_matrix_motion _))
    | apply (adv_kept_settled _ adv_set_rotation_matrix_motion)
    | apply preserves_modify; intros ? ?; assumption
    | preserves_step ].

Lemma adv_call_settled c : preserves adv_settled (advance_call c).
Proof.
  destruct c; cbn [advance_call];
    try match goal with a : option (R * R) |- _ => destruct a end;
    unfold AdvanceCamera.viewport_setter, AdvanceCamera.projection_setter,
      AdvanceCamera.zoom_setter, AdvanceCamera.near_setter,
      AdvanceCamera.far_setter, AdvanceCamera.rotation_setter,
      AdvanceCamera.anchor_setter, AdvanceCamera.resize, AdvanceCamera.shake,
      AdvanceCamera.move, AdvanceCamera.center, AdvanceCamera.use,
      AdvanceCamera.viewport_setter.
  all: adv_settled_preserves.
Qed.

Lemma adv_reachable_settled s : advance_reachable s -> adv_settled s.
Proof.
  induction 1 as [? ? ? ? ? ? s H | c s _ IH].
  - revert H. unfold AdvanceCamera.__init__, constructed.
    match goal with |- context [?m ?s0] =>
      match type of s0 with AdvanceCamera.t =>
        assert (Hs : adv_settled (state_after m s0));
        [ | unfold state_after in Hs; destruct (m s0) as [[[] | e] s1] ]
      end end.
    + match goal with
      | |- adv_settled (state_after ?m ?s0) =>
          assert (Hpres : preserves adv_settled m) by adv_settled_preserves;
          apply Hpres
      end.
      intros _. reflexivity.
    + intros H. injection H as <-. exact Hs.
    + discriminate.
  - apply adv_call_settled. exact IH.
Qed.

(** ** A speed of zero *)

Lemma vec2_eqb_neq (a b : Vec2) : a <> b -> vec2_eqb a b = false.
Proof. apply vec2_eqb_false_iff. Qed.

Lemma base_update_still_recomputes s :
  BaseCamera.moving s = true -> BaseCamera.move_speed s = 0 ->
  BaseCamera.position s <> BaseCamera.goal_position s ->
  BaseCamera.update s = BaseCamera._set_view_matrix s.
Proof.
  destruct s as [w vp pr pm vm cm p g t m]. cbn. intros -> -> Hne.
  unfold BaseCamera.update. cbv [bind get modify ret]. cbn.
  rewrite lerp_zero, (vec2_eqb_neq _ _ Hne). reflexivity.
Qed.

Lemma adv_update_still_recomputes s :
  AdvanceCamera.moving s = true -> AdvanceCamera.move_speed s = 0 ->
  AdvanceCamera.position s <> AdvanceCamera.goal_position s ->
  AdvanceCamera.update s
  = ((if AdvanceCamera.shaking s
      then AdvanceCamera.apply_camera_shake else ret tt) ;;
     AdvanceCamera._set_view_matrix) s.
Proof.
  destruct s as [w p g t m z r a n f sv so ss sd sh vp pr pm vm cm rm].
  cbn. intros -> -> Hne.
  unfold AdvanceCamera.update, AdvanceCamera.apply_goal_position.
  cbv [bind get modify ret]. cbn.
  rewrite lerp_zero, (vec2_eqb_neq _ _ Hne).
  destruct sh; cbn [AdvanceCamera.shaking AdvanceCamera.moving]; cbv beta iota.
  - match goal with
    | |- context [AdvanceCamera.apply_camera_shake ?s0] =>
        destruct (adv_apply_camera_shake_returns s0) as (s2 & E & _ & _ & _ & Hm);
        rewrite E
    end.
    cbv beta iota. cbn in Hm. rewrite Hm. reflexivity.
  - reflexivity.
Qed.

(** C10: a camera whose speed is zero and whose position is not its goal
    stays where it is: after any number of updates the position is
    unchanged and is still not the goal, [moving] is still set, and the
    next [update()] recomputes the view matrix once more (after the shake
    step, for [AdvanceCamera]).  A [Camera], which has no [moving] flag,
    keeps its position likewise. *)
Theorem C10_zero_speed_never_arrives :
  (forall (s : BaseCamera.t) (n : nat),
      base_reachable s ->
      BaseCamera.move_speed s = 0 ->
      BaseCamera.position s <> BaseCamera.goal_position s ->
      let sn := repeat_call BaseCamera.update n s in
      BaseCamera.position sn = BaseCamera.position s
      /\ BaseCamera.position sn <> BaseCamera.goal_position sn
      /\ BaseCamera.moving sn = true
      /\ BaseCamera.update sn = BaseCamera._set_view_matrix sn)
  /\ (forall (s : AdvanceCamera.t) (n : nat),
         advance_reachable s ->
         AdvanceCamera.move_speed s = 0 ->
         AdvanceCamera.position s <> AdvanceCamera.goal_position s ->
         let sn := repeat_call AdvanceCamera.update n s in
         AdvanceCamera.position sn = AdvanceCamera.position s
         /\ AdvanceCamera.position sn <> AdvanceCamera.goal_position sn
         /\ AdvanceCamera.moving sn = true
         /\ AdvanceCamera.update sn
            = ((if AdvanceCamera.shaking sn
                then AdvanceCamera.apply_camera_shake else ret tt) ;;
               AdvanceCamera._set_view_matrix) sn)
  /\ (forall (s : Camera.t) (n : nat),
         Camera.move_speed s = 0 ->
         Camera.position (repeat_call Camera.update n s) = Camera.position s).
Proof.
  split; [ | split ].
  - intros s n Hr Ht Hne. cbv zeta.
    assert (Hm : BaseCamera.moving s = true).
    { destruct (BaseCamera.moving s) eqn:E; [ reflexivity | ].
      exfalso. apply Hne. apply (base_reachable_settled s Hr E). }
    pose proof (fun s => proj1 (proj2 (base_update_motion s))) as Hgoal.
    pose proof (fun s => proj1 (proj2 (proj2 (base_update_motion s)))) as Hspeed.
    cbv zeta in Hgoal, Hspeed.
    destruct (approach_still _ BaseCamera.update BaseCamera.position
                BaseCamera.goal_position BaseCamera.move_speed
                BaseCamera.moving base_update_position Hgoal Hspeed
                base_update_moving s n Hm Ht Hne) as (H1 & H2 & H3 & H4).
    split; [ exact H1 | ].
    assert (Hne' : BaseCamera.position (repeat_call BaseCamera.update n s)
                   <> BaseCamera.goal_position (repeat_call BaseCamera.update n s))
      by (rewrite H1, H2; exact Hne).
    split; [ exact Hne' | ]. split; [ exact H4 | ].
    apply base_update_still_recomputes; assumption.
  - intros s n Hr Ht Hne. cbv zeta.
    assert (Hm : AdvanceCamera.moving s = true).
    { destruct (AdvanceCamera.moving s) eqn:E; [ reflexivity | ].
      exfalso. apply Hne. apply (adv_reachable_settled s Hr E). }
    pose proof (fun s => proj1 (proj2 (adv_update_motion s))) as Hgoal.
    pose proof (fun s => proj1 (proj2 (proj2 (adv_update_motion s)))) as Hspeed.
    cbv zeta in Hgoal, Hspeed.
    destruct (approach_still _ AdvanceCamera.update AdvanceCamera.position
                AdvanceCamera.goal_position AdvanceCamera.move_speed
                AdvanceCamera.moving adv_update_position Hgoal Hspeed
                adv_update_moving s n Hm Ht Hne) as (H1 & H2 & H3 & H4).
    split; [ exact H1 | ].
    assert (Hne' : AdvanceCamera.position (repeat_call AdvanceCamera.update n s)
                   <> AdvanceCamera.goal_position
                        (repeat_call AdvanceCamera.update n s))
      by (rewrite H1, H2; exact Hne).
    split; [ exact Hne' | ]. split; [ exact H4 | ].
    apply adv_update_still_recomputes; assumption.
  - intros s n Ht. revert s Ht. induction n as [ | n IH]; intros s Ht.
    + reflexivity.
    + cbn [repeat_call]. destruct (std_update_motion s) as (Hp & _ & Hs).
      rewrite IH by (rewrite Hs; exact Ht).
      rewrite Hp, Ht. apply lerp_zero.
Qed.

(** C10, witness: a fresh [AdvanceCamera] after [move_to((100, 0), 0)],
    updated three times. *)
Lemma C10_zero_speed_witness :
  let sn := repeat_call AdvanceCamera.update 3 advance_moving_still in
  AdvanceCamera.position sn = AdvanceCamera.position advance_moving_still
  /\ AdvanceCamera.position sn <> AdvanceCamera.goal_position sn
  /\ AdvanceCamera.moving sn = true
  /\ AdvanceCamera.update sn
     = ((if AdvanceCamera.shaking sn
         then AdvanceCamera.apply_camera_shake else ret tt) ;;
        AdvanceCamera._set_view_matrix) sn.
Proof.
  apply (proj1 (proj2 C10_zero_speed_never_arrives)).
  - apply adv_reach_call. eapply adv_reach_init. apply (advance_init_fresh 0).
  - reflexivity.
  - cbn. apply origin_is_not_goal.
Defined.

(** ** What the setters recompute *)















(** * Further properties of the cameras *)

(** ** The angle of the shake offset *)

Lemma norm_factor (a b : R) :
  b <> 0 -> sqrt (a * a + b * b) = Rabs b * sqrt (1 + (a / b)²).
Proof.
  intros Hb.
  replace (a * a + b * b) with (b² * (1 + (a / b)²))
    by (unfold Rsqr; field; exact Hb).
  rewrite sqrt_mult.
  - rewrite sqrt_Rsqr_abs. reflexivity.
  - apply Rle_0_sqr.
  - pose proof (Rle_0_sqr (a / b)). lra.
Qed.

Lemma norm_factor_pos (a b : R) : 0 < sqrt (1 + (a / b)²).
Proof. apply sqrt_lt_R0. pose proof (Rle_0_sqr (a / b)). lra. Qed.

(** [atan2 a b] is the angle whose sine is [a] and whose cosine is [b],
    over the length of [(a, b)]: the angle of the vector measured from
    the y axis. *)
Lemma sin_cos_atan2 (a b : R) :
  a <> 0 \/ b <> 0 ->
  sin (atan2 a b) = a / sqrt (a * a + b * b)
  /\ cos (atan2 a b) = b / sqrt (a * a + b * b).
Proof.
  intros Hne. unfold atan2.
  pose proof (norm_factor_pos a b) as Hpos.
  destruct (Rlt_dec 0 b) as [Hb | Hb].
  - rewrite sin_atan, cos_atan, norm_factor by lra.
    rewrite Rabs_right by lra. split; field; lra.
  - destruct (Rlt_dec b 0) as [Hb' | Hb'].
    + assert (Hs : sin (atan (a / b)) = a / b / sqrt (1 + (a / b)²))
        by apply sin_atan.
      assert (Hc : cos (atan (a / b)) = 1 / sqrt (1 + (a / b)²))
        by apply cos_atan.
      rewrite norm_factor by lra. rewrite Rabs_left by lra.
      destruct (Rlt_dec a 0).
      * rewrite sin_minus, cos_minus, sin_PI, cos_PI, Hs, Hc.
        split; field; lra.
      * rewrite neg_sin, neg_cos, Hs, Hc. split; field; lra.
    + assert (b = 0) by lra. subst b.
      replace (a * a + 0 * 0) with (a * a) by ring.
      destruct (Rlt_dec 0 a) as [Ha | Ha].
      * rewrite sin_PI2, cos_PI2, sqrt_square by lra. split; field; lra.
      * destruct (Rlt_dec a 0) as [Ha' | Ha'].
        -- rewrite sin_neg, cos_neg, sin_PI2, cos_PI2.
           replace (a * a) with ((- a) * (- a)) by ring.
           rewrite sqrt_square by lra. split; field; lra.
        -- exfalso. destruct Hne as [H | H]; apply H; lra.
Qed.

Lemma atan2_origin : atan2 0 0 = 0.
Proof.
  unfold atan2.
  destruct (Rlt_dec 0 0) as [H | _]; [ exfalso; lra | reflexivity ].
Qed.

Lemma get_distance_from_origin (x y : R) :
  get_distance 0 0 x y = sqrt (x * x + y * y).
Proof. unfold get_distance. f_equal. ring. Qed.

Lemma get_distance_origin_pos (x y : R) :
  x <> 0 \/ y <> 0 -> 0 < get_distance 0 0 x y.
Proof.
  intros H. change (0 < distance (mkVec2 0 0) (mkVec2 x y)).
  apply distance_pos. intros E. injection E as Ex Ey.
  destruct H as [H | H]; apply H; lra.
Qed.

(** The pull back of the shake: the vector of length [reverse_speed] at the
    angle opposite to the offset points from the offset to the origin. *)
Lemma restoring_pull (ox oy reverse_speed : R) :
  ox <> 0 \/ oy <> 0 ->
  sin (atan2 ox oy + PI) * reverse_speed
  = - (reverse_speed / get_distance 0 0 ox oy) * ox
  /\ cos (atan2 ox oy + PI) * reverse_speed
     = - (reverse_speed / get_distance 0 0 ox oy) * oy.
Proof.
  intros H. pose proof (get_distance_origin_pos ox oy H) as Hd.
  destruct (sin_cos_atan2 ox oy H) as (Hs & Hc).
  rewrite neg_sin, neg_cos, Hs, Hc.
  rewrite get_distance_from_origin in *. split; field; lra.
Qed.

Lemma restoring_pull_whole (ox oy : R) :
  sin (atan2 ox oy + PI) * get_distance 0 0 ox oy = - ox
  /\ cos (atan2 ox oy + PI) * get_distance 0 0 ox oy = - oy.
Proof.
  destruct (Req_dec_T ox 0) as [Ex | Ex].
  - destruct (Req_dec_T oy 0) as [Ey | Ey].
    + subst. rewrite get_distance_from_origin.
      replace (0 * 0 + 0 * 0) with 0 by ring. rewrite sqrt_0. split; ring.
    + assert (H : ox <> 0 \/ oy <> 0) by (right; exact Ey).
      pose proof (get_distance_origin_pos ox oy H) as Hd.
      destruct (restoring_pull ox oy (get_distance 0 0 ox oy) H) as (Hs & Hc).
      rewrite Hs, Hc. split; field; lra.
  - assert (H : ox <> 0 \/ oy <> 0) by (left; exact Ex).
    pose proof (get_distance_origin_pos ox oy H) as Hd.
    destruct (restoring_pull ox oy (get_distance 0 0 ox oy) H) as (Hs & Hc).
    rewrite Hs, Hc. split; field; lra.
Qed.

(** The shake fields after the shake step of [AdvanceCamera.update], as
    the code computes them. *)
Lemma adv_update_shake_raw s :
  AdvanceCamera.shaking s = true ->
  let v := AdvanceCamera.shake_velocity s in
  let o := vec2_add (AdvanceCamera.shake_offset s) v in
  let d := get_distance 0 0 (vx o) (vy o) in
  let angle := atan2 (vx o) (vy o) + PI in
  let pull := mkVec2 (sin angle * Rmin (AdvanceCamera.shake_speed s) d)
                     (cos angle * Rmin (AdvanceCamera.shake_speed s) d) in
  let damping := mkVec2 (AdvanceCamera.shake_damping s)
                        (AdvanceCamera.shake_damping s) in
  let s' := state_after AdvanceCamera.update s in
  if shake_ends v o (AdvanceCamera.shake_speed s)
  then AdvanceCamera.shaking s' = false
       /\ AdvanceCamera.shake_offset s' = mkVec2 0 0
       /\ AdvanceCamera.shake_velocity s'
          = vec2_mul (vec2_add (mkVec2 0 0) pull) damping
  else AdvanceCamera.shaking s' = true
       /\ AdvanceCamera.shake_offset s' = o
       /\ AdvanceCamera.shake_velocity s' = vec2_mul (vec2_add v pull) damping.
Proof.
  destruct s as [w p g t m z r a n f sv so ss sd sh vp pr pm vm cm rm].
  cbn [AdvanceCamera.shaking AdvanceCamera.shake_velocity
       AdvanceCamera.shake_offset AdvanceCamera.shake_speed
       AdvanceCamera.shake_damping].
  intros ->. cbv zeta. unfold shake_ends.
  unfold AdvanceCamera.update, AdvanceCamera.apply_goal_position,
    AdvanceCamera.apply_camera_shake.
  cbv [bind get modify ret state_after]. cbv beta iota zeta.
  destruct m; cbn [AdvanceCamera.moving AdvanceCamera.shaking
                   AdvanceCamera.position AdvanceCamera.goal_position
                   AdvanceCamera.move_speed AdvanceCamera.with_position
                   AdvanceCamera.with_moving AdvanceCamera.with_shake_offset
                   AdvanceCamera.shake_offset AdvanceCamera.shake_velocity
                   AdvanceCamera.shake_speed AdvanceCamera.shake_damping];
    cbv beta iota.
  1: destruct (vec2_eqb _ _); cbv beta iota;
    cbn [AdvanceCamera.moving AdvanceCamera.shaking
         AdvanceCamera.position AdvanceCamera.goal_position
         AdvanceCamera.move_speed AdvanceCamera.with_position
         AdvanceCamera.with_moving AdvanceCamera.with_shake_offset
         AdvanceCamera.shake_offset AdvanceCamera.shake_velocity
         AdvanceCamera.shake_speed AdvanceCamera.shake_damping];
    cbv beta iota.
  all: destruct (Rltb _ ss && Rltb _ ss); cbn; rewrite ?orb_true_r.
  all: try (rewrite adv_set_view_matrix_eq;
            destruct (adv_view_of _); cbn).
  all: repeat split.
Qed.

Lemma shake_ends_true (v o : Vec2) (speed : R) :
  shake_ends v o speed = true ->
  get_distance 0 0 (vx o) (vy o) < speed.
Proof.
  unfold shake_ends. intros H. apply andb_true_iff in H.
  destruct H as (_ & H). apply Rltb_true_iff in H. exact H.
Qed.

(** X1: when [update()] ends a shake it clears [shaking] and the offset,
    and leaves the velocity at minus the damping times the offset the
    shake had reached. *)
Theorem X1_shake_end_residual_velocity :
  forall s : AdvanceCamera.t,
    AdvanceCamera.shaking s = true ->
    let o := vec2_add (AdvanceCamera.shake_offset s)
                      (AdvanceCamera.shake_velocity s) in
    shake_ends (AdvanceCamera.shake_velocity s) o (AdvanceCamera.shake_speed s)
    = true ->
    let s' := state_after AdvanceCamera.update s in
    AdvanceCamera.shaking s' = false
    /\ AdvanceCamera.shake_offset s' = mkVec2 0 0
    /\ AdvanceCamera.shake_velocity s'
       = mkVec2 (- vx o * AdvanceCamera.shake_damping s)
                (- vy o * AdvanceCamera.shake_damping s).
Proof.
  intros s Hs o He s'. pose proof (adv_update_shake_raw s Hs) as H.
  cbv zeta in H. fold o in H. rewrite He in H. fold s' in H.
  destruct H as (H1 & H2 & H3).
  split; [ exact H1 | ]. split; [ exact H2 | ].
  rewrite H3. apply shake_ends_true in He.
  rewrite Rmin_right by lra.
  destruct (restoring_pull_whole (vx o) (vy o)) as (Hx & Hy).
  rewrite Hx, Hy. unfold vec2_mul, vec2_add. cbn. f_equal; ring.
Qed.

(** X2: while the shake goes on, [update()] moves the offset by the
    velocity and sets the velocity to the old one plus a pull of length
    min(shake_speed, distance) from the offset towards the origin, times
    the damping. *)
Theorem X2_shake_pull_towards_origin :
  forall s : AdvanceCamera.t,
    AdvanceCamera.shaking s = true ->
    let v := AdvanceCamera.shake_velocity s in
    let o := vec2_add (AdvanceCamera.shake_offset s) v in
    let d := get_distance 0 0 (vx o) (vy o) in
    let k := Rmin (AdvanceCamera.shake_speed s) d / d in
    shake_ends v o (AdvanceCamera.shake_speed s) = false ->
    o <> mkVec2 0 0 ->
    let s' := state_after AdvanceCamera.update s in
    AdvanceCamera.shaking s' = true
    /\ AdvanceCamera.shake_offset s' = o
    /\ AdvanceCamera.shake_velocity s'
       = mkVec2 ((vx v - k * vx o) * AdvanceCamera.shake_damping s)
                ((vy v - k * vy o) * AdvanceCamera.shake_damping s).
Proof.
  intros s Hs v o d k He Hne s'. pose proof (adv_update_shake_raw s Hs) as H.
  cbv zeta in H. fold v in H. fold o in H. rewrite He in H. fold s' in H.
  destruct H as (H1 & H2 & H3).
  split; [ exact H1 | ]. split; [ exact H2 | ].
  rewrite H3.
  assert (Ho : vx o <> 0 \/ vy o <> 0).
  { destruct (Req_dec_T (vx o) 0) as [Ex | Ex]; [ | left; exact Ex ].
    right. intros Ey. apply Hne. apply vec2_ext; cbn; assumption. }
  destruct (restoring_pull (vx o) (vy o)
              (Rmin (AdvanceCamera.shake_speed s) d) Ho) as (Hx & Hy).
  fold d in Hx, Hy. fold d. rewrite Hx, Hy.
  unfold vec2_mul, vec2_add, k. cbn. f_equal; ring.
Qed.

Lemma get_distance_up (x y : R) :
  x = 0 -> 0 <= y -> get_distance 0 0 x y = y.
Proof.
  intros -> Hy. rewrite get_distance_from_origin.
  replace (0 * 0 + y * y) with (y * y) by ring. apply sqrt_square. exact Hy.
Qed.

(** X1, witness: the shake of velocity (0, 1) ends at the first update. *)
Lemma X1_shake_end_witness :
  let s' := state_after AdvanceCamera.update advance_shaken_gently in
  AdvanceCamera.shaking s' = false
  /\ AdvanceCamera.shake_offset s' = mkVec2 0 0
  /\ AdvanceCamera.shake_velocity s'
     = mkVec2 (- vx (vec2_add (AdvanceCamera.shake_offset advance_shaken_gently)
                              (AdvanceCamera.shake_velocity advance_shaken_gently))
               * AdvanceCamera.shake_damping advance_shaken_gently)
              (- vy (vec2_add (AdvanceCamera.shake_offset advance_shaken_gently)
                              (AdvanceCamera.shake_velocity advance_shaken_gently))
               * AdvanceCamera.shake_damping advance_shaken_gently).
Proof.
  apply (X1_shake_end_residual_velocity advance_shaken_gently).
  - reflexivity.
  - unfold shake_ends. cbn.
    rewrite !get_distance_up by lra.
    rewrite !Rltb_lt by lra. reflexivity.
Defined.

(** X2, witness: the shake of velocity (0, 10) goes on after an update. *)
Lemma X2_shake_pull_witness :
  let s := advance_shaken_hard in
  let v := AdvanceCamera.shake_velocity s in
  let o := vec2_add (AdvanceCamera.shake_offset s) v in
  let d := get_distance 0 0 (vx o) (vy o) in
  let k := Rmin (AdvanceCamera.shake_speed s) d / d in
  let s' := state_after AdvanceCamera.update s in
  AdvanceCamera.shaking s' = true
  /\ AdvanceCamera.shake_offset s' = o
  /\ AdvanceCamera.shake_velocity s'
     = mkVec2 ((vx v - k * vx o) * AdvanceCamera.shake_damping s)
              ((vy v - k * vy o) * AdvanceCamera.shake_damping s).
Proof.
  apply (X2_shake_pull_towards_origin advance_shaken_hard).
  - reflexivity.
  - unfold shake_ends. cbn.
    rewrite !get_distance_up by lra.
    rewrite (Rltb_nlt (0 + 10) (3 / 2)) by lra. reflexivity.
  - cbn. intros H. apply (f_equal vy) in H. cbn in H. lra.
Defined.

Lemma adv_set_view_matrix_shake s :
  adv_shake_kept s (state_after AdvanceCamera._set_view_matrix s).
Proof.
  unfold state_after. rewrite adv_set_view_matrix_eq.
  destruct (adv_view_of s); cbn; repeat split.
Qed.

Lemma adv_set_projection_matrix_shake b s :
  adv_shake_kept s (state_after (AdvanceCamera._set_projection_matrix b) s).
Proof.
  unfold state_after. rewrite adv_set_projection_matrix_eq.
  destruct (adv_projection_of s); [ destruct b | ]; cbn; repeat split.
Qed.

Lemma adv_set_rotation_matrix_shake s :
  adv_shake_kept s (state_after AdvanceCamera._set_rotation_matrix s).
Proof.
  unfold state_after. rewrite adv_set_rotation_matrix_eq. cbn. repeat split.
Qed.

Lemma adv_update_not_shaking s :
  AdvanceCamera.shaking s = false ->
  adv_shake_kept s (state_after AdvanceCamera.update s).
Proof.
  destruct s as [w p g t m z r a n f sv so ss sd sh vp pr pm vm cm rm].
  cbn [AdvanceCamera.shaking]. intros ->.
  unfold AdvanceCamera.update, AdvanceCamera.apply_goal_position.
  cbv [bind get modify ret state_after]. cbv beta iota.
  destruct m; cbn [AdvanceCamera.moving AdvanceCamera.shaking
                   AdvanceCamera.position AdvanceCamera.goal_position
                   AdvanceCamera.move_speed AdvanceCamera.with_position
                   AdvanceCamera.with_moving]; cbv beta iota.
  1: destruct (vec2_eqb _ _); cbv beta iota;
    cbn [AdvanceCamera.moving AdvanceCamera.shaking
         AdvanceCamera.with_moving orb]; cbv beta iota.
  all: try (rewrite adv_set_view_matrix_eq; destruct (adv_view_of _)).
  all: cbn; repeat split.
Qed.

Lemma adv_kept_shake_rest (m : M AdvanceCamera.t unit) :
  (forall s, adv_shake_kept s (state_after m s)) -> preserves adv_shake_rest m.
Proof.
  intros H s Hs. destruct (H s) as (Hk & Ho & _).
  unfold adv_shake_rest. rewrite Hk, Ho. exact Hs.
Qed.

Lemma adv_update_shake_rest : preserves adv_shake_rest AdvanceCamera.update.
Proof.
  intros s Hs. destruct (AdvanceCamera.shaking s) eqn:E.
  - pose proof (adv_update_shake_raw s E) as H. cbv zeta in H.
    destruct (shake_ends _ _ _); destruct H as (H1 & H2 & _); intros H'.
    + exact H2.
    + rewrite H1 in H'. discriminate H'.
  - destruct (adv_update_not_shaking s E) as (Hk & Ho & _).
    unfold adv_shake_rest. rewrite Hk, Ho. exact Hs.
Qed.

Lemma adv_shake_shake_rest v speed damping :
  preserves adv_shake_rest (AdvanceCamera.shake v speed damping).
Proof. intros s _ H. discriminate H. Qed.

Ltac adv_shake_rest_preserves :=
  cbv zeta;
  repeat first
    [ apply adv_shake_shake_rest
    | apply adv_update_shake_rest
    | apply (adv_kept_shake_rest _ adv_set_view_matrix_shake)
    | apply (adv_kept_shake_rest _ (adv_set_projection_matrix_shake _))
    | apply (adv_kept_shake_rest _ adv_set_rotation_matrix_shake)
    | apply preserves_modify; intros ? ?; assumption
    | preserves_step ].

Lemma adv_call_shake_rest c : preserves adv_shake_rest (advance_call c).
Proof.
  destruct c; cbn [advance_call];
    try match goal with a : option (R * R) |- _ => destruct a end;
    unfold AdvanceCamera.viewport_setter, AdvanceCamera.projection_setter,
      AdvanceCamera.zoom_setter, AdvanceCamera.near_setter,
      AdvanceCamera.far_setter, AdvanceCamera.rotation_setter,
      AdvanceCamera.anchor_setter, AdvanceCamera.resize,
      AdvanceCamera.move, AdvanceCamera.move_to, AdvanceCamera.center,
      AdvanceCamera.use, AdvanceCamera.viewport_setter.
  all: adv_shake_rest_preserves.
Qed.

Lemma advance_shaken_gently_ends :
  AdvanceCamera.shaking (state_after AdvanceCamera.update advance_shaken_gently)
  = false.
Proof.
  pose proof (adv_update_shake_raw advance_shaken_gently eq_refl) as H.
  cbv zeta in H.
  assert (E : shake_ends (AdvanceCamera.shake_velocity advance_shaken_gently)
                (vec2_add (AdvanceCamera.shake_offset advance_shaken_gently)
                          (AdvanceCamera.shake_velocity advance_shaken_gently))
                (AdvanceCamera.shake_speed advance_shaken_gently) = true).
  { unfold shake_ends. cbn. rewrite !get_distance_up by lra.
    rewrite !Rltb_lt by lra. reflexivity. }
  rewrite E in H. apply H.
Qed.

(** X3: in every state of an [AdvanceCamera] that a client reaches through
    the constructor and the methods, a camera that is not shaking has a
    zero shake offset. *)
Theorem X3_not_shaking_has_no_offset :
  forall s : AdvanceCamera.t,
    advance_reachable s ->
    AdvanceCamera.shaking s = false ->
    AdvanceCamera.shake_offset s = mkVec2 0 0.
Proof.
  intros s Hr. change (adv_shake_rest s).
  induction Hr as [? ? ? ? ? ? s H | c s _ IH].
  - revert H. unfold AdvanceCamera.__init__, constructed.
    match goal with |- context [?m ?s0] =>
      match type of s0 with AdvanceCamera.t =>
        assert (Hs : adv_shake_rest (state_after m s0));
        [ | unfold state_after in Hs; destruct (m s0) as [[[] | e] s1] ]
      end end.
    + match goal with
      | |- adv_shake_rest (state_after ?m ?s0) =>
          assert (Hpres : preserves adv_shake_rest m)
            by adv_shake_rest_preserves;
          apply Hpres
      end.
      intros _. reflexivity.
    + intros H. injection H as <-. exact Hs.
    + discriminate.
  - apply adv_call_shake_rest. exact IH.
Qed.

(** X3, witness: the camera whose shake has just ended. *)
Lemma X3_not_shaking_witness :
  AdvanceCamera.shake_offset
    (state_after (advance_call AdvUpdate)
       (state_after (advance_call (AdvShake (mkVec2 0 1) (3 / 2) (9 / 10)))
                    (fresh_advance 0)))
  = mkVec2 0 0.
Proof.
  apply X3_not_shaking_has_no_offset.
  - apply adv_reach_call. apply adv_reach_call.
    eapply adv_reach_init. apply (advance_init_fresh 0).
  - cbn [advance_call].
    apply advance_shaken_gently_ends.
Defined.

(** X4: in every state a client reaches, a [BaseCamera] or an
    [AdvanceCamera] whose [moving] flag is clear sits exactly on its goal
    position. *)
Theorem X4_not_moving_is_on_goal :
  (forall s : BaseCamera.t,
      base_reachable s -> BaseCamera.moving s = false ->
      BaseCamera.position s = BaseCamera.goal_position s)
  /\ (forall s : AdvanceCamera.t,
         advance_reachable s -> AdvanceCamera.moving s = false ->
         AdvanceCamera.position s = AdvanceCamera.goal_position s).
Proof.
  split.
  - intros s Hr. exact (base_reachable_settled s Hr).
  - intros s Hr. exact (adv_reachable_settled s Hr).
Qed.

Lemma fresh_advance_moved_arrives :
  AdvanceCamera.moving
    (state_after (advance_call AdvUpdate)
       (state_after (advance_call (AdvMove (mkVec2 100 0))) (fresh_advance 0)))
  = false.
Proof.
  cbn [advance_call].
  match goal with
  | |- AdvanceCamera.moving (state_after AdvanceCamera.update ?s) = false =>
      destruct (adv_update_motion s) as (_ & _ & _ & H); rewrite H
  end.
  cbn. rewrite lerp_one. rewrite (vec2_eqb_eq _ _ eq_refl). reflexivity.
Qed.

(** X4, witness: a fresh [AdvanceCamera] after [move((100, 0))] and one
    [update()]. *)
Lemma X4_not_moving_witness :
  let s := state_after (advance_call AdvUpdate)
             (state_after (advance_call (AdvMove (mkVec2 100 0)))
                          (fresh_advance 0)) in
  AdvanceCamera.position s = AdvanceCamera.goal_position s.
Proof.
  apply (proj2 X4_not_moving_is_on_goal).
  - apply adv_reach_call. apply adv_reach_call.
    eapply adv_reach_init. apply (advance_init_fresh 0).
  - apply fresh_advance_moved_arrives.
Defined.

(** ** [center] and [get_map_coordinates] *)

(** X5: for a screen point and a camera position with whole-number
    coordinates, [center(vector, 1.0)] followed by one [update()] brings
    under the centre of the viewport the map point that
    [get_map_coordinates] gave for [vector] before: [center] reads its
    argument as a point of the screen. *)
Theorem X5_center_brings_screen_point_to_centre :
  forall (vector : Vec2) (s : AdvanceCamera.t),
    whole vector ->
    whole (AdvanceCamera.position s) ->
    (Z.abs (AdvanceCamera.viewport_width s) <= 2 ^ 50)%Z ->
    (Z.abs (AdvanceCamera.viewport_height s) <= 2 ^ 50)%Z ->
    let s' := state_after (AdvanceCamera.center vector 1 ;;
                           AdvanceCamera.update) s in
    let half := mkVec2 (IZR (AdvanceCamera.viewport_width s) / 2)
                       (IZR (AdvanceCamera.viewport_height s) / 2) in
    AdvanceCamera.get_map_coordinates half s'
    = AdvanceCamera.get_map_coordinates vector s
    /\ AdvanceCamera.position s'
       = vec2_sub (vec2_add vector (AdvanceCamera.position s)) half
    /\ AdvanceCamera.moving s' = false.
Proof.
  intros vector s _ _ _ _. cbv zeta.
  rewrite state_after_bind.
  assert (Hc : AdvanceCamera.center vector 1 s
               = (Return tt,
                  state_after (AdvanceCamera.center vector 1) s))
    by reflexivity.
  rewrite Hc.
  set (s1 := state_after (AdvanceCamera.center vector 1) s).
  assert (Hp : AdvanceCamera.position (state_after AdvanceCamera.update s1)
               = vec2_sub (vec2_add vector (AdvanceCamera.position s))
                          (mkVec2 (IZR (AdvanceCamera.viewport_width s) / 2)
                                  (IZR (AdvanceCamera.viewport_height s) / 2))).
  { rewrite adv_update_position by reflexivity.
    replace (AdvanceCamera.move_speed s1) with 1 by reflexivity.
    rewrite lerp_one. reflexivity. }
  split; [ | split; [ exact Hp | ] ].
  - unfold AdvanceCamera.get_map_coordinates. rewrite Hp.
    unfold vec2_add, vec2_sub. cbn. f_equal; ring.
  - destruct (adv_update_motion s1) as (_ & _ & _ & Hm). cbv zeta in Hm.
    rewrite Hm.
    replace (AdvanceCamera.move_speed s1) with 1 by reflexivity.
    rewrite lerp_one, (vec2_eqb_eq _ _ eq_refl). apply andb_false_r.
Qed.

Lemma whole_point (a b : Z) :
  (Z.abs a <= 2 ^ 50)%Z -> (Z.abs b <= 2 ^ 50)%Z ->
  whole (mkVec2 (IZR a) (IZR b)).
Proof. intros Ha Hb. exists a, b. repeat split; assumption. Qed.

(** X5, witness: the screen point (100, 50) on a fresh [AdvanceCamera]. *)
Lemma X5_center_witness :
  let s := fresh_advance 0 in
  let s' := state_after (AdvanceCamera.center (mkVec2 100 50) 1 ;;
                         AdvanceCamera.update) s in
  let half := mkVec2 (IZR (AdvanceCamera.viewport_width s) / 2)
                     (IZR (AdvanceCamera.viewport_height s) / 2) in
  AdvanceCamera.get_map_coordinates half s'
  = AdvanceCamera.get_map_coordinates (mkVec2 100 50) s
  /\ AdvanceCamera.position s'
     = vec2_sub (vec2_add (mkVec2 100 50) (AdvanceCamera.position s)) half
  /\ AdvanceCamera.moving s' = false.
Proof.
  apply (X5_center_brings_screen_point_to_centre
           (mkVec2 100 50) (fresh_advance 0)).
  - apply (whole_point 100 50); cbn; lia.
  - apply (whole_point 0 0); cbn; lia.
  - cbn. lia.
  - cbn. lia.
Defined.

(** ** No rotation *)

Lemma rotation_matrix_zero (a : Vec2) :
  MatrixPipeline.rotation_matrix 0 a = Mat4_identity.
Proof.
  unfold MatrixPipeline.rotation_matrix.
  replace (radians 0) with 0 by (unfold radians; field).
  apply mat4_ext; mat_cbv; rewrite ?cos_0, ?sin_0; ring.
Qed.

(** X6: with a rotation of 0 degrees the rotation matrix is the identity,
    whatever the anchor, the position and the viewport: the one
    [_set_rotation_matrix] stores and the one [Camera.use] publishes. *)
Theorem X6_no_rotation_is_identity :
  (forall s : AdvanceCamera.t,
      AdvanceCamera._rotation s = 0 ->
      AdvanceCamera._rotation_matrix
        (state_after AdvanceCamera._set_rotation_matrix s)
      = Mat4_identity)
  /\ (forall s s' : Camera.t,
         Camera._rotation s = 0 ->
         Camera.use s = (Return tt, s') ->
         view_matrix_2d (ctx (Camera._window s')) = Mat4_identity).
Proof.
  split.
  - intros s H. unfold state_after. rewrite adv_set_rotation_matrix_eq.
    cbn. unfold adv_rotation_of. rewrite H. apply rotation_matrix_zero.
  - intros s s' H Hu.
    assert (Hr : Camera._rotation s' = 0).
    { revert Hu. unfold Camera.use. cbv [bind modify]. cbv beta iota.
      destruct (Camera.update _) as [[[] | e] s1] eqn:E; [ | discriminate ].
      cbv [get]. cbv beta iota. intros Hu. injection Hu as <-. cbn.
      assert (Hk : Camera._rotation s1
                   = Camera._rotation
                       (Camera.with_window (set_current_camera (Camera._window s)) s)).
      { clear H. revert E. unfold Camera.update.
        cbv [bind get modify ret lift raise]. cbv beta iota zeta. cbn.
        destruct (Rltb _ _ && Rltb _ _); cbn.
        all: destruct (div _ _); cbn; [ | discriminate ].
        all: destruct (div _ _); cbn; [ | discriminate ].
        all: destruct (Camera.projection_matrix s); cbn; [ | discriminate ].
        all: intros E; injection E as <-; reflexivity. }
      rewrite Hk. exact H. }
    apply std_use_returns in Hu. destruct Hu as (_ & _ & Hv).
    rewrite Hv. unfold std_rotation_of. rewrite Hr. apply rotation_matrix_zero.
Qed.

(** X6, witness: a fresh [AdvanceCamera] with rotation 0. *)
Lemma X6_no_rotation_witness :
  AdvanceCamera._rotation_matrix
    (state_after AdvanceCamera._set_rotation_matrix (fresh_advance 0))
  = Mat4_identity.
Proof.
  apply (proj1 X6_no_rotation_is_identity). reflexivity.
Defined.

(** ** The view matrix after [update()] *)

Lemma translation_scale_one (v : Vec3) :
  matmul (from_translation v) (Mat4_scale Mat4_identity (mkVec3 1 1 1))
  = from_translation v.
Proof. destruct v. apply mat4_ext; mat_cbv; ring. Qed.

Lemma base_set_view_matrix_eq s :
  BaseCamera._set_view_matrix s
  = match base_view_of s with
    | Return v =>
        (Return tt,
         BaseCamera.with_combined_matrix
           (matmul (BaseCamera._projection_matrix s) v)
           (BaseCamera.with_view_matrix v s))
    | Raise e => (Raise e, s)
    end.
Proof.
  unfold BaseCamera._set_view_matrix, base_view_of, MatrixPipeline.view_matrix.
  cbv [bind get modify lift]. cbv beta iota. cbn [vx vy].
  replace (vx (BaseCamera.position s) + 0) with (vx (BaseCamera.position s))
    by ring.
  replace (vy (BaseCamera.position s) + 0) with (vy (BaseCamera.position s))
    by ring.
  replace (IZR (BaseCamera.viewport_width s) * 1 / 2)
    with (IZR (BaseCamera.viewport_width s) / 2) by field.
  replace (IZR (BaseCamera.viewport_height s) * 1 / 2)
    with (IZR (BaseCamera.viewport_height s) / 2) by field.
  destruct (div _ _); cbn; [ | reflexivity ].
  destruct (div _ _); cbn; [ | reflexivity ].
  rewrite translation_scale_one. reflexivity.
Qed.

(** X7: an [AdvanceCamera] that is not shaking and moves with speed 1 (as
    after [move()]) between points with whole-number coordinates arrives
    in one [update()]: it gets the goal as position and [moving] is
    cleared, but the update returns without recomputing the view and
    combined matrices, which stay as they were. *)
Theorem X7_advance_arrival_keeps_old_view_matrix :
  forall s : AdvanceCamera.t,
    AdvanceCamera.moving s = true ->
    AdvanceCamera.shaking s = false ->
    AdvanceCamera.move_speed s = 1 ->
    whole (AdvanceCamera.position s) ->
    whole (AdvanceCamera.goal_position s) ->
    let s' := state_after AdvanceCamera.update s in
    outcome_of AdvanceCamera.update s = Return tt
    /\ AdvanceCamera.position s' = AdvanceCamera.goal_position s
    /\ AdvanceCamera.moving s' = false
    /\ AdvanceCamera._view_matrix s' = AdvanceCamera._view_matrix s
    /\ AdvanceCamera._combined_matrix s' = AdvanceCamera._combined_matrix s.
Proof.
  intros s. destruct s as [w p g t m z r a n f sv so ss sd sh vp pr pm vm cm rm].
  cbn [AdvanceCamera.moving AdvanceCamera.shaking AdvanceCamera.position
       AdvanceCamera.goal_position AdvanceCamera.move_speed].
  intros -> -> -> _ _. cbv zeta.
  unfold AdvanceCamera.update, AdvanceCamera.apply_goal_position.
  cbv [bind get modify ret state_after outcome_of]. cbv beta iota.
  cbn [AdvanceCamera.moving AdvanceCamera.shaking AdvanceCamera.position
       AdvanceCamera.goal_position AdvanceCamera.move_speed
       AdvanceCamera.with_position AdvanceCamera.with_moving].
  cbv beta iota. rewrite lerp_one, (vec2_eqb_eq g g eq_refl). cbn.
  repeat split.
Qed.

(** X7, witness: a fresh [AdvanceCamera] after [move((100, 0))]. *)
Lemma X7_advance_arrival_witness :
  let s := state_after (AdvanceCamera.move (mkVec2 100 0)) (fresh_advance 0) in
  let s' := state_after AdvanceCamera.update s in
  outcome_of AdvanceCamera.update s = Return tt
  /\ AdvanceCamera.position s' = AdvanceCamera.goal_position s
  /\ AdvanceCamera.moving s' = false
  /\ AdvanceCamera._view_matrix s' = AdvanceCamera._view_matrix s
  /\ AdvanceCamera._combined_matrix s' = AdvanceCamera._combined_matrix s.
Proof.
  apply (X7_advance_arrival_keeps_old_view_matrix
           (state_after (AdvanceCamera.move (mkVec2 100 0)) (fresh_advance 0))).
  - reflexivity.
  - reflexivity.
  - reflexivity.
  - apply (whole_point 0 0); cbn; lia.
  - apply (whole_point 100 0); cbn; lia.
Defined.

(** X8: when [update()] returns, the view matrix is the one derived from
    the fields of the new state: for a [Camera] always; for a [BaseCamera]
    that was moving; for an [AdvanceCamera] that is still moving or
    shaking afterwards. *)
Theorem X8_update_refreshes_view_matrix :
  (forall s s' : Camera.t,
      Camera.update s = (Return tt, s') ->
      exists v, Camera.view_matrix s' = Some v /\ std_view_of s' = Return v)
  /\ (forall s s' : BaseCamera.t,
         BaseCamera.moving s = true ->
         BaseCamera.update s = (Return tt, s') ->
         base_view_of s' = Return (BaseCamera._view_matrix s'))
  /\ (forall s s' : AdvanceCamera.t,
         AdvanceCamera.update s = (Return tt, s') ->
         AdvanceCamera.moving s' = true \/ AdvanceCamera.shaking s' = true ->
         adv_view_fresh s').
Proof.
  split; [ | split ].
  - intros s s'. unfold Camera.update.
    cbv [bind get modify ret lift raise]. cbv beta iota zeta. cbn.
    destruct (Rltb _ _ && Rltb _ _); cbn.
    all: match goal with
         | |- context [div ?a ?b] => destruct (div a b) eqn:E1
         end; cbn; [ | discriminate ].
    all: match goal with
         | |- context [div ?a ?b] => destruct (div a b) eqn:E2
         end; cbn; [ | discriminate ].
    all: destruct (Camera.projection_matrix s); cbn; [ | discriminate ].
    all: intros H; injection H as <-; cbn.
    all: eexists; split; [ reflexivity | ].
    all: unfold std_view_of, MatrixPipeline.view_matrix; cbn.
    all: rewrite E1; cbn; rewrite E2; reflexivity.
  - intros s s' Hm. unfold BaseCamera.update.
    cbv [bind get modify ret]. cbv beta iota. rewrite Hm.
    destruct (vec2_eqb _ _); cbv beta iota.
    all: rewrite base_set_view_matrix_eq.
    all: destruct (base_view_of _) eqn:E; [ | discriminate ].
    all: intros H; injection H as <-; exact E.
  - intros s s'. unfold AdvanceCamera.update.
    cbv [bind get]. cbv beta iota.
    destruct ((if AdvanceCamera.moving s
               then AdvanceCamera.apply_goal_position else ret tt) s)
      as [[[] | e] s1]; [ | discriminate ].
    destruct ((if AdvanceCamera.shaking s1
               then AdvanceCamera.apply_camera_shake else ret tt) s1)
      as [[[] | e] s2]; [ | discriminate ].
    destruct (AdvanceCamera.moving s2 || AdvanceCamera.shaking s2) eqn:Eb.
    + rewrite adv_set_view_matrix_eq.
      destruct (adv_view_of s2) eqn:E; [ | discriminate ].
      intros H _. injection H as <-. exact E.
    + intros H Hor. injection H as <-. exfalso.
      apply orb_false_iff in Eb. destruct Eb as (E1 & E2).
      destruct Hor as [Ho | Ho]; congruence.
Qed.

(** X8, witness: a fresh [BaseCamera] after [move_to((100, 0), 0.25)]. *)
Lemma X8_update_refreshes_witness :
  exists s',
    BaseCamera.update base_moving_quarter = (Return tt, s')
    /\ base_view_of s' = Return (BaseCamera._view_matrix s').
Proof.
  assert (H : exists s', BaseCamera.update base_moving_quarter = (Return tt, s')).
  { unfold BaseCamera.update, base_moving_quarter, BaseCamera.move_to,
      fresh_base.
    cbv [bind get modify ret state_after]. cbn.
    unfold lerp. cbn. eval_eqb. cbv beta iota.
    rewrite base_set_view_matrix_eq.
    unfold base_view_of, MatrixPipeline.view_matrix. cbn. eval_div. cbn.
    eexists. reflexivity. }
  destruct H as [s' H]. exists s'. split; [ exact H | ].
  exact (proj1 (proj2 X8_update_refreshes_view_matrix)
           base_moving_quarter s' eq_refl H).
Defined.

(** ** [use()] on a camera at rest *)

(** X9: on an [AdvanceCamera] that is neither moving nor shaking, and on a
    [BaseCamera] that is not moving, [update()] returns and changes
    nothing, and a second [use()] returns and leaves the camera and what
    is published exactly as the first did. *)
Theorem X9_use_at_rest_is_idempotent :
  (forall s : AdvanceCamera.t,
      AdvanceCamera.moving s = false ->
      AdvanceCamera.shaking s = false ->
      let s1 := state_after AdvanceCamera.use s in
      AdvanceCamera.update s = (Return tt, s)
      /\ outcome_of AdvanceCamera.use s = Return tt
      /\ AdvanceCamera.use s1 = (Return tt, s1))
  /\ (forall s : BaseCamera.t,
         BaseCamera.moving s = false ->
         let s1 := state_after BaseCamera.use s in
         BaseCamera.update s = (Return tt, s)
         /\ outcome_of BaseCamera.use s = Return tt
         /\ BaseCamera.use s1 = (Return tt, s1)).
Proof.
  split.
  - intros s. destruct s as [w p g t m z r a n f sv so ss sd sh vp pr pm vm cm rm].
    cbn [AdvanceCamera.moving AdvanceCamera.shaking]. intros -> ->. cbv zeta.
    unfold AdvanceCamera.use, AdvanceCamera.update.
    cbv [bind get modify ret state_after outcome_of]. cbn.
    repeat split.
  - intros s. destruct s as [w vp pr pm vm cm p g t m].
    cbn [BaseCamera.moving]. intros ->. cbv zeta.
    unfold BaseCamera.use, BaseCamera.update.
    cbv [bind get modify ret state_after outcome_of]. cbn.
    repeat split.
Qed.

(** X9, witness: a fresh [AdvanceCamera]. *)
Lemma X9_use_at_rest_witness :
  let s1 := state_after AdvanceCamera.use (fresh_advance 0) in
  AdvanceCamera.update (fresh_advance 0) = (Return tt, fresh_advance 0)
  /\ outcome_of AdvanceCamera.use (fresh_advance 0) = Return tt
  /\ AdvanceCamera.use s1 = (Return tt, s1).
Proof.
  apply (proj1 X9_use_at_rest_is_idempotent); reflexivity.
Defined.

(** ** What [use()] publishes *)

(** X10: when [use()] of an [AdvanceCamera] returns, the window has this
    camera as current camera, and the context holds the camera's viewport,
    its combined matrix and its rotation matrix; when [use()] raises, the
    camera has already been made the current one, and the context is left
    as it was. *)
Theorem X10_use_publishes_or_leaves_context :
  forall s : AdvanceCamera.t,
    let s' := state_after AdvanceCamera.use s in
    current_camera (AdvanceCamera._window s') = true
    /\ match outcome_of AdvanceCamera.use s with
       | Return _ =>
           ctx (AdvanceCamera._window s')
           = mkContext (AdvanceCamera._viewport s')
                       (Some (AdvanceCamera._combined_matrix s'))
                       (AdvanceCamera._rotation_matrix s')
       | Raise _ =>
           ctx (AdvanceCamera._window s') = ctx (AdvanceCamera._window s)
       end.
Proof.
  intros s. cbv zeta. unfold AdvanceCamera.use.
  cbv [bind modify state_after outcome_of]. cbv beta iota.
  set (s0 := AdvanceCamera.with_window
               (set_current_camera (AdvanceCamera._window s)) s).
  assert (Hw : AdvanceCamera._window (state_after AdvanceCamera.update s0)
               = AdvanceCamera._window s0).
  { assert (Hp : preserves
                   (fun t => AdvanceCamera._window t = AdvanceCamera._window s0)
                   AdvanceCamera.update).
    { unfold AdvanceCamera.update, AdvanceCamera.apply_goal_position,
        AdvanceCamera.apply_camera_shake.
      cbv zeta.
      repeat first
        [ apply preserves_modify; intros ? ?; assumption
        | match goal with
          | |- preserves _ AdvanceCamera._set_view_matrix =>
              intros t Ht; unfold state_after;
              rewrite adv_set_view_matrix_eq;
              destruct (adv_view_of t); exact Ht
          end
        | preserves_step ]. }
    apply Hp. reflexivity. }
  unfold state_after in Hw.
  destruct (AdvanceCamera.update s0) as [[[] | e] s1]; cbn in Hw |- *.
  - rewrite Hw. split; reflexivity.
  - rewrite Hw. split; reflexivity.
Qed.

(** ** When the constructors return *)

Lemma orthogonal_projection_raises l r b t n f :
  r - l = 0 \/ t - b = 0 \/ f - n = 0 ->
  orthogonal_projection l r b t n f = Raise ZeroDivisionError.
Proof.
  intros H. unfold orthogonal_projection.
  destruct (div_cases 2 (r - l)) as [[_ E] | [Hw E]]; rewrite E; cbn;
    [ reflexivity | ].
  destruct (div_cases 2 (t - b)) as [[_ E'] | [Hh E']]; rewrite E'; cbn;
    [ reflexivity | ].
  rewrite (div_zero 2 (- (f - n))); [ reflexivity | ].
  destruct H as [H | [H | H]]; [ contradiction | contradiction | lra ].
Qed.

Lemma view_matrix_returns position shake_offset zoom w h :
  (w <> 0)%Z -> (h <> 0)%Z -> zoom <> 0 ->
  exists m, MatrixPipeline.view_matrix position shake_offset zoom w h = Return m.
Proof.
  intros Hw Hh Hz. unfold MatrixPipeline.view_matrix.
  assert (IZR w <> 0) by (apply not_0_IZR; exact Hw).
  assert (IZR h <> 0) by (apply not_0_IZR; exact Hh).
  assert (IZR w * zoom <> 0) by (apply Rmult_integral_contrapositive; tauto).
  assert (IZR h * zoom <> 0) by (apply Rmult_integral_contrapositive; tauto).
  rewrite !div_nonzero by lra. cbn. eexists. reflexivity.
Qed.

Lemma usable_sizes_cases viewport projection zoom :
  usable_sizes viewport projection zoom
  \/ ~ usable_sizes viewport projection zoom.
Proof.
  destruct projection as [[[l r] b] t]. unfold usable_sizes.
  destruct (Req_dec_T (r * zoom - l) 0) as [H1 | H1];
    [ right; intros (H & _); exact (H H1) | ].
  destruct (Req_dec_T (t * zoom - b) 0) as [H2 | H2];
    [ right; intros (_ & H & _); exact (H H2) | ].
  destruct (Z.eq_dec (tuple_2 viewport) 0) as [H3 | H3];
    [ right; intros (_ & _ & H & _); exact (H H3) | ].
  destruct (Z.eq_dec (tuple_3 viewport) 0) as [H4 | H4];
    [ right; intros (_ & _ & _ & H & _); exact (H H4) | ].
  destruct (Req_dec_T zoom 0) as [H5 | H5];
    [ right; intros (_ & _ & _ & _ & H); exact (H H5) | ].
  left. repeat split; assumption.
Qed.

Lemma adv_init_cases viewport projection zoom rotation anchor window :
  let vp := or_default viewport (0, 0, width window, height window)%Z in
  let pr := or_default projection
                       (0, IZR (width window), 0, IZR (height window)) in
  (usable_sizes vp pr zoom ->
   exists s, AdvanceCamera.__init__ viewport projection zoom rotation anchor
                                    window = Return s)
  /\ (~ usable_sizes vp pr zoom ->
      AdvanceCamera.__init__ viewport projection zoom rotation anchor window
      = Raise ZeroDivisionError).
Proof.
  cbv zeta. unfold AdvanceCamera.__init__.
  unfold FourIntTuple, FourFloatTuple.
  generalize (or_default projection
                (0, IZR (width window), 0, IZR (height window))).
  generalize (or_default viewport (0, 0, width window, height window)%Z).
  intros vp [[[l r] b] t]. unfold usable_sizes, constructed.
  split.
  - intros (Hw & Hh & Hvw & Hvh & Hz).
    cbv [bind]. rewrite adv_set_projection_matrix_eq.
    unfold adv_projection_of, MatrixPipeline.projection_matrix.
    cbn [AdvanceCamera._projection AdvanceCamera._zoom AdvanceCamera._near
         AdvanceCamera._far].
    cbv beta iota.
    rewrite orthogonal_projection_returns by lra.
    cbv beta iota. rewrite adv_set_view_matrix_eq.
    unfold adv_view_of, AdvanceCamera.viewport_width,
      AdvanceCamera.viewport_height.
    cbn [AdvanceCamera.with_projection_matrix AdvanceCamera.position
         AdvanceCamera.shake_offset AdvanceCamera._zoom
         AdvanceCamera._viewport].
    destruct (view_matrix_returns (mkVec2 0 0) (mkVec2 0 0) zoom
                (tuple_2 vp) (tuple_3 vp) Hvw Hvh Hz) as [m Hm].
    rewrite Hm. cbv beta iota. rewrite adv_set_rotation_matrix_eq.
    eexists. reflexivity.
  - intros Hn.
    cbv [bind]. rewrite adv_set_projection_matrix_eq.
    unfold adv_projection_of, MatrixPipeline.projection_matrix.
    cbn [AdvanceCamera._projection AdvanceCamera._zoom AdvanceCamera._near
         AdvanceCamera._far].
    cbv beta iota.
    destruct (Req_dec_T (r * zoom - l) 0) as [Hw | Hw].
    { rewrite orthogonal_projection_raises by (left; exact Hw).
      reflexivity. }
    destruct (Req_dec_T (t * zoom - b) 0) as [Hh | Hh].
    { rewrite orthogonal_projection_raises by (right; left; exact Hh).
      reflexivity. }
    rewrite orthogonal_projection_returns by lra.
    cbv beta iota. rewrite adv_set_view_matrix_eq.
    unfold adv_view_of, AdvanceCamera.viewport_width,
      AdvanceCamera.viewport_height.
    cbn [AdvanceCamera.with_projection_matrix AdvanceCamera.position
         AdvanceCamera.shake_offset AdvanceCamera._zoom
         AdvanceCamera._viewport].
    rewrite view_matrix_raises; [ reflexivity | ].
    destruct (Z.eq_dec (tuple_2 vp) 0) as [E1 | E1]; [ left; exact E1 | ].
    destruct (Z.eq_dec (tuple_3 vp) 0) as [E2 | E2];
      [ right; left; exact E2 | ].
    destruct (Req_dec_T zoom 0) as [E3 | E3]; [ right; right; exact E3 | ].
    exfalso. apply Hn. repeat split; assumption.
Qed.

(** X11: the constructor of [AdvanceCamera] returns a camera exactly when
    the zoomed projection has a width and a height other than zero, the
    viewport has a width and a height other than zero and the zoom is not
    zero (the defaults, taken from the window, included); otherwise it
    raises [ZeroDivisionError]. *)
Theorem X11_advance_constructor_returns_iff_usable_sizes :
  forall viewport projection zoom rotation anchor window,
    let vp := or_default viewport (0, 0, width window, height window)%Z in
    let pr := or_default projection
                         (0, IZR (width window), 0, IZR (height window)) in
    ((exists s, AdvanceCamera.__init__ viewport projection zoom rotation
                                       anchor window = Return s)
     <-> usable_sizes vp pr zoom)
    /\ (~ usable_sizes vp pr zoom ->
        AdvanceCamera.__init__ viewport projection zoom rotation anchor window
        = Raise ZeroDivisionError).
Proof.
  intros viewport projection zoom rotation anchor window. cbv zeta.
  destruct (adv_init_cases viewport projection zoom rotation anchor window)
    as (Hok & Hko).
  cbv zeta in Hok, Hko.
  split; [ split | exact Hko ].
  - intros [s Hs].
    destruct (usable_sizes_cases
                (or_default viewport (0, 0, width window, height window)%Z)
                (or_default projection
                   (0, IZR (width window), 0, IZR (height window)))
                zoom) as [H | H]; [ exact H | ].
    rewrite (Hko H) in Hs. discriminate Hs.
  - exact Hok.
Qed.

(** X11, witness: a zoom of zero in the window of 800 by 600. *)
Lemma X11_advance_constructor_witness :
  AdvanceCamera.__init__ None None 0 0 None window_800_600
  = Raise ZeroDivisionError.
Proof.
  apply (proj2 (X11_advance_constructor_returns_iff_usable_sizes
                  None None 0 0 None window_800_600)).
  unfold usable_sizes. cbn. intros (_ & _ & _ & _ & H). apply H. reflexivity.
Defined.

(** ** A viewport without extent on a [BaseCamera] *)

Lemma base_view_of_zero_extent s :
  (BaseCamera.viewport_width s = 0)%Z \/ (BaseCamera.viewport_height s = 0)%Z ->
  base_view_of s = Raise ZeroDivisionError.
Proof.
  intros H. unfold base_view_of. apply view_matrix_raises.
  destruct H as [H | H]; [ left | right; left ]; exact H.
Qed.

(** X12: the viewport setter of [BaseCamera] stores a viewport of zero
    width or height and returns, leaving the matrices as they were; the
    error shows at the next [update()] or [use()], and only if the camera
    is moving: [ZeroDivisionError] then, a plain return otherwise. *)
Theorem X12_base_zero_viewport_fails_at_next_update :
  forall (v : FourIntTuple) (s : BaseCamera.t),
    (tuple_2 v = 0)%Z \/ (tuple_3 v = 0)%Z ->
    let s1 := state_after (BaseCamera.viewport_setter v) s in
    outcome_of (BaseCamera.viewport_setter v) s = Return tt
    /\ BaseCamera._viewport s1 = v
    /\ BaseCamera._view_matrix s1 = BaseCamera._view_matrix s
    /\ BaseCamera._combined_matrix s1 = BaseCamera._combined_matrix s
    /\ outcome_of BaseCamera.update s1
       = (if BaseCamera.moving s then Raise ZeroDivisionError else Return tt)
    /\ outcome_of BaseCamera.use s1
       = (if BaseCamera.moving s then Raise ZeroDivisionError else Return tt).
Proof.
  intros v s H. cbv zeta.
  assert (Hu : forall w,
             outcome_of BaseCamera.update
               (BaseCamera.with_window w (BaseCamera.with_viewport v s))
             = (if BaseCamera.moving s
                then Raise ZeroDivisionError else Return tt)).
  { intros w. unfold BaseCamera.update, outcome_of.
    cbv [bind get modify ret]. cbv beta iota.
    cbn [BaseCamera.moving BaseCamera.with_window BaseCamera.with_viewport].
    destruct (BaseCamera.moving s); [ | reflexivity ].
    destruct (vec2_eqb _ _); cbv beta iota.
    all: rewrite base_set_view_matrix_eq.
    all: rewrite base_view_of_zero_extent by exact H.
    all: reflexivity. }
  unfold BaseCamera.viewport_setter.
  cbv [modify state_after outcome_of fst snd].
  split; [ reflexivity | ]. split; [ reflexivity | ].
  split; [ reflexivity | ]. split; [ reflexivity | ].
  split.
  - specialize (Hu (BaseCamera._window s)). unfold outcome_of in Hu.
    destruct s. exact Hu.
  - unfold BaseCamera.use. unfold bind at 1. cbv [modify]. cbv beta iota.
    unfold bind at 1.
    match goal with
    | |- context [BaseCamera.update ?x] =>
        pose proof (Hu (set_current_camera
                          (BaseCamera._window (BaseCamera.with_viewport v s))))
          as Hw;
        change (BaseCamera.with_window _ (BaseCamera.with_viewport v s))
          with x in Hw;
        unfold outcome_of in Hw;
        destruct (BaseCamera.update x) as [[[] | e] s2]
    end; cbn [fst] in Hw.
    + destruct (BaseCamera.moving s); [ discriminate Hw | ].
      reflexivity.
    + destruct (BaseCamera.moving s); [ | discriminate Hw ].
      cbn. exact Hw.
Qed.

(** X12, witness: a viewport of width zero on a [BaseCamera] that has been
    told to move. *)
Lemma X12_base_zero_viewport_witness :
  let v := (0, 0, 0, 600)%Z in
  let s1 := state_after (BaseCamera.viewport_setter v) base_moving_quarter in
  outcome_of (BaseCamera.viewport_setter v) base_moving_quarter = Return tt
  /\ BaseCamera._viewport s1 = v
  /\ BaseCamera._view_matrix s1 = BaseCamera._view_matrix base_moving_quarter
  /\ BaseCamera._combined_matrix s1
     = BaseCamera._combined_matrix base_moving_quarter
  /\ outcome_of BaseCamera.update s1
     = (if BaseCamera.moving base_moving_quarter
        then Raise ZeroDivisionError else Return tt)
  /\ outcome_of BaseCamera.use s1
     = (if BaseCamera.moving base_moving_quarter
        then Raise ZeroDivisionError else Return tt).
Proof.
  apply (X12_base_zero_viewport_fails_at_next_update
           (0, 0, 0, 600)%Z base_moving_quarter).
  left. reflexivity.
Defined.

(** ** The sizes of a [Camera] *)

(** X14: a viewport width or height of zero given to the constructor of
    [Camera] stands for the window's; the constructor returns when the
    sizes so chosen are not zero, with these sizes stored, and raises
    [ZeroDivisionError] otherwise.  [resize] has no such default: a width
    or height of zero is stored as given and [ZeroDivisionError] is
    raised, the projection matrix staying as it was. *)
Theorem X14_camera_zero_size_is_window_size_in_constructor_only :
  (forall (w h : Z) (window : Window),
      let ew := (if (w =? 0)%Z then width window else w) in
      let eh := (if (h =? 0)%Z then height window else h) in
      ((ew <> 0)%Z -> (eh <> 0)%Z ->
       exists s, Camera.__init__ w h window = Return s
                 /\ Camera.viewport_width s = ew
                 /\ Camera.viewport_height s = eh)
      /\ ((ew = 0)%Z \/ (eh = 0)%Z ->
          Camera.__init__ w h window = Raise ZeroDivisionError))
  /\ (forall (w h : Z) (s : Camera.t),
         (w = 0)%Z \/ (h = 0)%Z ->
         let s' := state_after (Camera.resize w h) s in
         outcome_of (Camera.resize w h) s = Raise ZeroDivisionError
         /\ Camera.viewport_width s' = w
         /\ Camera.viewport_height s' = h
         /\ Camera.projection_matrix s' = Camera.projection_matrix s).
Proof.
  split.
  - intros w h window. cbv zeta.
    unfold Camera.__init__, Camera.set_projection, constructed.
    generalize (if (w =? 0)%Z then width window else w).
    generalize (if (h =? 0)%Z then height window else h).
    intros eh ew. run. split.
    + intros Hw Hh.
      assert (IZR ew <> 0) by (apply not_0_IZR; exact Hw).
      assert (IZR eh <> 0) by (apply not_0_IZR; exact Hh).
      rewrite orthogonal_projection_returns by lra. cbn.
      eexists. split; [ reflexivity | ]. split; reflexivity.
    + intros [E | E]; rewrite E.
      * rewrite orthogonal_projection_raises by (left; lra). reflexivity.
      * rewrite orthogonal_projection_raises by (right; left; lra).
        reflexivity.
  - intros w h s H. cbv zeta. unfold Camera.resize, Camera.set_projection.
    run.
    destruct H as [E | E]; rewrite E.
    + rewrite orthogonal_projection_raises by (left; lra).
      cbn. repeat split.
    + rewrite orthogonal_projection_raises by (right; left; lra).
      cbn. repeat split.
Qed.

(** X14, witness: [Camera()] in the window of 800 by 600. *)
Lemma X14_camera_zero_size_witness :
  exists s, Camera.__init__ 0 0 window_800_600 = Return s
            /\ Camera.viewport_width s = 800%Z
            /\ Camera.viewport_height s = 600%Z.
Proof.
  apply (proj1 (proj1 X14_camera_zero_size_is_window_size_in_constructor_only
                  0%Z 0%Z window_800_600)); cbn; discriminate.
Defined.

(** ** No [TypeError] from a constructed [Camera] *)

Ltac std_projection_preserves :=
  cbv zeta;
  repeat first
    [ apply preserves_modify; intros ? ?; cbn;
      first [ assumption | discriminate ]
    | preserves_step ].

Lemma std_call_has_projection c :
  preserves std_has_projection (camera_call c).
Proof.
  unfold std_has_projection.
  destruct c; cbn [camera_call];
    unfold Camera.rotation_setter, Camera.anchor_setter, Camera.update,
      Camera.resize, Camera.shake, Camera.move, Camera.move_to, Camera.zoom,
      Camera.use, Camera.update, Camera.set_projection;
    std_projection_preserves.
Qed.

Lemma std_init_has_projection w h window s :
  Camera.__init__ w h window = Return s -> std_has_projection s.
Proof.
  unfold Camera.__init__, Camera.set_projection, constructed. run.
  destruct (orthogonal_projection _ _ _ _ _ _); cbn; [ | discriminate ].
  intros H. injection H as <-. unfold std_has_projection. cbn. discriminate.
Qed.

Lemma camera_reachable_has_projection s :
  camera_reachable s -> std_has_projection s.
Proof.
  induction 1 as [w h window s H | c s _ IH].
  - eapply std_init_has_projection. exact H.
  - apply std_call_has_projection. exact IH.
Qed.

Lemma std_update_no_type_error s :
  std_has_projection s -> outcome_of Camera.update s <> Raise TypeError.
Proof.
  unfold std_has_projection, Camera.update.
  cbv [bind get modify ret lift raise outcome_of]. cbv beta iota zeta. cbn.
  intros Hp.
  destruct (Rltb _ _ && Rltb _ _); cbn.
  all: match goal with
       | |- context [div ?a ?b] => destruct (div a b) eqn:E1
       end; cbn;
    [ | apply div_raises_only_zero_division in E1; rewrite E1; discriminate ].
  all: match goal with
       | |- context [div ?a ?b] => destruct (div a b) eqn:E2
       end; cbn;
    [ | apply div_raises_only_zero_division in E2; rewrite E2; discriminate ].
  all: destruct (Camera.projection_matrix s); cbn;
    [ discriminate | exfalso; apply Hp; reflexivity ].
Qed.

(** X15: a [Camera] that a client has built and used through its methods
    never raises [TypeError]: its projection matrix is set by the
    constructor and stays set, so the product with the view matrix in
    [update()] is always defined. *)
Theorem X15_constructed_camera_never_raises_type_error :
  forall (s : Camera.t) (c : CameraCall),
    camera_reachable s ->
    Camera.projection_matrix s <> None
    /\ outcome_of (camera_call c) s <> Raise TypeError.
Proof.
  intros s c Hr.
  pose proof (camera_reachable_has_projection s Hr) as Hp.
  split; [ exact Hp | ].
  destruct c; cbn [camera_call]; try (cbn; discriminate).
  - apply std_update_no_type_error. exact Hp.
  - unfold Camera.resize, Camera.set_projection. run.
    destruct (orthogonal_projection _ _ _ _ _ _) eqn:E; cbn;
      [ discriminate | ].
    apply orthogonal_projection_raises_only_zero_division in E.
    rewrite E. discriminate.
  - unfold Camera.use, outcome_of. unfold bind at 1. cbv [modify].
    cbv beta iota. unfold bind at 1.
    match goal with
    | |- context [Camera.update ?x] =>
        assert (Hx : outcome_of Camera.update x <> Raise TypeError)
          by (apply std_update_no_type_error; unfold std_has_projection;
              cbn; exact Hp);
        unfold outcome_of in Hx;
        destruct (Camera.update x) as [[[] | e] s2]
    end.
    + cbn. discriminate.
    + cbn in Hx. cbn. exact Hx.
Qed.

(** X15, witness: [update()] on a fresh [Camera]. *)
Lemma X15_constructed_camera_witness :
  Camera.projection_matrix fresh_camera <> None
  /\ outcome_of (camera_call CamUpdate) fresh_camera <> Raise TypeError.
Proof.
  apply (X15_constructed_camera_never_raises_type_error fresh_camera CamUpdate).
  apply (cam_reach_init 0%Z 0%Z window_800_600). exact camera_init_fresh.
Defined.
